(** * BalancerTracker: pool parsing, Aura overlay and the JSON data store

    A shallow embedding of [src/balancer_tracker.py] and [src/data_store.py].

    Modelling conventions.
    - Python [float] values are rationals ([Q]); arithmetic is exact, and
      equality of computed numbers is [Qeq] ([==]).
    - Python [str] values are [string]s of 8-bit characters; [lower] and
      [upper] act on the ASCII letters.
    - API payloads (dicts decoded from GraphQL / CoinGecko answers) are
      records; a field that may be missing or [null] is an [option], and the
      [x or default] idiom of the source is kept where the source has it.
    - Files hold JSON documents ([json]); [json.dump] followed by [json.load]
      is the identity on the documents that are written.
    - Exceptions that can leave a function are results [Raise e].
    - [datetime.utcnow()] formatted with [strftime] is an argument [now]; the
      queries that compare instants read a [Clock].
    - The answers of the Balancer API, of the price oracle and of the Aura
      subgraph during one run are a [Network] each. *)

From Stdlib Require Import QArith Qround Qpower Lqa ZArith String Ascii List DecimalString.
From Stdlib Require Import OrderedTypeEx Sorted.
From stdpp Require Import gmap strings.
Import ListNotations.

Set Warnings "-register-all".

Open Scope Q_scope.
Open Scope string_scope.

(** ** Python primitives *)

Module Py.

Inductive exn := KeyError | TypeError | AttributeError | ZeroDivisionError.

Inductive res (A : Type) : Type :=
| Ok (a : A)
| Raise (e : exn).
Arguments Ok {A} a.
Arguments Raise {A} e.

Definition res_bind {A B} (f : A -> res B) (m : res A) : res B :=
  match m with
  | Ok a => f a
  | Raise e => Raise e
  end.

#[global] Instance res_mbind : MBind res := @res_bind.
#[global] Instance res_mret : MRet res := @Ok.

(** [x / y] on floats. *)
Definition div (x y : Q) : res Q :=
  if Qeq_bool y 0 then Raise ZeroDivisionError else Ok (x / y).

(** Truth value of a number. *)
Definition truthy (x : Q) : bool := negb (Qeq_bool x 0).

(** [x or 0] for a numeric payload field that may be missing or null. *)
Definition or_zero (x : option Q) : Q := default 0 x.

Definition Qleb (x y : Q) : bool := Qle_bool x y.
Definition Qltb (x y : Q) : bool := negb (Qle_bool y x).

(** Rounding to the nearest integer, ties to even. *)
Definition round_half_even (x : Q) : Z :=
  let f := Qfloor x in
  match Qcompare (x - inject_Z f) (1 # 2) with
  | Lt => f
  | Gt => (f + 1)%Z
  | Eq => if Z.even f then f else (f + 1)%Z
  end.

Definition pow10 (n : nat) : positive := Pos.of_nat (10 ^ n).

(** [round(x, ndigits)]. *)
Definition round (x : Q) (ndigits : nat) : Q :=
  round_half_even (x * inject_Z (Z.pos (pow10 ndigits))) # pow10 ndigits.

(** [l[start:]] *)
Definition slice_from {A} (start : Z) (l : list A) : list A :=
  let len := Z.of_nat (length l) in
  let s := if (start <? 0)%Z then Z.max 0 (len + start) else start in
  drop (Z.to_nat s) l.

(** [sum(xs)], which starts from the integer 0. *)
Definition sum (xs : list Q) : Q := fold_left Qplus xs 0.

(** *** Strings *)

Definition code (c : ascii) : N := N_of_ascii c.

Definition is_upper (c : ascii) : bool := (65 <=? code c)%N && (code c <=? 90)%N.
Definition is_lower (c : ascii) : bool := (97 <=? code c)%N && (code c <=? 122)%N.
Definition is_digit (c : ascii) : bool := (48 <=? code c)%N && (code c <=? 57)%N.

Definition lower_char (c : ascii) : ascii :=
  if is_upper c then ascii_of_N (code c + 32) else c.
Definition upper_char (c : ascii) : ascii :=
  if is_lower c then ascii_of_N (code c - 32) else c.

Fixpoint map_string (f : ascii -> ascii) (s : string) : string :=
  match s with
  | EmptyString => EmptyString
  | String c r => String (f c) (map_string f r)
  end.

Definition lower : string -> string := map_string lower_char.
Definition upper : string -> string := map_string upper_char.

(** [s.lstrip(ch)], [s.rstrip(ch)] and [s.strip(ch)] for a one-character set. *)
Fixpoint lstrip (ch : ascii) (s : string) : string :=
  match s with
  | EmptyString => EmptyString
  | String c r => if Ascii.eqb c ch then lstrip ch r else s
  end.

Fixpoint rstrip (ch : ascii) (s : string) : string :=
  match s with
  | EmptyString => EmptyString
  | String c r =>
      match rstrip ch r with
      | EmptyString => if Ascii.eqb c ch then EmptyString else String c EmptyString
      | r' => String c r'
      end
  end.

Definition strip (ch : ascii) (s : string) : string := rstrip ch (lstrip ch s).

(** [re.sub] for a pattern of the shape [[class]+]: scanning from the left,
    at each position the longest non-empty run of class characters is one
    match and is replaced by [repl]; any other character is copied. *)
Fixpoint drop_class (cls : ascii -> bool) (s : string) : string :=
  match s with
  | EmptyString => EmptyString
  | String c r => if cls c then drop_class cls r else s
  end.

Fixpoint re_sub_plus_from (fuel : nat) (cls : ascii -> bool) (repl s : string) : string :=
  match fuel with
  | O => s
  | S fuel' =>
      match s with
      | EmptyString => EmptyString
      | String c r =>
          if cls c then repl ++ re_sub_plus_from fuel' cls repl (drop_class cls r)
          else String c (re_sub_plus_from fuel' cls repl r)
      end
  end.

Definition re_sub_plus (cls : ascii -> bool) (repl s : string) : string :=
  re_sub_plus_from (String.length s) cls repl s.

(** The class [[^a-z0-9]]. *)
Definition not_a_z_0_9 (c : ascii) : bool := negb (is_lower c || is_digit c).

(** *** Number formatting: [f"{x:.{d}f}"] *)

Definition digits (n : Z) : string := NilZero.string_of_uint (N.to_uint (Z.to_N n)).

Fixpoint zeros (n : nat) : string :=
  match n with
  | O => EmptyString
  | S n' => String "0" (zeros n')
  end.

Definition format_fixed (d : nat) (x : Q) : string :=
  let scaled := Z.abs (round_half_even (x * inject_Z (Z.pos (pow10 d)))) in
  let ip := (scaled / Z.pos (pow10 d))%Z in
  let fp := digits (scaled mod Z.pos (pow10 d))%Z in
  (if Qltb x 0 then "-" else "")
    ++ digits ip
    ++ match d with
       | O => ""
       | _ => "." ++ zeros (d - String.length fp) ++ fp
       end.

(** [sorted(set(xs))] on strings. *)
Fixpoint insert_sorted (x : string) (l : list string) : list string :=
  match l with
  | [] => [x]
  | y :: r =>
      if String.eqb x y then l
      else if String.ltb x y then x :: l
      else y :: insert_sorted x r
  end.

Definition sorted_set (xs : list string) : list string :=
  fold_right insert_sorted [] xs.

(** [os.path.join(a, b)] for a relative [b]. *)
Definition path_join (a b : string) : string :=
  if String.eqb a "" then b
  else if String.eqb (substring (String.length a - 1) 1 a) "/" then a ++ b
  else a ++ "/" ++ b.

End Py.

(** ** JSON documents *)

Module Json.

Inductive json :=
| JNull
| JBool (b : bool)
| JNum (q : Q)
| JStr (s : string)
| JArr (l : list json)
| JObj (kvs : list (string * json)).

(** A dict keeps insertion order; keys are unique. *)
Fixpoint dict_get (k : string) (kvs : list (string * json)) : option json :=
  match kvs with
  | [] => None
  | (k', v) :: r => if String.eqb k k' then Some v else dict_get k r
  end.

Definition dict_mem (k : string) (kvs : list (string * json)) : bool :=
  match dict_get k kvs with
  | Some _ => true
  | None => false
  end.

(** [d[k] = v]: overwrite in place, or add at the end. *)
Fixpoint dict_set (k : string) (v : json) (kvs : list (string * json)) : list (string * json) :=
  match kvs with
  | [] => [(k, v)]
  | (k', v') :: r =>
      if String.eqb k k' then (k, v) :: r else (k', v') :: dict_set k v r
  end.

(** [d.get(k, dflt)] *)
Definition get_or (k : string) (dflt : json) (kvs : list (string * json)) : json :=
  default dflt (dict_get k kvs).

(** Truth value of a JSON value as a Python object. *)
Definition truthy (j : json) : bool :=
  match j with
  | JNull => false
  | JBool b => b
  | JNum q => Py.truthy q
  | JStr s => negb (String.eqb s "")
  | JArr l => match l with [] => false | _ => true end
  | JObj kvs => match kvs with [] => false | _ => true end
  end.

Definition opt_num (x : option Q) : json :=
  match x with
  | Some q => JNum q
  | None => JNull
  end.

Definition opt_str (x : option string) : json :=
  match x with
  | Some s => JStr s
  | None => JNull
  end.

(** Typed views of a value. *)
Definition as_dict (j : json) : option (list (string * json)) :=
  match j with JObj kvs => Some kvs | _ => None end.
Definition as_list (j : json) : option (list json) :=
  match j with JArr l => Some l | _ => None end.
Definition as_num (j : json) : option Q :=
  match j with JNum q => Some q | _ => None end.
Definition as_str (j : json) : option string :=
  match j with JStr s => Some s | _ => None end.
Definition as_opt_num (j : json) : option (option Q) :=
  match j with JNull => Some None | JNum q => Some (Some q) | _ => None end.
Definition as_opt_str (j : json) : option (option string) :=
  match j with JNull => Some None | JStr s => Some (Some s) | _ => None end.

(** [mapM] in [option]. *)
Fixpoint all_some {A} (l : list (option A)) : option (list A) :=
  match l with
  | [] => Some []
  | x :: r =>
      match x, all_some r with
      | Some a, Some r' => Some (a :: r')
      | _, _ => None
      end
  end.

(** A file of the data directory. *)
Inductive file :=
| Missing
| Malformed
| Doc (j : json).

End Json.

(** ** data_store.py *)

Module DataStore.
Import Py Json.

(** One entry of [other_rewards]: the dict [{'token': ..., 'apy': ...}]. *)
Record OtherReward := {
  token : string;
  apy : Q
}.

Record PoolData := {
  name : string;
  chain : string;
  address : string;
  pool_id : string;
  tvl : Q;
  base_apy : Q;
  bal_rewards_apy : list Q;
  other_rewards : list OtherReward;
  total_apy : Q;
  coins : list string;
  coin_ratios : list string;
  coin_amounts : list Q;
  coin_prices : list Q;
  aura_apy : option Q;
  aura_tvl : option Q;
  aura_boost : option Q;
  aura_staking_contract : option string
}.

(** The store object together with the two files it owns. *)
Record PoolDataStore := {
  data_dir : string;
  latest : file;
  history : file
}.

Definition __init__ (data_dir : string) (latest history : file) : PoolDataStore :=
  {| data_dir := data_dir; latest := latest; history := history |}.

Definition latest_file (s : PoolDataStore) : string :=
  path_join (data_dir s) "balancer_pools_latest.json".

Definition history_file (s : PoolDataStore) : string :=
  path_join (data_dir s) "balancer_pools_history.json".

Definition _generate_pool_key (pool : PoolData) : string :=
  let name := lower (name pool) in
  let name := strip "_" (re_sub_plus not_a_z_0_9 "_" name) in
  chain pool ++ "_" ++ name.

Definition _format_currency (amount : Q) : string :=
  if Qleb 1000000000 amount then "$" ++ format_fixed 2 (amount / 1000000000) ++ "B"
  else if Qleb 1000000 amount then "$" ++ format_fixed 2 (amount / 1000000) ++ "M"
  else if Qleb 1000 amount then "$" ++ format_fixed 2 (amount / 1000) ++ "K"
  else "$" ++ format_fixed 2 amount.

Definition other_reward_to_json (r : OtherReward) : json :=
  JObj [("token", JStr (token r)); ("apy", JNum (apy r))].

Definition _pool_to_json (pool : PoolData) : json :=
  JObj [
    ("id", JStr (_generate_pool_key pool));
    ("name", JStr (name pool));
    ("chain", JStr (chain pool));
    ("address", JStr (address pool));
    ("pool_id", JStr (pool_id pool));
    ("data", JObj [
      ("tvl", JNum (round (tvl pool) 2));
      ("tvl_formatted", JStr (_format_currency (tvl pool)));
      ("base_apy", JNum (round (base_apy pool) 4));
      ("bal_rewards", JObj [
        ("min", JNum match bal_rewards_apy pool with
                     | x :: _ => round x 4
                     | [] => 0
                     end);
        ("max", JNum match bal_rewards_apy pool with
                     | _ :: y :: _ => round y 4
                     | _ => 0
                     end)
      ]);
      ("other_rewards", JArr (map other_reward_to_json (other_rewards pool)));
      ("total_apy", JNum (round (total_apy pool) 4))
    ]);
    ("tokens", JObj [
      ("coins", JArr (map JStr (coins pool)));
      ("ratios", JArr (map JStr (coin_ratios pool)));
      ("amounts", JArr (map (fun a => JNum (round a 6)) (coin_amounts pool)));
      ("prices", JArr (map (fun p => JNum (round p 4)) (coin_prices pool)))
    ]);
    ("aura", match aura_apy pool with
             | Some apy =>
                 JObj [
                   ("apy", JNum (round apy 4));
                   ("tvl", opt_num ((fun t => round t 2) <$> aura_tvl pool));
                   ("boost", opt_num ((fun b => round b 2) <$> aura_boost pool));
                   ("staking_contract", opt_str (aura_staking_contract pool))
                 ]
             | None => JNull
             end)
  ].

Definition json_to_other_reward (j : json) : option OtherReward :=
  d ← as_dict j;
  t ← dict_get "token" d ≫= as_str;
  a ← dict_get "apy" d ≫= as_num;
  Some {| token := t; apy := a |}.

Definition str_list (j : json) : option (list string) :=
  as_list j ≫= fun l => all_some (map as_str l).

Definition num_list (j : json) : option (list Q) :=
  as_list j ≫= fun l => all_some (map as_num l).

(** [_json_to_pool]: [None] is the source's [except Exception: return None].
    [PoolData] is typed here, so a value of another JSON type than [save]
    writes for a field is rejected as well (Python would carry it along
    untyped); [save] never writes such a document. *)
Definition _json_to_pool (data : json) : option PoolData :=
  d ← as_dict data;
  pool_data ← as_dict (get_or "data" (JObj []) d);
  tokens ← as_dict (get_or "tokens" (JObj []) d);
  aura ← as_dict (let a := get_or "aura" JNull d in if truthy a then a else JObj []);
  bal_rewards ← as_dict (get_or "bal_rewards" (JObj []) pool_data);
  name ← as_str (get_or "name" (JStr "Unknown") d);
  chain ← as_str (get_or "chain" (JStr "ethereum") d);
  address ← as_str (get_or "address" (JStr "") d);
  pool_id ← as_str (get_or "pool_id" (JStr "") d);
  tvl ← as_num (get_or "tvl" (JNum 0) pool_data);
  base_apy ← as_num (get_or "base_apy" (JNum 0) pool_data);
  bal_min ← as_num (get_or "min" (JNum 0) bal_rewards);
  bal_max ← as_num (get_or "max" (JNum 0) bal_rewards);
  other_rewards ← as_list (get_or "other_rewards" (JArr []) pool_data)
                    ≫= (fun l => all_some (map json_to_other_reward l));
  total_apy ← as_num (get_or "total_apy" (JNum 0) pool_data);
  coins ← str_list (get_or "coins" (JArr []) tokens);
  coin_ratios ← str_list (get_or "ratios" (JArr []) tokens);
  coin_amounts ← num_list (get_or "amounts" (JArr []) tokens);
  coin_prices ← num_list (get_or "prices" (JArr []) tokens);
  aura_apy ← as_opt_num (get_or "apy" JNull aura);
  aura_tvl ← as_opt_num (get_or "tvl" JNull aura);
  aura_boost ← as_opt_num (get_or "boost" JNull aura);
  aura_staking_contract ← as_opt_str (get_or "staking_contract" JNull aura);
  Some {|
    name := name;
    chain := chain;
    address := address;
    pool_id := pool_id;
    tvl := tvl;
    base_apy := base_apy;
    bal_rewards_apy := [bal_min; bal_max];
    other_rewards := other_rewards;
    total_apy := total_apy;
    coins := coins;
    coin_ratios := coin_ratios;
    coin_amounts := coin_amounts;
    coin_prices := coin_prices;
    aura_apy := aura_apy;
    aura_tvl := aura_tvl;
    aura_boost := aura_boost;
    aura_staking_contract := aura_staking_contract
  |}.

(** [save]: the new store and the returned path ([""] when nothing is saved). *)
Definition save (s : PoolDataStore) (now : string) (pool_data_list : list PoolData)
  : PoolDataStore * string :=
  match pool_data_list with
  | [] => (s, "")
  | _ =>
      let data := JObj [
        ("version", JStr "1.0");
        ("metadata", JObj [
          ("generated_at", JStr now);
          ("source", JStr "BalancerTracker");
          ("total_pools", JNum (inject_Z (Z.of_nat (length pool_data_list))));
          ("chains", JArr (map JStr (sorted_set (map chain pool_data_list))));
          ("has_aura", JBool (existsb (fun p => bool_decide (is_Some (aura_apy p))) pool_data_list))
        ]);
        ("pools", JArr (map _pool_to_json pool_data_list))
      ] in
      ({| data_dir := data_dir s; latest := Doc data; history := history s |},
       latest_file s)
  end.

(** [load]: a missing or malformed file gives [[]]; iterating [data["pools"]]
    raises when the document is not an object or the value cannot be iterated;
    iterating an object or a string yields strings, each of which
    [_json_to_pool] rejects. *)
Definition load (s : PoolDataStore) : res (list PoolData) :=
  match latest s with
  | Missing => Ok []
  | Malformed => Ok []
  | Doc data =>
      match data with
      | JObj d =>
          match get_or "pools" (JArr []) d with
          | JArr l => Ok (omap _json_to_pool l)
          | JObj _ | JStr _ => Ok []
          | _ => Raise TypeError
          end
      | _ => Raise AttributeError
      end
  end.

Definition _empty_history (now : string) : json :=
  JObj [("version", JStr "1.0"); ("last_updated", JStr now); ("pools", JObj [])].

(** [d[k]] and [d[k] = v] on a loaded document. *)
Definition getitem (k : string) (j : json) : res json :=
  match j with
  | JObj kvs =>
      match dict_get k kvs with
      | Some v => Ok v
      | None => Raise KeyError
      end
  | _ => Raise TypeError
  end.

Definition setitem (k : string) (v : json) (j : json) : res json :=
  match j with
  | JObj kvs => Ok (JObj (dict_set k v kvs))
  | _ => Raise TypeError
  end.

Definition snapshot_of (timestamp_str : string) (pool : PoolData) : json :=
  let snapshot := [
    ("timestamp", JStr timestamp_str);
    ("tvl", JNum (round (tvl pool) 2));
    ("base_apy", JNum (round (base_apy pool) 4));
    ("bal_rewards_min", JNum match bal_rewards_apy pool with
                             | x :: _ => round x 4
                             | [] => 0
                             end);
    ("bal_rewards_max", JNum match bal_rewards_apy pool with
                             | _ :: y :: _ => round y 4
                             | _ => 0
                             end);
    ("total_apy", JNum (round (total_apy pool) 4))
  ] in
  let snapshot :=
    match aura_apy pool with
    | Some a => dict_set "aura_apy" (JNum (round a 4)) snapshot
    | None => snapshot
    end in
  let snapshot :=
    match aura_tvl pool with
    | Some t => dict_set "aura_tvl" (JNum (round t 2)) snapshot
    | None => snapshot
    end in
  JObj snapshot.

(** [if max_snapshots: ... snapshots[-max_snapshots:]] *)
Definition trim (max_snapshots : option Z) (snapshots : list json) : list json :=
  match max_snapshots with
  | Some m =>
      if negb (m =? 0)%Z && (Z.of_nat (length snapshots) >? m)%Z
      then slice_from (- m) snapshots
      else snapshots
  | None => snapshots
  end.

(** The body of the loop of [append_history]. A [history["pools"]] that is
    not an object makes one of the statements of the body raise. *)
Definition append_snapshot (timestamp_str : string) (max_snapshots : option Z)
    (history : json) (pool : PoolData) : res json :=
  let pool_key := _generate_pool_key pool in
  pools ← getitem "pools" history ≫= (fun p =>
             match p with JObj kvs => Ok kvs | _ => Raise TypeError end);
  let pools :=
    if dict_mem pool_key pools then pools
    else dict_set pool_key
           (JObj [
              ("metadata", JObj [
                 ("name", JStr (name pool));
                 ("chain", JStr (chain pool));
                 ("address", JStr (address pool));
                 ("pool_id", JStr (pool_id pool))
              ]);
              ("snapshots", JArr [])
           ]) pools in
  let snapshot := snapshot_of timestamp_str pool in
  slot ← getitem pool_key (JObj pools);
  snapshots ← getitem "snapshots" slot ≫= (fun l =>
                 match l with JArr l => Ok l | _ => Raise AttributeError end);
  let snapshots := trim max_snapshots (snapshots ++ [snapshot]) in
  slot ← setitem "snapshots" (JArr snapshots) slot;
  setitem "pools" (JObj (dict_set pool_key slot pools)) history.

Fixpoint for_each {S A} (body : S -> A -> res S) (st : S) (l : list A) : res S :=
  match l with
  | [] => Ok st
  | x :: r => body st x ≫= (fun st' => for_each body st' r)
  end.

(** [append_history]: a raised exception leaves the files as they were. *)
Definition append_history (s : PoolDataStore) (now : string)
    (pool_data_list : list PoolData) (max_snapshots : option Z)
  : res (PoolDataStore * string) :=
  match pool_data_list with
  | [] => Ok (s, "")
  | _ =>
      let history :=
        match history s with
        | Doc j => j
        | Missing | Malformed => _empty_history now
        end in
      history ← setitem "last_updated" (JStr now) history;
      history ← for_each (append_snapshot now max_snapshots) history pool_data_list;
      Ok ({| data_dir := data_dir s; latest := latest s; history := Doc history |},
          history_file s)
  end.

(** The series of a pool key in the history file, as [get_history(key)]
    exposes it under ["snapshots"]. *)
Definition series_of (s : PoolDataStore) (pool_key : string) : option (list json) :=
  match history s with
  | Doc h =>
      d ← as_dict h;
      pools ← dict_get "pools" d ≫= as_dict;
      slot ← dict_get pool_key pools ≫= as_dict;
      dict_get "snapshots" slot ≫= as_list
  | _ => None
  end.

End DataStore.

(** ** balancer_tracker.py: the Aura Finance client *)

Module Aura.
Import Py.

(** One entry of [rewardData]; [token_symbol] is
    [reward.get('token', {}).get('symbol', '')]. *)
Record RewardData := {
  token_symbol : string;
  token_decimals : option Z;
  rewardRate : option Q
}.

(** One pool of the subgraph answer; [lpToken_id] is
    [pool.get('lpToken', {}).get('id', '')]. *)
Record AuraPool := {
  lpToken_id : string;
  totalStaked : option Q;
  rewardPool : option string;
  rewardData : list RewardData
}.

(** What a request for the price batch comes back with: HTTP 429, any other
    failure, or the decoded body (oracle id and [price_data.get('usd')]). *)
Inductive Response :=
| RateLimited
| Failed
| Prices (data : list (string * option Q)).

(** The network as the client sees it during one run: the answer to the
    [attempt]-th price request, and the pools a subgraph URL returns
    ([[]] when the request fails). *)
Record Network := {
  coingecko : nat -> Response;
  subgraph : string -> list AuraPool
}.

Definition SUBGRAPH_URLS : list (string * string) := [
  ("ethereum", "https://api.subgraph.ormilabs.com/api/public/396b336b-4ed7-469f-a8f4-468e1e26e9a8/subgraphs/aura-finance-mainnet/v0.0.1/");
  ("mainnet", "https://api.subgraph.ormilabs.com/api/public/396b336b-4ed7-469f-a8f4-468e1e26e9a8/subgraphs/aura-finance-mainnet/v0.0.1/");
  ("arbitrum", "https://api.subgraph.ormilabs.com/api/public/396b336b-4ed7-469f-a8f4-468e1e26e9a8/subgraphs/aura-finance-arbitrum/v0.0.1/");
  ("optimism", "https://api.subgraph.ormilabs.com/api/public/396b336b-4ed7-469f-a8f4-468e1e26e9a8/subgraphs/aura-finance-optimism/v0.0.1/");
  ("base", "https://api.subgraph.ormilabs.com/api/public/396b336b-4ed7-469f-a8f4-468e1e26e9a8/subgraphs/aura-finance-base/v0.0.1/");
  ("polygon", "https://api.subgraph.ormilabs.com/api/public/396b336b-4ed7-469f-a8f4-468e1e26e9a8/subgraphs/aura-finance-polygon/v0.0.1/");
  ("avalanche", "https://api.subgraph.ormilabs.com/api/public/396b336b-4ed7-469f-a8f4-468e1e26e9a8/subgraphs/aura-finance-avalanche/v0.0.1/")
].

Definition COINGECKO_IDS : list (string * string) := [
  ("AURA", "aura-finance");
  ("BAL", "balancer");
  ("GHO", "gho");
  ("USDC", "usd-coin");
  ("OP", "optimism");
  ("axlOP", "optimism")
].

Fixpoint assoc {A} (k : string) (l : list (string * A)) : option A :=
  match l with
  | [] => None
  | (k', v) :: r => if String.eqb k k' then Some v else assoc k r
  end.

Record AuraFinanceAPI := {
  _pools_cache : gmap string (gmap string AuraPool);
  _price_cache : gmap string Q;
  _prices_fetched : bool
}.

Definition __init__ : AuraFinanceAPI :=
  {| _pools_cache := ∅; _price_cache := ∅; _prices_fetched := false |}.

(** Reverse mapping: coingecko id -> symbols. *)
Definition id_to_symbols : gmap string (list string) :=
  fold_left
    (fun (m : gmap string (list string)) '(symbol, cg_id) =>
       <[cg_id := (default [] (m !! cg_id) ++ [symbol])%list]> m)
    COINGECKO_IDS ∅.

(** "Map prices back to symbols". *)
Definition store_price (cache : gmap string Q) (entry : string * option Q) : gmap string Q :=
  let '(cg_id, price) := entry in
  match price, id_to_symbols !! cg_id with
  | Some price, Some symbols =>
      if truthy price
      then fold_left (fun (c : gmap string Q) symbol => <[symbol := price]> c) symbols cache
      else cache
  | _, _ => cache
  end.

Definition mark_fetched (cache : gmap string Q) (api : AuraFinanceAPI) : AuraFinanceAPI :=
  {| _pools_cache := _pools_cache api; _price_cache := cache; _prices_fetched := true |}.

(** The retry loop [for attempt in range(max_retries)], entered at [attempt]
    with [remaining] iterations left ([time.sleep] is not modelled). *)
Fixpoint fetch_attempts (net : Network) (max_retries remaining attempt : nat)
    (api : AuraFinanceAPI) : AuraFinanceAPI :=
  match remaining with
  | O => mark_fetched (_price_cache api) api
  | S remaining' =>
      match coingecko net attempt with
      | Prices data => mark_fetched (fold_left store_price data (_price_cache api)) api
      | RateLimited =>
          if (attempt <? max_retries - 1)%nat
          then fetch_attempts net max_retries remaining' (S attempt) api
          else mark_fetched (_price_cache api) api
      | Failed => mark_fetched (_price_cache api) api
      end
  end.

Definition fetch_all_prices (net : Network) (max_retries : nat) (api : AuraFinanceAPI)
  : gmap string Q * AuraFinanceAPI :=
  if _prices_fetched api then (_price_cache api, api)
  else
    let api := fetch_attempts net max_retries max_retries 0 api in
    (_price_cache api, api).

Definition get_token_price (net : Network) (api : AuraFinanceAPI) (symbol : string)
  : option Q * AuraFinanceAPI :=
  let api := if _prices_fetched api then api else snd (fetch_all_prices net 3 api) in
  match _price_cache api !! symbol with
  | Some p => (Some p, api)
  | None =>
      match _price_cache api !! upper symbol with
      | Some p => (Some p, api)
      | None => (None, api)
      end
  end.

Definition get_pools (net : Network) (api : AuraFinanceAPI) (chain : string)
  : gmap string AuraPool * AuraFinanceAPI :=
  let chain_lower := lower chain in
  match _pools_cache api !! chain_lower with
  | Some pools => (pools, api)
  | None =>
      match assoc chain_lower SUBGRAPH_URLS with
      | None => (∅, api)
      | Some url =>
          let pools := subgraph net url in
          let indexed :=
            fold_left
              (fun (indexed : gmap string AuraPool) pool =>
                 let lp_address := lower (lpToken_id pool) in
                 if String.eqb lp_address "" then indexed
                 else <[lp_address := pool]> indexed)
              pools ∅ in
          (indexed,
           {| _pools_cache := <[chain_lower := indexed]> (_pools_cache api);
              _price_cache := _price_cache api;
              _prices_fetched := _prices_fetched api |})
      end
  end.

Definition find_pool_by_balancer_address (net : Network) (api : AuraFinanceAPI)
    (balancer_address chain : string) : option AuraPool * AuraFinanceAPI :=
  let '(pools, api) := get_pools net api chain in
  (pools !! lower balancer_address, api).

(** The dict returned by [calculate_aura_apr] when it is not empty. *)
Record AprData := {
  total_apr : Q;
  bal_apr : Q;
  aura_apr : Q;
  extra_apr : Q
}.

(** The variables the reward loop updates, with the client it calls. *)
Record Rates := {
  api_of : AuraFinanceAPI;
  bal : Q;
  aura : Q;
  extra : Q
}.

Definition seconds_per_year : Q := 365 * 86400.

(** The body of [for reward in reward_data]. *)
Definition reward_step (net : Network) (tvl bal_max_apr : Q) (st : Rates)
    (reward : RewardData) : res Rates :=
  let token_symbol := token_symbol reward in
  let decimals :=
    match token_decimals reward with
    | Some d => if (d =? 0)%Z then 18%Z else d
    | None => 18%Z
    end in
  let reward_rate := or_zero (rewardRate reward) in
  if Qleb reward_rate 0 then Ok st
  else
    let '(token_price, api) := get_token_price net (api_of st) token_symbol in
    match token_price with
    | Some token_price =>
        if truthy token_price then
          per_unit ← div reward_rate (10 ^ decimals);
          let tokens_per_year := per_unit * seconds_per_year in
          share ← div (tokens_per_year * token_price) tvl;
          let apr := share * 100 in
          if String.eqb token_symbol "BAL"
          then Ok {| api_of := api; bal := apr; aura := aura st; extra := extra st |}
          else if String.eqb token_symbol "AURA"
          then Ok {| api_of := api; bal := bal st; aura := apr; extra := extra st |}
          else Ok {| api_of := api; bal := bal st; aura := aura st; extra := extra st + apr |}
        else if String.eqb token_symbol "BAL"
        then Ok {| api_of := api; bal := bal_max_apr; aura := aura st; extra := extra st |}
        else Ok {| api_of := api; bal := bal st; aura := aura st; extra := extra st |}
    | None =>
        if String.eqb token_symbol "BAL"
        then Ok {| api_of := api; bal := bal_max_apr; aura := aura st; extra := extra st |}
        else Ok {| api_of := api; bal := bal st; aura := aura st; extra := extra st |}
    end.

Fixpoint reward_loop (net : Network) (tvl bal_max_apr : Q) (st : Rates)
    (reward_data : list RewardData) : res Rates :=
  match reward_data with
  | [] => Ok st
  | reward :: rest =>
      reward_step net tvl bal_max_apr st reward ≫= (fun st' =>
        reward_loop net tvl bal_max_apr st' rest)
  end.

(** [calculate_aura_apr]; [aura_pool = None] stands for a falsy argument
    ([None] or an empty dict), and the result [None] for the empty dict. *)
Definition calculate_aura_apr (net : Network) (api : AuraFinanceAPI)
    (aura_pool : option AuraPool) (tvl bal_max_apr : Q)
  : res (option AprData * AuraFinanceAPI) :=
  match aura_pool with
  | None => Ok (None, api)
  | Some aura_pool =>
      if Qleb tvl 0 then Ok (None, api)
      else
        st ← reward_loop net tvl bal_max_apr
               {| api_of := api; bal := 0; aura := 0; extra := 0 |}
               (rewardData aura_pool);
        Ok (Some {| total_apr := bal st + aura st + extra st;
                    bal_apr := bal st;
                    aura_apr := aura st;
                    extra_apr := extra st |},
            api_of st)
  end.

Definition get_aura_tvl (aura_pool : option AuraPool) (bpt_price : Q) : Q :=
  match aura_pool with
  | None => 0
  | Some aura_pool =>
      let total_staked := or_zero (totalStaked aura_pool) in
      let staked_tokens := total_staked / 1000000000000000000 in
      staked_tokens * bpt_price
  end.

End Aura.

(** ** balancer_tracker.py: the tracker *)

(** The pool payload of the Balancer API. [None] is a missing key (or a
    [null] where the source guards with [or]). *)
Module Payload.

Record AprItem := {
  type : string;
  title : string;
  apr : option Q;
  rewardTokenSymbol : string
}.

Record PoolToken := {
  symbol : option string;
  balance : option Q;
  weight : option Q
}.

Record DynamicData := {
  totalLiquidity : option Q;
  totalShares : option Q;
  aprItems : list AprItem
}.

Record Pool := {
  id : option string;
  address : option string;
  name : option string;
  dynamicData : DynamicData;
  poolTokens : list PoolToken
}.

End Payload.

Module Tracker.
Import Py DataStore.

Record BalancerTracker := {
  enable_aura : bool;
  aura_api : option Aura.AuraFinanceAPI
}.

Definition __init__ (enable_aura : bool) : BalancerTracker :=
  {| enable_aura := enable_aura;
     aura_api := if enable_aura then Some Aura.__init__ else None |}.

(** The variables the loop over [apr_items] updates. *)
Record Apr := {
  apr_base_apy : Q;
  bal_base : Q;
  bal_boost : Q;
  apr_other_rewards : list OtherReward
}.

(** The body of [for item in apr_items]. *)
Definition apr_step (acc : Apr) (item : Payload.AprItem) : Apr :=
  let apr_type := Payload.type item in
  let title := Payload.title item in
  let apr_value := or_zero (Payload.apr item) * 100 in
  if String.eqb apr_type "SWAP_FEE_24H" then
    {| apr_base_apy := apr_value; bal_base := bal_base acc;
       bal_boost := bal_boost acc; apr_other_rewards := apr_other_rewards acc |}
  else if String.eqb apr_type "VEBAL_EMISSIONS" then
    {| apr_base_apy := apr_base_apy acc; bal_base := apr_value;
       bal_boost := bal_boost acc; apr_other_rewards := apr_other_rewards acc |}
  else if String.eqb apr_type "STAKING_BOOST" then
    {| apr_base_apy := apr_base_apy acc; bal_base := bal_base acc;
       bal_boost := apr_value; apr_other_rewards := apr_other_rewards acc |}
  else if Qltb 0 apr_value then
    {| apr_base_apy := apr_base_apy acc; bal_base := bal_base acc;
       bal_boost := bal_boost acc;
       apr_other_rewards :=
         (apr_other_rewards acc ++ [{| token := title; apy := apr_value |}])%list |}
  else acc.

Definition parse_apr_items (apr_items : list Payload.AprItem) : Apr :=
  fold_left apr_step apr_items
    {| apr_base_apy := 0; bal_base := 0; bal_boost := 0; apr_other_rewards := [] |}.

(** The body of [for token in pool_data.get('poolTokens', [])]: the symbol,
    the amount and the ratio string of one token. The division by
    [len(poolTokens)] is inside the loop, so the length is at least 1. *)
Definition parse_token (n_tokens : nat) (token : Payload.PoolToken) : string * Q * string :=
  let symbol := default "Unknown" (Payload.symbol token) in
  let balance := or_zero (Payload.balance token) in
  let ratio_pct :=
    match Payload.weight token with
    | Some w => if truthy w then w * 100 else 100 / inject_Z (Z.of_nat n_tokens)
    | None => 100 / inject_Z (Z.of_nat n_tokens)
    end in
  (symbol, balance, symbol ++ ": " ++ format_fixed 1 ratio_pct ++ "%").

(** [_parse_pool]; [pool_data = None] stands for a falsy payload. The result
    carries the tracker, whose Aura client caches what it fetched. A pool of
    the Aura index is a non-empty dict, so [if aura_pool:] tests whether the
    address was found. *)
Definition _parse_pool (net : Aura.Network) (self : BalancerTracker)
    (pool_data : option Payload.Pool) (chain : string) (aura_enabled : bool)
  : res (option PoolData * BalancerTracker) :=
  match pool_data with
  | None => Ok (None, self)
  | Some pool_data =>
      let dynamic := Payload.dynamicData pool_data in
      let tvl := or_zero (Payload.totalLiquidity dynamic) in
      let acc := parse_apr_items (Payload.aprItems dynamic) in
      let base_apy := apr_base_apy acc in
      let other_rewards := apr_other_rewards acc in
      let bal_rewards := [bal_base acc; bal_base acc + bal_boost acc] in
      let total_apy := base_apy + bal_base acc + sum (map apy other_rewards) in
      let tokens :=
        map (parse_token (length (Payload.poolTokens pool_data)))
            (Payload.poolTokens pool_data) in
      '(aura_apy, aura_tvl, aura_boost, aura_staking_contract, self) ←
        match aura_api self with
        | Some api =>
            if aura_enabled then
              let pool_address := default "" (Payload.address pool_data) in
              let '(aura_pool, api) :=
                Aura.find_pool_by_balancer_address net api pool_address chain in
              match aura_pool with
              | Some aura_pool =>
                  let bal_max_apr := bal_base acc + bal_boost acc in
                  '(aura_apr_data, api) ←
                    Aura.calculate_aura_apr net api (Some aura_pool) tvl bal_max_apr;
                  let aura_apy :=
                    match aura_apr_data with
                    | Some d => Some (base_apy + Aura.total_apr d + sum (map apy other_rewards))
                    | None => None
                    end in
                  let total_shares := or_zero (Payload.totalShares dynamic) in
                  let bpt_price := if Qltb 0 total_shares then tvl / total_shares else 1 in
                  let aura_tvl := Aura.get_aura_tvl (Some aura_pool) bpt_price in
                  Ok (aura_apy, Some aura_tvl, Some 2.5, Aura.rewardPool aura_pool,
                      {| enable_aura := enable_aura self; aura_api := Some api |})
              | None =>
                  Ok (None, None, None, None,
                      {| enable_aura := enable_aura self; aura_api := Some api |})
              end
            else Ok (None, None, None, None, self)
        | None => Ok (None, None, None, None, self)
        end;
      Ok (Some {|
            name := default "Unknown" (Payload.name pool_data);
            chain := chain;
            address := default "" (Payload.address pool_data);
            pool_id := default "" (Payload.id pool_data);
            tvl := tvl;
            base_apy := base_apy;
            bal_rewards_apy := bal_rewards;
            other_rewards := other_rewards;
            total_apy := total_apy;
            coins := map (fun t => fst (fst t)) tokens;
            coin_ratios := map snd tokens;
            coin_amounts := map (fun t => snd (fst t)) tokens;
            coin_prices := map (fun _ => 0) tokens;
            aura_apy := aura_apy;
            aura_tvl := aura_tvl;
            aura_boost := aura_boost;
            aura_staking_contract := aura_staking_contract
          |}, self)
  end.

End Tracker.

(** ** The specification's notions *)

Module Spec.
Import Py Json DataStore.

(** "Alphanumeric": an ASCII letter or digit. *)
Definition is_alnum (c : ascii) : bool := is_lower c || is_upper c || is_digit c.

(** "Every run of non-alphanumeric characters collapsed to a single
    underscore": one pass over the string; [in_run] tells whether the previous
    character belonged to a run that has already been replaced. *)
Fixpoint collapse_runs (keep : ascii -> bool) (in_run : bool) (s : string) : string :=
  match s with
  | EmptyString => EmptyString
  | String c r =>
      if keep c then String c (collapse_runs keep false r)
      else if in_run then collapse_runs keep true r
      else String "_" (collapse_runs keep true r)
  end.

(** "Name lowercased with every run of non-alphanumeric characters collapsed
    to a single underscore, leading/trailing underscores stripped". *)
Definition slug (name : string) : string :=
  strip "_" (collapse_runs is_alnum false (lower name)).

(** The key as the specification derives it from [(chain, name)]. *)
Definition key (chain name : string) : string :=
  lower chain ++ "_" ++ slug name.

(** A slug: only [a-z], [0-9] and single underscores; [after_us] tells whether
    the character before the string is an underscore. *)
Fixpoint clean (after_us : bool) (s : string) : bool :=
  match s with
  | EmptyString => true
  | String c r =>
      if is_lower c || is_digit c then clean false r
      else if Ascii.eqb c "_" then negb after_us && clean true r
      else false
  end.

(** The record that is read back after [pool] has been saved: numbers
    rounded as they are serialized, and the overlay kept only when [aura_apy]
    is present. *)
Definition reload (pool : PoolData) : PoolData :=
  let with_apy {A} (x : option A) : option A :=
    match aura_apy pool with
    | Some _ => x
    | None => None
    end in
  {| name := name pool;
     chain := chain pool;
     address := address pool;
     pool_id := pool_id pool;
     tvl := round (tvl pool) 2;
     base_apy := round (base_apy pool) 4;
     bal_rewards_apy :=
       [match bal_rewards_apy pool with x :: _ => round x 4 | [] => 0 end;
        match bal_rewards_apy pool with _ :: y :: _ => round y 4 | _ => 0 end];
     other_rewards := other_rewards pool;
     total_apy := round (total_apy pool) 4;
     coins := coins pool;
     coin_ratios := coin_ratios pool;
     coin_amounts := map (fun a => round a 6) (coin_amounts pool);
     coin_prices := map (fun p => round p 4) (coin_prices pool);
     aura_apy := (fun a => round a 4) <$> aura_apy pool;
     aura_tvl := with_apy ((fun t => round t 2) <$> aura_tvl pool);
     aura_boost := with_apy ((fun b => round b 2) <$> aura_boost pool);
     aura_staking_contract := with_apy (aura_staking_contract pool) |}.

(** The series of a key in a history document. *)
Definition doc_series (h : json) (pool_key : string) : option (list json) :=
  d ← as_dict h;
  pools ← dict_get "pools" d ≫= as_dict;
  slot ← dict_get pool_key pools ≫= as_dict;
  dict_get "snapshots" slot ≫= as_list.

(** The entries of a key's series; a key without a series has none. *)
Definition entries (s : PoolDataStore) (pool_key : string) : list json :=
  default [] (series_of s pool_key).

(** Successive calls of [append_history], each with one record and its own
    timestamp. *)
Fixpoint append_each (s : PoolDataStore) (calls : list (string * PoolData))
    (max_snapshots : option Z) : res PoolDataStore :=
  match calls with
  | [] => Ok s
  | (now, pool) :: rest =>
      append_history s now [pool] max_snapshots ≫= (fun out =>
        append_each (fst out) rest max_snapshots)
  end.

(** The document [append_history] starts from. *)
Definition start_of (now : string) (s : PoolDataStore) : json :=
  match history s with
  | Doc j => j
  | Missing | Malformed => _empty_history now
  end.

(** A history document of the shape [append_history] writes: an object whose
    ["pools"] is an object of slots, each an object with a list under
    ["snapshots"]. *)
Definition slot_ok (slot : json) : Prop :=
  exists d l, slot = JObj d /\ dict_get "snapshots" d = Some (JArr l).

Definition history_ok (h : json) : Prop :=
  exists d pools,
    h = JObj d /\ dict_get "pools" d = Some (JObj pools)
    /\ forall k slot, dict_get k pools = Some slot -> slot_ok slot.

(** A history file that is missing, malformed, or holds such a document. *)
Definition file_ok (f : file) : Prop :=
  match f with
  | Doc h => history_ok h
  | Missing | Malformed => True
  end.

(** "The sum of other_rewards apy values": the values added one by one. *)
Fixpoint apy_sum (other_rewards : list OtherReward) : Q :=
  match other_rewards with
  | [] => 0
  | reward :: rest => apy reward + apy_sum rest
  end.

End Spec.

(** ** The overlay seen from outside the client *)

Module Overlay.
Import Py Aura.

(** The client after its first price lookup of the run. *)
Definition settled (net : Network) (api : AuraFinanceAPI) : AuraFinanceAPI :=
  if _prices_fetched api then api else snd (fetch_all_prices net 3 api).

(** The two cache probes of [get_token_price]. *)
Definition lookup_price (cache : gmap string Q) (symbol : string) : option Q :=
  match cache !! symbol with
  | Some p => Some p
  | None => cache !! upper symbol
  end.

(** What [get_token_price] answers for a symbol, and whether the answer
    passes the test [if not token_price]. *)
Definition price (net : Network) (api : AuraFinanceAPI) (symbol : string) : option Q :=
  fst (get_token_price net api symbol).

Definition usable (p : option Q) : bool :=
  match p with
  | Some p => truthy p
  | None => false
  end.

Definition resolves (net : Network) (api : AuraFinanceAPI) (symbol : string) : bool :=
  usable (price net api symbol).

(** The body of the answer the price request ends with: the prices of the
    first successful attempt, nothing when the request is given up. *)
Fixpoint batch (net : Network) (max_retries remaining attempt : nat)
  : list (string * option Q) :=
  match remaining with
  | O => []
  | S remaining' =>
      match coingecko net attempt with
      | Prices data => data
      | RateLimited =>
          if (attempt <? max_retries - 1)%nat
          then batch net max_retries remaining' (S attempt)
          else []
      | Failed => []
      end
  end.

(** A reward in the primary currency that passes the rate test. *)
Definition is_bal_reward (reward : RewardData) : bool :=
  String.eqb (token_symbol reward) "BAL" && negb (Qleb (or_zero (rewardRate reward)) 0).

Definition decimals_of (reward : RewardData) : Z :=
  match token_decimals reward with
  | Some d => if (d =? 0)%Z then 18%Z else d
  | None => 18%Z
  end.

(** The APR of one reward at a given price. *)
Definition apr_of (tvl : Q) (reward : RewardData) (token_price : Q) : Q :=
  or_zero (rewardRate reward) / 10 ^ decimals_of reward * seconds_per_year
    * token_price / tvl * 100.

(** One reward's effect on [(bal_apr, aura_apr, extra_apr)] for given prices. *)
Definition step (prices : string -> option Q) (tvl bal_max_apr : Q)
    (acc : Q * Q * Q) (reward : RewardData) : Q * Q * Q :=
  let '(b, a, e) := acc in
  if Qleb (or_zero (rewardRate reward)) 0 then acc
  else
    match prices (token_symbol reward) with
    | Some p =>
        if truthy p then
          if String.eqb (token_symbol reward) "BAL" then (apr_of tvl reward p, a, e)
          else if String.eqb (token_symbol reward) "AURA" then (b, apr_of tvl reward p, e)
          else (b, a, e + apr_of tvl reward p)
        else if String.eqb (token_symbol reward) "BAL" then (bal_max_apr, a, e)
        else acc
    | None =>
        if String.eqb (token_symbol reward) "BAL" then (bal_max_apr, a, e)
        else acc
    end.

Definition rates_of (st : Rates) : Q * Q * Q := (bal st, aura st, extra st).

Definition with_rewards (pool : AuraPool) (reward_data : list RewardData) : AuraPool :=
  {| lpToken_id := lpToken_id pool;
     totalStaked := totalStaked pool;
     rewardPool := rewardPool pool;
     rewardData := reward_data |}.

(** A pool payload with other reward items. *)
Definition with_items (pool_data : Payload.Pool) (apr_items : list Payload.AprItem)
  : Payload.Pool :=
  {| Payload.id := Payload.id pool_data;
     Payload.address := Payload.address pool_data;
     Payload.name := Payload.name pool_data;
     Payload.dynamicData :=
       {| Payload.totalLiquidity := Payload.totalLiquidity (Payload.dynamicData pool_data);
          Payload.totalShares := Payload.totalShares (Payload.dynamicData pool_data);
          Payload.aprItems := apr_items |};
     Payload.poolTokens := Payload.poolTokens pool_data |}.

(** The three types of reward item that have a component of their own. *)
Definition classified (apr_type : string) : bool :=
  String.eqb apr_type "SWAP_FEE_24H" || String.eqb apr_type "VEBAL_EMISSIONS"
  || String.eqb apr_type "STAKING_BOOST".

End Overlay.

(** ** Concrete inputs *)

Module Examples.
Import Py Json DataStore.

(** A record with the given chain and name. *)
Definition named (chain name : string) : PoolData :=
  {| name := name; chain := chain; address := ""; pool_id := "";
     tvl := 0; base_apy := 0; bal_rewards_apy := [0; 0]; other_rewards := [];
     total_apy := 0; coins := []; coin_ratios := []; coin_amounts := [];
     coin_prices := [];
     aura_apy := None; aura_tvl := None; aura_boost := None;
     aura_staking_contract := None |}.

(** Rewards in BAL, AURA and GHO, each with 18 decimals. *)
Definition rewards : list Aura.RewardData := [
  {| Aura.token_symbol := "BAL"; Aura.token_decimals := Some 18%Z;
     Aura.rewardRate := Some 1000000000000000 |};
  {| Aura.token_symbol := "AURA"; Aura.token_decimals := None;
     Aura.rewardRate := Some 1000000000000000 |};
  {| Aura.token_symbol := "GHO"; Aura.token_decimals := Some 18%Z;
     Aura.rewardRate := Some 2000000000000000 |}
].

Definition aura_pool : Aura.AuraPool :=
  {| Aura.lpToken_id := "0xABC"; Aura.totalStaked := Some 2000000000000000000;
     Aura.rewardPool := Some "0xrp"; Aura.rewardData := rewards |}.

(** The price oracle is down; the subgraph knows [aura_pool]. *)
Definition net_down : Aura.Network :=
  {| Aura.coingecko := fun _ => Aura.Failed; Aura.subgraph := fun _ => [aura_pool] |}.

(** The oracle prices AURA at 2 and answers 0 for BAL and GHO. *)
Definition net_zero : Aura.Network :=
  {| Aura.coingecko := fun _ =>
       Aura.Prices [("balancer", Some 0); ("aura-finance", Some 2); ("gho", Some 0)];
     Aura.subgraph := fun _ => [aura_pool] |}.

Definition item (apr_type : string) (apr : Q) : Payload.AprItem :=
  {| Payload.type := apr_type; Payload.title := apr_type;
     Payload.apr := Some apr; Payload.rewardTokenSymbol := "" |}.

(** The reward items of the specification's example. *)
Definition spec_items : list Payload.AprItem :=
  [item "SWAP_FEE_24H" 0.05; item "VEBAL_EMISSIONS" 0.02; item "STAKING_BOOST" 0.03].

(** The same items followed by two rewards of other types. *)
Definition items_with_others : list Payload.AprItem :=
  (spec_items ++ [item "MERKL" 0.012; item "SURPLUS" 0.03])%list.

(** A pool payload at the address of [aura_pool]. *)
Definition pool_payload (apr_items : list Payload.AprItem) (tvl : Q) : Payload.Pool :=
  {| Payload.id := Some "0xabc000000000000000000001";
     Payload.address := Some "0xabc";
     Payload.name := Some "Wrapped  ETH / USDC!!";
     Payload.dynamicData :=
       {| Payload.totalLiquidity := Some tvl;
          Payload.totalShares := None;
          Payload.aprItems := apr_items |};
     Payload.poolTokens :=
       [{| Payload.symbol := Some "WETH"; Payload.balance := Some 1.5;
           Payload.weight := None |};
        {| Payload.symbol := Some "USDC"; Payload.balance := Some 3000;
           Payload.weight := None |}] |}.

(** The record parsed from a payload, when there is one. *)
Definition parsed (net : Aura.Network) (self : Tracker.BalancerTracker)
    (pool_data : Payload.Pool) (chain : string) (aura_enabled : bool) : option PoolData :=
  match Tracker._parse_pool net self (Some pool_data) chain aura_enabled with
  | Ok (r, _) => r
  | Raise _ => None
  end.

(** A record with [aura_tvl] and [aura_boost] but without [aura_apy], as a
    pool matched on Aura with TVL 0 is parsed. *)
Definition without_apy : PoolData :=
  {| name := "Wrapped  ETH / USDC!!"; chain := "ethereum"; address := "0xabc";
     pool_id := "0xabc000000000000000000001";
     tvl := 0; base_apy := 5; bal_rewards_apy := [2; 5]; other_rewards := [];
     total_apy := 7; coins := ["WETH"; "USDC"];
     coin_ratios := ["WETH: 50.0%"; "USDC: 50.0%"]; coin_amounts := [1.5; 3000];
     coin_prices := [0; 0];
     aura_apy := None; aura_tvl := Some 2; aura_boost := Some 2.5;
     aura_staking_contract := Some "0xrp" |}.

(** A record with the whole overlay. *)
Definition with_overlay : PoolData :=
  {| name := "Wrapped  ETH / USDC!!"; chain := "ethereum"; address := "0xabc";
     pool_id := "0xabc000000000000000000001";
     tvl := 1234567.891; base_apy := 5.00004; bal_rewards_apy := [2; 5];
     other_rewards := [{| token := "GHO"; apy := 1.2 |}];
     total_apy := 8.20004; coins := ["WETH"; "USDC"];
     coin_ratios := ["WETH: 50.0%"; "USDC: 50.0%"]; coin_amounts := [1.5; 3000];
     coin_prices := [0; 0];
     aura_apy := Some 11.30726; aura_tvl := Some 2.128; aura_boost := Some 2.5;
     aura_staking_contract := Some "0xrp" |}.

(** A store in a fresh data directory. *)
Definition fresh : PoolDataStore := DataStore.__init__ "data" Missing Missing.

End Examples.

(** ** data_store.py: queries *)

Module History.
Import Py Json DataStore.

(** Exceptions of the queries: the ones of [Py], and [OverflowError]. *)
Inductive raised :=
| Builtin (e : exn)
| OverflowError.

Inductive outcome (A : Type) : Type :=
| Done (a : A)
| Fails (e : raised).
Arguments Done {A} a.
Arguments Fails {A} e.

Definition outcome_bind {A B} (f : A -> outcome B) (m : outcome A) : outcome B :=
  match m with
  | Done a => f a
  | Fails e => Fails e
  end.

#[global] Instance outcome_mbind : MBind outcome := @outcome_bind.
#[global] Instance outcome_mret : MRet outcome := @Done.

(** Time as the queries see it. An instant is a number of microseconds since
    [datetime.min]; [utcnow] is [datetime.utcnow()] (one reading serves a whole
    query), and [strptime] is [datetime.strptime(_, "%Y-%m-%dT%H:%M:%SZ")],
    [None] for [ValueError]. *)
Record Clock := {
  utcnow : Z;
  strptime : string -> option Z
}.

Definition microseconds_per_day : Z := 86400000000.

(** [datetime.max], in microseconds since [datetime.min]. *)
Definition datetime_max : Z := 3652059 * microseconds_per_day - 1.

(** [datetime.utcnow() - timedelta(days=days)]. *)
Definition cutoff_of (clock : Clock) (days : Z) : outcome Z :=
  if (999999999 <? Z.abs days)%Z then Fails OverflowError
  else
    let cutoff := (utcnow clock - days * microseconds_per_day)%Z in
    if (cutoff <? 0)%Z || (datetime_max <? cutoff)%Z then Fails OverflowError
    else Done cutoff.

(** [sub in s] on strings. *)
Fixpoint contains (sub s : string) : bool :=
  String.prefix sub s
  || match s with
     | EmptyString => false
     | String _ r => contains sub r
     end.

(** The body of the loop of [_filter_by_days]: whether the snapshot is kept.
    [KeyError] and [ValueError] are caught (the snapshot is left out); a
    snapshot that cannot be indexed by a string, or a timestamp that is not a
    string, raises [TypeError]. *)
Definition keeps (clock : Clock) (cutoff : Z) (snapshot : json) : outcome bool :=
  match snapshot with
  | JObj d =>
      match dict_get "timestamp" d with
      | None => Done false
      | Some (JStr t) =>
          match strptime clock t with
          | Some ts => Done (cutoff <=? ts)%Z
          | None => Done false
          end
      | Some _ => Fails (Builtin TypeError)
      end
  | _ => Fails (Builtin TypeError)
  end.

Fixpoint filter_snapshots (clock : Clock) (cutoff : Z) (snapshots : list json)
  : outcome (list json) :=
  match snapshots with
  | [] => Done []
  | snapshot :: rest =>
      keep ← keeps clock cutoff snapshot;
      filtered ← filter_snapshots clock cutoff rest;
      Done (if keep : bool then snapshot :: filtered else filtered)
  end.

(** What [for snapshot in pool_data.get("snapshots", [])] iterates over:
    the items of a list, the keys of an object, the characters of a string. *)
Definition iterate (j : json) : outcome (list json) :=
  match j with
  | JArr l => Done l
  | JObj kvs => Done (map (fun kv => JStr (fst kv)) kvs)
  | JStr s => Done (map (fun c => JStr (String c EmptyString)) (list_ascii_of_string s))
  | _ => Fails (Builtin TypeError)
  end.

Definition _filter_by_days (clock : Clock) (pool_data : json) (days : Z) : outcome json :=
  cutoff ← cutoff_of clock days;
  match pool_data with
  | JObj d =>
      match dict_get "snapshots" d with
      | None => Done pool_data
      | Some snapshots =>
          l ← iterate snapshots;
          filtered_snapshots ← filter_snapshots clock cutoff l;
          Done (JObj (dict_set "snapshots" (JArr filtered_snapshots) d))
      end
  | JArr l =>
      if existsb (fun x => match x with JStr s => String.eqb s "snapshots" | _ => false end) l
      then Fails (Builtin AttributeError)
      else Done pool_data
  | JStr s =>
      if contains "snapshots" s then Fails (Builtin AttributeError) else Done pool_data
  | _ => Fails (Builtin TypeError)
  end.

(** [d.get(k, {})] on a loaded value. *)
Definition get_or_empty (k : string) (j : json) : outcome json :=
  match j with
  | JObj d => Done (get_or k (JObj []) d)
  | _ => Fails (Builtin AttributeError)
  end.

(** [if days:] *)
Definition days_given (days : option Z) : option Z :=
  match days with
  | Some d => if (d =? 0)%Z then None else Some d
  | None => None
  end.

Fixpoint filter_pools (clock : Clock) (days : Z) (pools filtered : list (string * json))
  : outcome (list (string * json)) :=
  match pools with
  | [] => Done filtered
  | (key, pool_data) :: rest =>
      pool_data' ← _filter_by_days clock pool_data days;
      filter_pools clock days rest (dict_set key pool_data' filtered)
  end.

(** [if pool_key:] *)
Definition key_given (pool_key : option string) : option string :=
  match pool_key with
  | Some key => if String.eqb key "" then None else Some key
  | None => None
  end.

Definition get_history (s : PoolDataStore) (clock : Clock) (pool_key : option string)
    (days : option Z) : outcome json :=
  match history s with
  | Missing | Malformed => Done (JObj [])
  | Doc history =>
      match key_given pool_key with
      | Some key =>
          pools ← get_or_empty "pools" history;
          pool_history ← get_or_empty key pools;
          match days_given days with
          | Some d => _filter_by_days clock pool_history d
          | None => Done pool_history
          end
      | None =>
          match days_given days with
          | Some d =>
              pools ← get_or_empty "pools" history;
              items ← match pools with
                      | JObj kvs => Done kvs
                      | _ => Fails (Builtin AttributeError)
                      end;
              filtered ← filter_pools clock d items [];
              Done (JObj [("pools", JObj filtered)])
          | None => Done history
          end
      end
  end.

Definition get_metadata (s : PoolDataStore) : res json :=
  match latest s with
  | Missing | Malformed => Ok (JObj [])
  | Doc data =>
      match data with
      | JObj d => Ok (get_or "metadata" (JObj []) d)
      | _ => Raise AttributeError
      end
  end.

End History.

(** ** data_store.py: [PoolData.to_dict] and [PoolData.from_dict] *)

Module PoolDataDict.
Import Py Json DataStore.

Definition list_of_str (l : list string) : json := JArr (map JStr l).
Definition list_of_num (l : list Q) : json := JArr (map JNum l).

(** [asdict(self)] *)
Definition to_dict (self : PoolData) : json :=
  JObj [
    ("name", JStr (name self));
    ("chain", JStr (chain self));
    ("address", JStr (address self));
    ("pool_id", JStr (pool_id self));
    ("tvl", JNum (tvl self));
    ("base_apy", JNum (base_apy self));
    ("bal_rewards_apy", list_of_num (bal_rewards_apy self));
    ("other_rewards", JArr (map other_reward_to_json (other_rewards self)));
    ("total_apy", JNum (total_apy self));
    ("coins", list_of_str (coins self));
    ("coin_ratios", list_of_str (coin_ratios self));
    ("coin_amounts", list_of_num (coin_amounts self));
    ("coin_prices", list_of_num (coin_prices self));
    ("aura_apy", opt_num (aura_apy self));
    ("aura_tvl", opt_num (aura_tvl self));
    ("aura_boost", opt_num (aura_boost self));
    ("aura_staking_contract", opt_str (aura_staking_contract self))
  ].

(** The parameters of [PoolData.__init__]: those without a default, then
    those with one. *)
Definition required : list string := [
  "name"; "chain"; "address"; "pool_id"; "tvl"; "base_apy"; "bal_rewards_apy";
  "other_rewards"; "total_apy"; "coins"; "coin_ratios"
].

Definition optional : list string := [
  "coin_amounts"; "coin_prices"; "aura_apy"; "aura_tvl"; "aura_boost";
  "aura_staking_contract"
].

Definition is_field (k : string) : bool :=
  existsb (String.eqb k) (required ++ optional).

Definition typed {A} (x : option A) : res A :=
  match x with
  | Some a => Ok a
  | None => Raise TypeError
  end.

(** [cls] called with the dict as keyword arguments: [TypeError] for an
    argument that is not a mapping, for an unexpected key and for a missing
    required one. [PoolData] is typed here,
    so a value of another type than [to_dict] writes is a [TypeError] as well
    (Python would store it). *)
Definition from_dict (data : json) : res PoolData :=
  match data with
  | JObj d =>
      if negb (forallb (fun kv => is_field (fst kv)) d) then Raise TypeError
      else if negb (forallb (fun k => dict_mem k d) required) then Raise TypeError
      else
        name ← typed (as_str (get_or "name" JNull d));
        chain ← typed (as_str (get_or "chain" JNull d));
        address ← typed (as_str (get_or "address" JNull d));
        pool_id ← typed (as_str (get_or "pool_id" JNull d));
        tvl ← typed (as_num (get_or "tvl" JNull d));
        base_apy ← typed (as_num (get_or "base_apy" JNull d));
        bal_rewards_apy ← typed (num_list (get_or "bal_rewards_apy" JNull d));
        other_rewards ← typed (as_list (get_or "other_rewards" JNull d)
                               ≫= (fun l => all_some (map json_to_other_reward l)));
        total_apy ← typed (as_num (get_or "total_apy" JNull d));
        coins ← typed (str_list (get_or "coins" JNull d));
        coin_ratios ← typed (str_list (get_or "coin_ratios" JNull d));
        coin_amounts ← typed (num_list (get_or "coin_amounts" (JArr []) d));
        coin_prices ← typed (num_list (get_or "coin_prices" (JArr []) d));
        aura_apy ← typed (as_opt_num (get_or "aura_apy" JNull d));
        aura_tvl ← typed (as_opt_num (get_or "aura_tvl" JNull d));
        aura_boost ← typed (as_opt_num (get_or "aura_boost" JNull d));
        aura_staking_contract ← typed (as_opt_str (get_or "aura_staking_contract" JNull d));
        Ok {|
          name := name;
          chain := chain;
          address := address;
          pool_id := pool_id;
          tvl := tvl;
          base_apy := base_apy;
          bal_rewards_apy := bal_rewards_apy;
          other_rewards := other_rewards;
          total_apy := total_apy;
          coins := coins;
          coin_ratios := coin_ratios;
          coin_amounts := coin_amounts;
          coin_prices := coin_prices;
          aura_apy := aura_apy;
          aura_tvl := aura_tvl;
          aura_boost := aura_boost;
          aura_staking_contract := aura_staking_contract
        |}
  | _ => Raise TypeError
  end.

End PoolDataDict.

(** ** balancer_tracker.py: the Balancer client *)

Module Balancer.
Import Py.

(** What the Balancer API answers during one run: [poolGetPool] for an id and
    a chain enum ([None] when the request fails or finds nothing), and
    [poolGetPools] for a chain enum ([[]] when the request fails). *)
Record Network := {
  poolGetPool : string -> string -> option Payload.Pool;
  poolGetPools : string -> list Payload.Pool
}.

Definition CHAIN_MAP : list (string * string) := [
  ("ethereum", "MAINNET");
  ("mainnet", "MAINNET");
  ("arbitrum", "ARBITRUM");
  ("polygon", "POLYGON");
  ("optimism", "OPTIMISM");
  ("base", "BASE");
  ("gnosis", "GNOSIS");
  ("avalanche", "AVALANCHE");
  ("zkevm", "ZKEVM");
  ("fraxtal", "FRAXTAL");
  ("mode", "MODE");
  ("sonic", "SONIC")
].

Record BalancerAPI := {
  _pool_cache : gmap string string
}.

Definition __init__ : BalancerAPI := {| _pool_cache := ∅ |}.

Definition _gql_chain (chain : string) : string :=
  default "MAINNET" (Aura.assoc (lower chain) CHAIN_MAP).

(** [s.replace(old, new)] for a non-empty [old]: the occurrences of [old] are
    replaced from the left, without overlap; [skip] characters of an
    occurrence already replaced are still to be passed. *)
Fixpoint replace_from (old new : string) (skip : nat) (s : string) : string :=
  match s with
  | EmptyString => EmptyString
  | String c r =>
      match skip with
      | S skip' => replace_from old new skip' r
      | O =>
          if String.prefix old s
          then new ++ replace_from old new (String.length old - 1) r
          else String c (replace_from old new 0 r)
      end
  end.

Definition replace (old new s : string) : string := replace_from old new 0 s.

Definition get_pool_by_id (net : Network) (pool_id chain : string) : option Payload.Pool :=
  poolGetPool net pool_id (_gql_chain chain).

(** ["Filter by requested addresses"]: the body of the loop over the pools of
    the chain. [pool['address']] and [pool['id']] raise for a missing key. *)
Definition match_address (addresses_lower : list string)
    (st : list Payload.Pool * BalancerAPI) (pool : Payload.Pool)
  : res (list Payload.Pool * BalancerAPI) :=
  let '(matching, self) := st in
  if existsb (String.eqb (lower (default "" (Payload.address pool)))) addresses_lower
  then
    match Payload.address pool, Payload.id pool with
    | Some address, Some id =>
        Ok ((matching ++ [pool])%list,
            {| _pool_cache := <[lower address := id]> (_pool_cache self) |})
    | _, _ => Raise KeyError
    end
  else Ok st.

Definition get_pools_by_address (net : Network) (self : BalancerAPI)
    (addresses : list string) (chain : string)
  : res (list Payload.Pool * BalancerAPI) :=
  let gql_chain := _gql_chain chain in
  let all_pools := poolGetPools net gql_chain in
  let addresses_lower := map lower addresses in
  DataStore.for_each (match_address addresses_lower) ([], self) all_pools.

Definition find_pool (net : Network) (self : BalancerAPI) (identifier chain : string)
  : res (option Payload.Pool * BalancerAPI) :=
  let clean_id := replace "0x" "" (lower identifier) in
  if (42 <? String.length clean_id)%nat
  then Ok (get_pool_by_id net identifier chain, self)
  else
    '(pools, self) ← get_pools_by_address net self [identifier] chain;
    Ok (match pools with
        | pool :: _ => Some pool
        | [] => None
        end, self).

End Balancer.

(** ** balancer_tracker.py: tracking the configured pools *)

Module Run.
Import Py Json DataStore.

(** One entry of the pools configuration: [cfg.get('chain', 'ethereum')],
    [cfg['pool']] ([None] when the key is missing) and the truth value of
    [cfg.get('aura_enabled', False)]. *)
Record Config := {
  chain : option string;
  pool : option string;
  aura_enabled : bool
}.

(** The tracker with its Balancer client. *)
Record Session := {
  self : Tracker.BalancerTracker;
  api : Balancer.BalancerAPI
}.

Definition __init__ (enable_aura : bool) : Session :=
  {| self := Tracker.__init__ enable_aura; api := Balancer.__init__ |}.

(** ["Group by chain"]: a dict from chain to the entries of that chain, in
    the order the chains first appear. *)
Fixpoint group_add (chain : string) (cfg : Config) (by_chain : list (string * list Config))
  : list (string * list Config) :=
  match by_chain with
  | [] => [(chain, [cfg])]
  | (c, cfgs) :: rest =>
      if String.eqb c chain then (c, (cfgs ++ [cfg])%list) :: rest
      else (c, cfgs) :: group_add chain cfg rest
  end.

Definition group_by_chain (pools_config : list Config) : list (string * list Config) :=
  fold_left (fun by_chain cfg => group_add (default "ethereum" (chain cfg)) cfg by_chain)
            pools_config [].

(** [[cfg['pool'] for cfg in pool_configs]] *)
Fixpoint pools_of (pool_configs : list Config) : res (list string) :=
  match pool_configs with
  | [] => Ok []
  | cfg :: rest =>
      match pool cfg with
      | Some p => pools_of rest ≫= (fun ps => Ok (p :: ps))
      | None => Raise KeyError
      end
  end.

Definition is_full_id (a : string) : bool :=
  (42 <? String.length (Balancer.replace "0x" "" a))%nat.

(** [next((c for c in pool_configs if test(c['pool'])), {}).get('aura_enabled', False)] *)
Definition aura_enabled_of (test : string -> bool) (pool_configs : list Config) : bool :=
  match List.find (fun c => test (default "" (pool c))) pool_configs with
  | Some c => aura_enabled c
  | None => false
  end.

(** The loop state of [track_pools]: the results so far and the session. *)
Definition parse_into (net : Aura.Network) (chain : string) (aura_enabled : bool)
    (st : list PoolData * Session) (pool_data : option Payload.Pool)
  : res (list PoolData * Session) :=
  let '(results, session) := st in
  '(parsed, tracker) ← Tracker._parse_pool net (self session) pool_data chain aura_enabled;
  Ok (match parsed with
      | Some p => (results ++ [p])%list
      | None => results
      end,
      {| self := tracker; api := api session |}).

(** The body of [for chain, pool_configs in by_chain.items()]. *)
Definition track_chain (net : Aura.Network) (bnet : Balancer.Network)
    (st : list PoolData * Session) (group : string * list Config)
  : res (list PoolData * Session) :=
  let '(chain, pool_configs) := group in
  addresses ← pools_of pool_configs;
  let full_ids := List.filter is_full_id addresses in
  let short_addrs := List.filter (fun a => negb (is_full_id a)) addresses in
  st ← match short_addrs with
       | [] => Ok st
       | _ =>
           let '(results, session) := st in
           '(pools, api) ← Balancer.get_pools_by_address bnet (api session) short_addrs chain;
           for_each
             (fun st pool_data =>
                let addr := lower (default "" (Payload.address pool_data)) in
                let aura_enabled :=
                  aura_enabled_of (fun p => String.eqb (lower p) addr) pool_configs in
                parse_into net chain aura_enabled st (Some pool_data))
             (results, {| self := self session; api := api |}) pools
       end;
  for_each
    (fun st pool_id =>
       let aura_enabled := aura_enabled_of (fun p => String.eqb p pool_id) pool_configs in
       let pool_data := Balancer.get_pool_by_id bnet pool_id chain in
       parse_into net chain aura_enabled st pool_data)
    st full_ids.

Definition track_pools (net : Aura.Network) (bnet : Balancer.Network) (session : Session)
    (pools_config : list Config) : res (list PoolData * Session) :=
  for_each (track_chain net bnet) ([], session) (group_by_chain pools_config).

(** [get_pool] *)
Definition get_pool (net : Aura.Network) (bnet : Balancer.Network) (session : Session)
    (chain identifier : string) (aura_enabled : bool) : res (option PoolData * Session) :=
  '(pool_data, api) ← Balancer.find_pool bnet (api session) identifier chain;
  '(parsed, tracker) ← Tracker._parse_pool net (self session) pool_data chain aura_enabled;
  Ok (parsed, {| self := tracker; api := api |}).

(** [fetch_and_save]: the store files as they are left, also when an
    exception is raised, and the result. [now_save] and [now_history] are the
    clock readings of [save] and of [append_history]. *)
Definition fetch_and_save (net : Aura.Network) (bnet : Balancer.Network)
    (session : Session) (store : PoolDataStore) (now_save now_history : string)
    (pools_config : list Config)
  : PoolDataStore * res (list PoolData * Session) :=
  match track_pools net bnet session pools_config with
  | Raise e => (store, Raise e)
  | Ok (results, session) =>
      match results with
      | [] => (store, Ok (results, session))
      | _ =>
          let store := fst (save store now_save results) in
          match append_history store now_history results None with
          | Ok (store, _) => (store, Ok (results, session))
          | Raise e => (store, Raise e)
          end
      end
  end.

End Run.

(** ** Further notions used in the statements *)

Module More.
Import Py Json DataStore Aura Overlay.

(** A reward with other decimals. *)
Definition with_decimals (reward : RewardData) (decimals : option Z) : RewardData :=
  {| token_symbol := token_symbol reward;
     token_decimals := decimals;
     rewardRate := rewardRate reward |}.

(** A reward that passes the rate test of the overlay. *)
Definition positive_rate (reward : RewardData) : bool :=
  negb (Qleb (or_zero (rewardRate reward)) 0).

Definition rewards_in (symbol : string) (reward : RewardData) : bool :=
  String.eqb (token_symbol reward) symbol && positive_rate reward.

(** A reward that is added to [extra_apr] for the given prices. *)
Definition is_extra (prices : string -> option Q) (reward : RewardData) : bool :=
  positive_rate reward
  && negb (String.eqb (token_symbol reward) "BAL")
  && negb (String.eqb (token_symbol reward) "AURA")
  && usable (prices (token_symbol reward)).

(** What a BAL reward sets [bal_apr] to: its APR at the price of BAL, or the
    caller's [bal_max_apr] when that price is missing or tests false. *)
Definition bal_value (prices : string -> option Q) (tvl bal_max_apr : Q)
    (reward : RewardData) : Q :=
  match prices "BAL" with
  | Some p => if Py.truthy p then apr_of tvl reward p else bal_max_apr
  | None => bal_max_apr
  end.

(** Reward items of the first source: the items of one type, the percentage
    an item stands for, and the items that go to [other_rewards]. *)
Definition of_type (apr_type : string) (item : Payload.AprItem) : bool :=
  String.eqb (Payload.type item) apr_type.

Definition percent (item : Payload.AprItem) : Q :=
  or_zero (Payload.apr item) * 100.

Definition is_other (item : Payload.AprItem) : bool :=
  negb (classified (Payload.type item)) && Qltb 0 (percent item).

(** The last element of a list that passes a test. *)
Definition last_where {A} (test : A -> bool) (l : list A) : option A :=
  List.find test (rev l).

(** The percentage of the last item of a type, [dflt] when there is none. *)
Definition last_percent (apr_type : string) (items : list Payload.AprItem) (dflt : Q) : Q :=
  match last_where (of_type apr_type) items with
  | Some item => percent item
  | None => dflt
  end.

(** The records of a call that have a given key. *)
Definition with_key (pool_key : string) (pools : list PoolData) : list PoolData :=
  List.filter (fun p => String.eqb (_generate_pool_key p) pool_key) pools.

(** A series to which snapshots are appended one by one, trimmed each time. *)
Definition grow (max_snapshots : option Z) (series new : list json) : list json :=
  fold_left (fun series snapshot => trim max_snapshots (series ++ [snapshot])) new series.

(** The metadata block [append_history] gives a new slot. *)
Definition metadata_json (pool : PoolData) : json :=
  JObj [
    ("name", JStr (name pool));
    ("chain", JStr (chain pool));
    ("address", JStr (address pool));
    ("pool_id", JStr (pool_id pool))
  ].

(** The metadata of a key in a history document and in the history file. *)
Definition doc_metadata (h : json) (pool_key : string) : option json :=
  d ← as_dict h;
  pools ← dict_get "pools" d ≫= as_dict;
  slot ← dict_get pool_key pools ≫= as_dict;
  dict_get "metadata" slot.

Definition metadata_of (s : PoolDataStore) (pool_key : string) : option json :=
  match history s with
  | Doc h => doc_metadata h pool_key
  | Missing | Malformed => None
  end.

(** The timestamp of a snapshot, when it has one that is a string. *)
Definition stamp (snapshot : json) : option string :=
  match snapshot with
  | JObj d => dict_get "timestamp" d ≫= as_str
  | _ => None
  end.

(** A snapshot whose timestamp the clock reads as not before [cutoff]. *)
Definition recent (clock : History.Clock) (cutoff : Z) (snapshot : json) : bool :=
  match stamp snapshot ≫= History.strptime clock with
  | Some ts => (cutoff <=? ts)%Z
  | None => false
  end.

(** A snapshot that is an object whose timestamp, if it has one, is a
    string. *)
Definition stamped (snapshot : json) : bool :=
  match snapshot with
  | JObj d =>
      match dict_get "timestamp" d with
      | Some (JStr _) | None => true
      | Some _ => false
      end
  | _ => false
  end.

(** A pool of a listing whose address is one of [addresses], whatever the
    case of the letters. *)
Definition requested (addresses : list string) (pool : Payload.Pool) : bool :=
  existsb (String.eqb (lower (default "" (Payload.address pool)))) (map lower addresses).

(** A pool of a listing that has an address and an id. *)
Definition identified (pool : Payload.Pool) : bool :=
  match Payload.address pool, Payload.id pool with
  | Some _, Some _ => true
  | _, _ => false
  end.

(** The payloads parsed for the entries of one chain: the pools of the
    chain's listing at one of the short addresses, in the order of the
    listing, then the answers to the full ids, in the order of the entries. *)
Definition payloads_of (bnet : Balancer.Network) (chain : string) (addresses : list string)
  : list Payload.Pool :=
  (List.filter
     (requested (List.filter (fun a => negb (Run.is_full_id a)) addresses))
     (Balancer.poolGetPools bnet (Balancer._gql_chain chain))
   ++ omap (fun pool_id => Balancer.get_pool_by_id bnet pool_id chain)
        (List.filter Run.is_full_id addresses))%list.

(** The chain, address and id a record has, and those a payload is parsed
    to on a chain. *)
Definition identity (r : PoolData) : string * string * string :=
  (chain r, address r, pool_id r).

Definition identity_on (chain : string) (pool : Payload.Pool) : string * string * string :=
  (chain, default "" (Payload.address pool), default "" (Payload.id pool)).

(** The [pool] values of the entries of one chain. *)
Definition addresses_of (pool_configs : list Run.Config) : list string :=
  map (fun cfg => default "" (Run.pool cfg)) pool_configs.

End More.

(** ** Concrete inputs of the further properties *)

Module Cases.
Import Py Json DataStore.

(** An AURA reward that gives its decimals as 0. *)
Definition aura_zero_decimals : Aura.RewardData :=
  {| Aura.token_symbol := "AURA"; Aura.token_decimals := Some 0%Z;
     Aura.rewardRate := Some 1000000000000000 |}.

(** A clock that reads 2024-05-01 at noon and knows two timestamps, ten days
    and one day before. *)
Definition noon : Z := 739006 * History.microseconds_per_day + 43200000000.

Definition clock : History.Clock :=
  {| History.utcnow := noon;
     History.strptime := fun t =>
       if String.eqb t "2024-04-21T12:00:00Z"
       then Some (noon - 10 * History.microseconds_per_day)%Z
       else if String.eqb t "2024-04-30T12:00:00Z"
       then Some (noon - 1 * History.microseconds_per_day)%Z
       else None |}.

(** A second pool, at another address. *)
Definition second_payload : Payload.Pool :=
  {| Payload.id := Some "0xdef000000000000000000002";
     Payload.address := Some "0xDEF";
     Payload.name := Some "BAL/WETH";
     Payload.dynamicData :=
       {| Payload.totalLiquidity := Some 500;
          Payload.totalShares := None;
          Payload.aprItems := [] |};
     Payload.poolTokens := [] |}.

Definition full_id : string :=
  "0x5c6ee304399dbdb9c8ef030ab642b10820db8f56000200000000000000000014".

Definition third_payload : Payload.Pool :=
  {| Payload.id := Some full_id;
     Payload.address := Some "0x5c6ee304399dbdb9c8ef030ab642b10820db8f56";
     Payload.name := Some "B-80BAL-20WETH";
     Payload.dynamicData :=
       {| Payload.totalLiquidity := Some 1000;
          Payload.totalShares := None;
          Payload.aprItems := Examples.spec_items |};
     Payload.poolTokens := [] |}.

(** The Balancer API lists two pools on MAINNET, none elsewhere, and knows
    one pool by its id. *)
Definition bnet : Balancer.Network :=
  {| Balancer.poolGetPool := fun pool_id _ =>
       if String.eqb pool_id full_id then Some third_payload else None;
     Balancer.poolGetPools := fun chain =>
       if String.eqb chain "MAINNET"
       then [second_payload; Examples.pool_payload Examples.spec_items 1000]
       else [] |}.

(** A configuration: a full id, then two addresses, the second of them in
    capitals. *)
Definition config : list Run.Config := [
  {| Run.chain := Some "ethereum"; Run.pool := Some full_id; Run.aura_enabled := false |};
  {| Run.chain := None; Run.pool := Some "0xABC"; Run.aura_enabled := true |};
  {| Run.chain := Some "ethereum"; Run.pool := Some "0xdef"; Run.aura_enabled := false |}
].

(** The same configuration with an entry that has no [pool]. *)
Definition config_without_pool : list Run.Config :=
  (config ++ [{| Run.chain := Some "base"; Run.pool := None;
                 Run.aura_enabled := false |}])%list.

(** The price oracle answers 429 once, then prices BAL at 3. *)
Definition net_busy : Aura.Network :=
  {| Aura.coingecko := fun attempt =>
       match attempt with
       | O => Aura.RateLimited
       | _ => Aura.Prices [("balancer", Some 3)]
       end;
     Aura.subgraph := fun _ => [] |}.

(** A store whose history holds one pool with two snapshots, taken at the
    two timestamps [clock] knows. *)
Definition aged : PoolDataStore :=
  match Spec.append_each Examples.fresh
          [("2024-04-21T12:00:00Z", Examples.with_overlay);
           ("2024-04-30T12:00:00Z", Examples.with_overlay)] None with
  | Ok s => s
  | Raise _ => Examples.fresh
  end.

(** A client that has fetched its prices and holds one for [bal] and
    another for [BAL]. *)
Definition primed : Aura.AuraFinanceAPI :=
  {| Aura._pools_cache := ∅;
     Aura._price_cache := <["bal" := 1]> (<["BAL" := 2]> ∅);
     Aura._prices_fetched := true |}.

(** A store whose history file holds an empty object. *)
Definition without_pools : PoolDataStore := DataStore.__init__ "data" Missing (Doc (JObj [])).

End Cases.

(** * Properties *)

Import Py Json DataStore Spec Aura Overlay.

(** ** Numbers *)

Lemma Qeq_bool_false_iff x y : Qeq_bool x y = false <-> ~ x == y.
Proof.
  split; [apply Qeq_bool_neq|].
  intros H. destruct (Qeq_bool x y) eqn:E; [|reflexivity].
  apply Qeq_bool_iff in E. contradiction.
Qed.

Lemma Qleb_true x y : Qleb x y = true <-> x <= y.
Proof. apply Qle_bool_iff. Qed.

Lemma Qleb_false x y : Qleb x y = false <-> y < x.
Proof.
  unfold Qleb. split; intros H.
  - apply Qnot_le_lt. intros L. apply Qle_bool_iff in L. congruence.
  - destruct (Qle_bool x y) eqn:E; [|reflexivity].
    apply Qle_bool_iff in E. exfalso. exact (Qlt_not_le _ _ H E).
Qed.

Lemma Qltb_true x y : Qltb x y = true <-> x < y.
Proof. unfold Qltb. rewrite negb_true_iff. apply Qleb_false. Qed.

Lemma div_ok x y : ~ y == 0 -> div x y = Ok (x / y).
Proof. intros H. unfold div. now rewrite (proj2 (Qeq_bool_false_iff y 0) H). Qed.

Lemma pow10_nonzero d : ~ 10 ^ d == 0.
Proof. apply Qpower_not_0. discriminate. Qed.

(** ** The pool key *)

Ltac by_ascii_cases c :=
  destruct c as [[] [] [] [] [] [] [] []]; vm_compute; try reflexivity; try discriminate; auto.

Lemma lower_char_not_upper c : is_upper (lower_char c) = false.
Proof. by_ascii_cases c. Qed.

Lemma lower_char_alnum c :
  is_alnum (lower_char c) = is_lower (lower_char c) || is_digit (lower_char c).
Proof. unfold is_alnum. rewrite lower_char_not_upper. now rewrite orb_false_r. Qed.

Lemma lower_char_fixed c : (is_lower c || is_digit c) = true -> lower_char c = c.
Proof. by_ascii_cases c. Qed.

Lemma underscore_fixed c : Ascii.eqb c "_" = true -> lower_char c = c.
Proof. by_ascii_cases c. Qed.

Lemma underscore_not_kept c : Ascii.eqb c "_" = true -> (is_lower c || is_digit c) = false.
Proof. by_ascii_cases c. Qed.

Lemma drop_class_length cls s : (String.length (drop_class cls s) <= String.length s)%nat.
Proof. induction s as [|c r IH]; simpl; [lia|]. destruct (cls c); simpl; lia. Qed.

Lemma collapse_in_run keep s :
  collapse_runs keep true s = collapse_runs keep false (drop_class (fun c => negb (keep c)) s).
Proof.
  induction s as [|c r IH]; simpl; [reflexivity|].
  destruct (keep c) eqn:E; simpl; [now rewrite E | exact IH].
Qed.

Lemma re_sub_plus_from_collapse keep fuel s :
  (String.length s <= fuel)%nat ->
  re_sub_plus_from fuel (fun c => negb (keep c)) "_" s = collapse_runs keep false s.
Proof.
  revert s. induction fuel as [|fuel IH]; intros [|c r] Hlen; simpl in *; try reflexivity; try lia.
  destruct (keep c) eqn:E; simpl.
  - f_equal. apply IH. lia.
  - f_equal. rewrite collapse_in_run. apply IH.
    pose proof (drop_class_length (fun c => negb (keep c)) r). lia.
Qed.

Lemma collapse_ext keep keep' b s :
  (forall c, keep (lower_char c) = keep' (lower_char c)) ->
  collapse_runs keep b (lower s) = collapse_runs keep' b (lower s).
Proof.
  intros H. unfold lower. revert b.
  induction s as [|c r IH]; intros b; simpl; [reflexivity|].
  rewrite H. destruct (keep' (lower_char c)); [now rewrite (IH false)|].
  destruct b; now rewrite (IH true).
Qed.

Lemma re_sub_is_collapse s :
  re_sub_plus not_a_z_0_9 "_" (lower s) = collapse_runs is_alnum false (lower s).
Proof.
  unfold re_sub_plus, not_a_z_0_9.
  rewrite (re_sub_plus_from_collapse (fun c => is_lower c || is_digit c)) by lia.
  symmetry. apply collapse_ext. intros c. apply lower_char_alnum.
Qed.

Lemma generate_pool_key_slug pool :
  _generate_pool_key pool = chain pool ++ "_" ++ slug (name pool).
Proof. unfold _generate_pool_key, slug. now rewrite re_sub_is_collapse. Qed.

(* cleanliness *)
Lemma clean_weaken b s : clean b s = true -> clean false s = true.
Proof.
  destruct s as [|c r]; simpl; [auto|].
  destruct (is_lower c || is_digit c); [auto|].
  destruct (Ascii.eqb c "_"); [|auto]. destruct b; simpl; [discriminate | auto].
Qed.

Lemma collapse_clean b s :
  clean b (collapse_runs (fun c => is_lower c || is_digit c) b s) = true.
Proof.
  revert b. induction s as [|c r IH]; intros b; simpl; [reflexivity|].
  destruct (is_lower c || is_digit c) eqn:E; simpl.
  - rewrite E. apply IH.
  - destruct b; [apply IH|]. simpl. apply IH.
Qed.

Lemma clean_lower b s : clean b s = true -> lower s = s.
Proof.
  unfold lower. revert b. induction s as [|c r IH]; intros b; simpl; [reflexivity|].
  destruct (is_lower c || is_digit c) eqn:E.
  - intros H. rewrite (lower_char_fixed c E). f_equal. exact (IH _ H).
  - destruct (Ascii.eqb c "_") eqn:U; [|discriminate].
    intros H. apply andb_true_iff in H as [_ H].
    rewrite (underscore_fixed c U). f_equal. exact (IH _ H).
Qed.

Lemma clean_collapse b s :
  clean b s = true -> collapse_runs (fun c => is_lower c || is_digit c) b s = s.
Proof.
  revert b. induction s as [|c r IH]; intros b; simpl; [reflexivity|].
  destruct (is_lower c || is_digit c) eqn:E.
  - intros H. f_equal. exact (IH _ H).
  - destruct (Ascii.eqb c "_") eqn:U; [|discriminate].
    intros H. apply andb_true_iff in H as [Hb H]. destruct b; [discriminate|].
    apply Ascii.eqb_eq in U. subst c. f_equal. exact (IH _ H).
Qed.

Lemma clean_lstrip b s : clean b s = true -> clean true (lstrip "_" s) = true /\ lstrip "_" (lstrip "_" s) = lstrip "_" s.
Proof.
  revert b. induction s as [|c r IH]; intros b; simpl; [auto|].
  destruct (Ascii.eqb c "_") eqn:U.
  - rewrite (underscore_not_kept c U). intros H. apply andb_true_iff in H as [_ H]. exact (IH _ H).
  - destruct (is_lower c || is_digit c) eqn:E; [|discriminate].
    intros H. simpl. rewrite U, E. auto.
Qed.

Lemma clean_rstrip b s : clean b s = true -> clean b (rstrip "_" s) = true.
Proof.
  revert b. induction s as [|c r IH]; intros b; simpl; [auto|].
  destruct (is_lower c || is_digit c) eqn:E.
  - intros H. specialize (IH _ H). destruct (rstrip "_" r) eqn:R.
    + destruct (Ascii.eqb c "_"); simpl; [reflexivity | now rewrite E].
    + simpl. rewrite E. exact IH.
  - destruct (Ascii.eqb c "_") eqn:U; [|discriminate].
    intros H. apply andb_true_iff in H as [Hb H]. specialize (IH _ H).
    destruct (rstrip "_" r) eqn:R; [reflexivity|].
    simpl. rewrite E, U, Hb. exact IH.
Qed.

Lemma rstrip_cons ch c r :
  rstrip ch (String c r) =
  match rstrip ch r with
  | EmptyString => if Ascii.eqb c ch then EmptyString else String c EmptyString
  | r' => String c r'
  end.
Proof. reflexivity. Qed.

Lemma rstrip_idem ch s : rstrip ch (rstrip ch s) = rstrip ch s.
Proof.
  induction s as [|c r IH]; simpl; [reflexivity|].
  destruct (rstrip ch r) as [|c' r'] eqn:R.
  - destruct (Ascii.eqb c ch) eqn:U; simpl; [reflexivity | now rewrite U].
  - rewrite rstrip_cons, IH. reflexivity.
Qed.

Lemma rstrip_keeps_head ch s : lstrip ch s = s -> lstrip ch (rstrip ch s) = rstrip ch s.
Proof.
  destruct s as [|c r]; simpl; [auto|].
  destruct (Ascii.eqb c ch) eqn:U.
  - intros H. exfalso.
    assert (L : forall t, (String.length (lstrip ch t) <= String.length t)%nat).
    { induction t as [|a t IHt]; simpl; [lia|]. destruct (Ascii.eqb a ch); simpl; lia. }
    specialize (L r). rewrite H in L. simpl in L. lia.
  - intros _. destruct (rstrip ch r); simpl; now rewrite U.
Qed.

Lemma strip_idem_clean b s :
  clean b s = true -> strip "_" (strip "_" s) = strip "_" s /\ clean true (strip "_" s) = true.
Proof.
  intros H. unfold strip. destruct (clean_lstrip b s H) as [Hc Hl].
  split; [|now apply clean_rstrip].
  rewrite (rstrip_keeps_head "_" (lstrip "_" s) Hl). apply rstrip_idem.
Qed.

Lemma slug_of_clean t :
  clean true t = true -> strip "_" t = t -> slug t = t.
Proof.
  intros Hk Hs. unfold slug. rewrite (clean_lower _ _ Hk).
  rewrite <- (clean_lower _ _ Hk) at 1.
  rewrite (collapse_ext is_alnum (fun c => is_lower c || is_digit c)) by apply lower_char_alnum.
  rewrite (clean_lower _ _ Hk).
  rewrite (clean_collapse false t (clean_weaken _ _ Hk)). exact Hs.
Qed.

Lemma slug_idempotent n : slug (slug n) = slug n.
Proof.
  assert (E : slug n = strip "_" (collapse_runs (fun c => is_lower c || is_digit c) false (lower n))).
  { unfold slug. now rewrite (collapse_ext is_alnum (fun c => is_lower c || is_digit c))
      by apply lower_char_alnum. }
  destruct (strip_idem_clean false _ (collapse_clean false (lower n))) as [Hs Hk].
  rewrite <- E in Hs, Hk. now apply slug_of_clean.
Qed.

(** C4 (amended): the key is the chain as the record holds it (not
    lowercased), an underscore, and the name lowercased with every run of
    non-alphanumeric characters collapsed to one underscore and
    leading/trailing underscores stripped; for a chain that is already
    lowercase this is the specification's key. For chain "ethereum" and name
    "Wrapped  ETH / USDC!!" the key is "ethereum_wrapped_eth_usdc", and a
    record whose name is already the slug of another record's name, with the
    same chain, has the same key (idempotence). *)
Theorem C4_pool_key (pool : PoolData) :
  _generate_pool_key pool = chain pool ++ "_" ++ slug (name pool)
  /\ (lower (chain pool) = chain pool ->
      _generate_pool_key pool = Spec.key (chain pool) (name pool))
  /\ (forall pool',
        chain pool' = chain pool -> name pool' = slug (name pool) ->
        _generate_pool_key pool' = _generate_pool_key pool)
  /\ _generate_pool_key (Examples.named "ethereum" "Wrapped  ETH / USDC!!")
     = "ethereum_wrapped_eth_usdc"
  /\ _generate_pool_key (Examples.named "Ethereum" "Wrapped  ETH / USDC!!")
     = "Ethereum_wrapped_eth_usdc".
Proof.
  split; [apply generate_pool_key_slug|].
  split; [intros L; unfold Spec.key; rewrite L; apply generate_pool_key_slug|].
  split; [|split; reflexivity].
  intros pool' Hc Hn. rewrite !generate_pool_key_slug, Hc, Hn.
  now rewrite slug_idempotent.
Qed.

(** C4 as stated fails: for chain "Ethereum" the specification's key starts
    with the lowercased chain, the store's key with the chain as given. *)
Lemma C4_counterexample :
  Spec.key "Ethereum" "Wrapped  ETH / USDC!!" = "ethereum_wrapped_eth_usdc"
  /\ _generate_pool_key (Examples.named "Ethereum" "Wrapped  ETH / USDC!!")
     <> Spec.key "Ethereum" "Wrapped  ETH / USDC!!".
Proof. split; [reflexivity | discriminate]. Qed.

(** ** The Aura overlay *)

(** *** The price cache is filled at most once *)

Lemma fetch_attempts_fetched net m r a api :
  _prices_fetched (fetch_attempts net m r a api) = true.
Proof.
  revert a. induction r as [|r IH]; intros a; simpl; [reflexivity|].
  destruct (coingecko net a); try reflexivity.
  destruct (a <? m - 1)%nat; [apply IH | reflexivity].
Qed.

Lemma settled_fetched net api : _prices_fetched (settled net api) = true.
Proof.
  unfold settled, fetch_all_prices. destruct (_prices_fetched api) eqn:E; [exact E|].
  apply fetch_attempts_fetched.
Qed.

Lemma settled_idem net api : settled net (settled net api) = settled net api.
Proof. unfold settled at 1. now rewrite settled_fetched. Qed.

Lemma get_token_price_settled net api symbol :
  get_token_price net api symbol
  = (lookup_price (_price_cache (settled net api)) symbol, settled net api).
Proof.
  unfold get_token_price, lookup_price. fold (settled net api).
  destruct (_price_cache (settled net api) !! symbol); [reflexivity|].
  destruct (_price_cache (settled net api) !! upper symbol); reflexivity.
Qed.

Lemma price_settled net api symbol :
  price net api symbol = lookup_price (_price_cache (settled net api)) symbol.
Proof. unfold price. now rewrite get_token_price_settled. Qed.

(** *** The reward loop computes [step] and never raises for a positive TVL *)

Lemma reward_step_ok net tvl bm st reward :
  0 < tvl ->
  exists st',
    reward_step net tvl bm st reward = Ok st'
    /\ rates_of st' = step (price net (api_of st)) tvl bm (rates_of st) reward
    /\ settled net (api_of st') = settled net (api_of st).
Proof.
  intros Htvl. unfold reward_step, step, rates_of.
  fold (decimals_of reward).
  destruct (Qleb (or_zero (rewardRate reward)) 0); [eauto|].
  rewrite price_settled, get_token_price_settled.
  assert (Ht : ~ tvl == 0) by (intros E; rewrite E in Htvl; discriminate).
  destruct (lookup_price _ _) as [p|].
  - destruct (Py.truthy p).
    + rewrite (div_ok _ _ (pow10_nonzero _)). cbn [mbind res_mbind res_bind].
      rewrite (div_ok _ _ Ht). cbn [mbind res_mbind res_bind].
      unfold apr_of.
      destruct (String.eqb _ "BAL"); [|destruct (String.eqb _ "AURA")];
        eexists; (split; [reflexivity|]); cbn; split; try reflexivity; apply settled_idem.
    + destruct (String.eqb _ "BAL");
        eexists; (split; [reflexivity|]); cbn; split; try reflexivity; apply settled_idem.
  - destruct (String.eqb _ "BAL");
      eexists; (split; [reflexivity|]); cbn; split; try reflexivity; apply settled_idem.
Qed.

Lemma step_prices_ext p1 p2 tvl bm acc reward :
  (forall s, p1 s = p2 s) -> step p1 tvl bm acc reward = step p2 tvl bm acc reward.
Proof. intros H. unfold step. now rewrite H. Qed.

Lemma fold_step_ext p1 p2 tvl bm l acc :
  (forall s, p1 s = p2 s) ->
  fold_left (step p1 tvl bm) l acc = fold_left (step p2 tvl bm) l acc.
Proof.
  intros H. revert acc. induction l as [|x l IH]; intros acc; simpl; [reflexivity|].
  rewrite (step_prices_ext _ _ tvl bm acc x H). apply IH.
Qed.

Lemma reward_loop_ok net tvl bm st l :
  0 < tvl ->
  exists st',
    reward_loop net tvl bm st l = Ok st'
    /\ rates_of st' = fold_left (step (price net (api_of st)) tvl bm) l (rates_of st)
    /\ settled net (api_of st') = settled net (api_of st).
Proof.
  intros Htvl. revert st. induction l as [|r l IH]; intros st; simpl.
  - eauto.
  - destruct (reward_step_ok net tvl bm st r Htvl) as (st1 & E1 & R1 & S1).
    rewrite E1. cbn [mbind res_mbind res_bind].
    destruct (IH st1) as (st2 & E2 & R2 & S2).
    exists st2. split; [exact E2|]. split; [|congruence].
    rewrite R2, R1. apply fold_step_ext.
    intros s. rewrite !price_settled. now rewrite S1.
Qed.

Lemma calculate_aura_apr_ok net api pool tvl bm :
  0 < tvl ->
  exists d api',
    calculate_aura_apr net api (Some pool) tvl bm = Ok (Some d, api')
    /\ (bal_apr d, aura_apr d, extra_apr d)
       = fold_left (step (price net api) tvl bm) (rewardData pool) (0, 0, 0)
    /\ total_apr d = bal_apr d + aura_apr d + extra_apr d
    /\ settled net api' = settled net api.
Proof.
  intros Htvl. unfold calculate_aura_apr.
  rewrite (proj2 (Qleb_false tvl 0) Htvl).
  destruct (reward_loop_ok net tvl bm {| api_of := api; bal := 0; aura := 0; extra := 0 |}
              (rewardData pool) Htvl) as (st & E & R & S).
  rewrite E. cbn [mbind res_mbind res_bind].
  eexists _, _. split; [reflexivity|]. cbn. repeat split; assumption.
Qed.

Lemma calculate_aura_apr_guard net api aura_pool tvl bm :
  tvl <= 0 -> calculate_aura_apr net api aura_pool tvl bm = Ok (None, api).
Proof.
  intros H. unfold calculate_aura_apr. destruct aura_pool; [|reflexivity].
  now rewrite (proj2 (Qleb_true tvl 0) H).
Qed.

(** *** Failed prices in [step] *)

Lemma step_failed_other prices tvl bm acc r :
  usable (prices (token_symbol r)) = false -> token_symbol r <> "BAL" ->
  step prices tvl bm acc r = acc.
Proof.
  intros H Hne. unfold step. destruct acc as [[b a] e].
  apply String.eqb_neq in Hne. rewrite Hne.
  destruct (Qleb _ 0); [reflexivity|].
  destruct (prices (token_symbol r)) as [p|]; simpl in H; [now rewrite H | reflexivity].
Qed.

Lemma step_failed_bal prices tvl bm acc r :
  usable (prices "BAL") = false ->
  fst (fst (step prices tvl bm acc r)) = if is_bal_reward r then bm else fst (fst acc).
Proof.
  intros H. unfold step, is_bal_reward. destruct acc as [[b a] e].
  destruct (Qleb _ 0); simpl; [now rewrite andb_false_r|]. rewrite andb_true_r.
  destruct (token_symbol r =? "BAL") eqn:E.
  - apply String.eqb_eq in E. rewrite E.
    destruct (prices "BAL") as [p|]; simpl in H; [now rewrite H | reflexivity].
  - destruct (prices (token_symbol r)) as [p|]; [|reflexivity].
    destruct (Py.truthy p); [|reflexivity].
    destruct (token_symbol r =? "AURA"); reflexivity.
Qed.

Lemma fold_step_failed_bal prices tvl bm l acc :
  usable (prices "BAL") = false ->
  fst (fst (fold_left (step prices tvl bm) l acc))
  = if existsb is_bal_reward l then bm else fst (fst acc).
Proof.
  intros H. revert acc. induction l as [|r l IH]; intros acc; [reflexivity|].
  cbn [fold_left existsb]. rewrite IH, (step_failed_bal _ _ _ _ _ H).
  destruct (is_bal_reward r); simpl; [|reflexivity].
  now destruct (existsb is_bal_reward l).
Qed.

Lemma step_failed_aura prices tvl bm b a e r :
  usable (prices "AURA") = false ->
  snd (fst (step prices tvl bm (b, a, e) r)) = a.
Proof.
  intros H. unfold step.
  destruct (Qleb _ 0); [reflexivity|].
  destruct (token_symbol r =? "BAL") eqn:B.
  - destruct (prices (token_symbol r)) as [p|]; [destruct (Py.truthy p)|]; reflexivity.
  - destruct (token_symbol r =? "AURA") eqn:A.
    + apply String.eqb_eq in A. rewrite A.
      destruct (prices "AURA") as [p|]; simpl in H; [now rewrite H | reflexivity].
    + destruct (prices (token_symbol r)) as [p|]; [destruct (Py.truthy p)|]; reflexivity.
Qed.

Lemma fold_step_failed_aura prices tvl bm l acc :
  usable (prices "AURA") = false ->
  snd (fst (fold_left (step prices tvl bm) l acc)) = snd (fst acc).
Proof.
  intros H. revert acc. induction l as [|r l IH]; intros acc; [reflexivity|].
  cbn [fold_left]. rewrite IH. destruct acc as [[b a] e]. now apply step_failed_aura.
Qed.

Lemma fold_step_drop prices tvl bm l1 r l2 acc :
  (forall acc', step prices tvl bm acc' r = acc') ->
  fold_left (step prices tvl bm) (l1 ++ r :: l2) acc
  = fold_left (step prices tvl bm) (l1 ++ l2) acc.
Proof. intros H. rewrite !fold_left_app. cbn [fold_left]. now rewrite H. Qed.

Lemma apr_data_eq d d' :
  (bal_apr d, aura_apr d, extra_apr d) = (bal_apr d', aura_apr d', extra_apr d') ->
  total_apr d = bal_apr d + aura_apr d + extra_apr d ->
  total_apr d' = bal_apr d' + aura_apr d' + extra_apr d' ->
  d = d'.
Proof.
  destruct d, d'; cbn. intros [= -> -> ->] -> ->. reflexivity.
Qed.

(** The overlay with a failed primary price, a failed secondary price and a
    failed price of any other symbol. *)
Lemma overlay_failed_prices net api pool tvl bm :
  0 < tvl ->
  exists d api',
    calculate_aura_apr net api (Some pool) tvl bm = Ok (Some d, api')
    /\ (resolves net api "BAL" = false ->
        existsb is_bal_reward (rewardData pool) = true -> bal_apr d = bm)
    /\ (resolves net api "AURA" = false -> aura_apr d = 0)
    /\ (forall l1 r l2,
          rewardData pool = (l1 ++ r :: l2)%list ->
          token_symbol r <> "BAL" ->
          resolves net api (token_symbol r) = false ->
          exists api'',
            calculate_aura_apr net api (Some (with_rewards pool (l1 ++ l2))) tvl bm
            = Ok (Some d, api'')).
Proof.
  intros Htvl.
  destruct (calculate_aura_apr_ok net api pool tvl bm Htvl) as (d & api' & E & R & T & _).
  exists d, api'. split; [exact E|]. split; [|split].
  - intros Hb Hex.
    pose proof (fold_step_failed_bal (price net api) tvl bm (rewardData pool) (0, 0, 0) Hb) as F.
    rewrite <- R, Hex in F. exact F.
  - intros Ha.
    pose proof (fold_step_failed_aura (price net api) tvl bm (rewardData pool) (0, 0, 0) Ha) as F.
    rewrite <- R in F. exact F.
  - intros l1 r l2 Hl Hne Hf.
    destruct (calculate_aura_apr_ok net api (with_rewards pool (l1 ++ l2)) tvl bm Htvl)
      as (d' & api'' & E' & R' & T' & _).
    exists api''. rewrite E'. do 3 f_equal.
    apply apr_data_eq; [|exact T'|exact T].
    rewrite R', R, Hl. cbn [with_rewards rewardData]. symmetry.
    apply fold_step_drop. intros acc'. now apply step_failed_other.
Qed.

(** *** What the price batch stores *)

Lemma id_to_symbols_eq :
  id_to_symbols
  = <["optimism" := ["OP"; "axlOP"]]> (<["usd-coin" := ["USDC"]]> (<["gho" := ["GHO"]]>
      (<["balancer" := ["BAL"]]> (<["aura-finance" := ["AURA"]]> ∅)))).
Proof. vm_compute. reflexivity. Qed.

Lemma id_to_symbols_assoc cg symbols s :
  id_to_symbols !! cg = Some symbols -> In s symbols -> assoc s COINGECKO_IDS = Some cg.
Proof.
  rewrite id_to_symbols_eq. intros H Hin.
  repeat (apply lookup_insert_Some in H as [[<- <-]|[_ H]];
          [simpl in Hin; intuition (subst; reflexivity)|]).
  now rewrite lookup_empty in H.
Qed.

Lemma store_price_unusable cache cg p :
  usable p = false -> store_price cache (cg, p) = cache.
Proof.
  intros H. unfold store_price. destruct p as [p|]; [|reflexivity].
  simpl in H. rewrite H. now destruct (id_to_symbols !! cg).
Qed.

Lemma insert_all_lookup (symbols : list string) (p : Q) (cache : gmap string Q) s q :
  fold_left (fun (c : gmap string Q) symbol => <[symbol := p]> c) symbols cache !! s = Some q ->
  cache !! s = Some q \/ (In s symbols /\ q = p).
Proof.
  revert cache. induction symbols as [|x l IH]; intros cache; simpl; [auto|].
  intros H. destruct (IH _ H) as [H'|[Hin ->]]; [|auto].
  apply lookup_insert_Some in H' as [[<- <-]|[_ H']]; auto.
Qed.

Lemma store_price_lookup cache cg p s q :
  store_price cache (cg, p) !! s = Some q ->
  cache !! s = Some q
  \/ (p = Some q /\ Py.truthy q = true /\ assoc s COINGECKO_IDS = Some cg).
Proof.
  unfold store_price. destruct p as [p|]; [|auto].
  destruct (id_to_symbols !! cg) as [symbols|] eqn:E; [|auto].
  destruct (Py.truthy p) eqn:T; [|auto].
  intros H. apply insert_all_lookup in H as [H|[Hin ->]]; [auto|].
  right. repeat split; [exact T|]. exact (id_to_symbols_assoc _ _ _ E Hin).
Qed.

Lemma store_prices_lookup data cache s q :
  fold_left store_price data cache !! s = Some q ->
  cache !! s = Some q
  \/ exists cg, In (cg, Some q) data /\ Py.truthy q = true /\ assoc s COINGECKO_IDS = Some cg.
Proof.
  revert cache. induction data as [|[cg p] data IH]; intros cache; simpl; [auto|].
  intros H. destruct (IH _ H) as [H'|(cg' & Hin & T & A)].
  - apply store_price_lookup in H' as [H'|(-> & T & A)]; [auto|].
    right. exists cg. auto.
  - right. exists cg'. auto.
Qed.

Lemma fetch_attempts_cache net m r a api :
  _price_cache (fetch_attempts net m r a api)
  = fold_left store_price (batch net m r a) (_price_cache api).
Proof.
  revert a. induction r as [|r IH]; intros a; simpl; [reflexivity|].
  destruct (coingecko net a); try reflexivity.
  destruct (a <? m - 1)%nat; [apply IH | reflexivity].
Qed.

Lemma settled_fresh_cache net :
  _price_cache (settled net Aura.__init__)
  = fold_left store_price (batch net 3 3 0) ∅.
Proof. unfold settled, fetch_all_prices. cbn [Aura.__init__ _prices_fetched snd]. apply fetch_attempts_cache. Qed.

Lemma truthy_false_iff p : Py.truthy p = false <-> p == 0.
Proof. unfold Py.truthy. rewrite negb_false_iff. apply Qeq_bool_iff. Qed.

Lemma truthy_true_iff p : Py.truthy p = true <-> ~ p == 0.
Proof. unfold Py.truthy. rewrite negb_true_iff. apply Qeq_bool_false_iff. Qed.

Lemma upper_tracked s cg :
  assoc s COINGECKO_IDS = Some cg ->
  upper s = s \/ forall cg', assoc (upper s) COINGECKO_IDS <> Some cg'.
Proof.
  unfold COINGECKO_IDS. cbn [assoc].
  repeat match goal with
         | |- context [String.eqb s ?k] =>
             destruct (String.eqb_spec s k) as [->|_];
             [intros _; first [left; reflexivity | right; intros cg'; vm_compute; discriminate]|]
         end.
  intros H. discriminate H.
Qed.

(** A tracked symbol whose oracle id comes back with price zero (or without a
    price) has no price after the batch. *)
Lemma zero_price_absent net s cg :
  assoc s COINGECKO_IDS = Some cg ->
  (forall p, In (cg, Some p) (batch net 3 3 0) -> p == 0) ->
  price net Aura.__init__ s = None.
Proof.
  intros A Hz. rewrite price_settled, settled_fresh_cache. unfold lookup_price.
  assert (N : forall t, assoc t COINGECKO_IDS = Some cg ->
                        fold_left store_price (batch net 3 3 0) ∅ !! t = None).
  { intros t At. destruct (_ !! t) as [q|] eqn:E; [|reflexivity].
    apply store_prices_lookup in E as [E|(cg' & Hin & T & A')].
    - now rewrite lookup_empty in E.
    - rewrite At in A'. injection A' as <-.
      apply truthy_true_iff in T. exfalso. exact (T (Hz _ Hin)). }
  rewrite (N s A).
  destruct (upper_tracked s cg A) as [U|U]; [rewrite U; exact (N s A)|].
  destruct (_ !! upper s) as [q|] eqn:E; [|reflexivity].
  apply store_prices_lookup in E as [E|(cg' & _ & _ & A')].
  - now rewrite lookup_empty in E.
  - exfalso. exact (U _ A').
Qed.

Lemma no_zero_cached net max_retries s q :
  fst (fetch_all_prices net max_retries Aura.__init__) !! s = Some q -> ~ q == 0.
Proof.
  unfold fetch_all_prices. cbn [Aura.__init__ _prices_fetched fst].
  rewrite fetch_attempts_cache. cbn [_price_cache].
  intros E. apply store_prices_lookup in E as [E|(cg' & _ & T & _)].
  - unfold Aura.__init__ in E. cbn [_price_cache] in E. now rewrite lookup_empty in E.
  - now apply truthy_true_iff.
Qed.

Lemma is_bal_reward_exists l :
  (exists r, In r l /\ token_symbol r = "BAL" /\ 0 < or_zero (rewardRate r)) ->
  existsb is_bal_reward l = true.
Proof.
  intros (r & Hin & Hs & Hr). apply existsb_exists. exists r. split; [exact Hin|].
  unfold is_bal_reward. rewrite Hs. simpl. apply negb_true_iff. now apply Qleb_false.
Qed.

Lemma unresolved_of_absent net api s : price net api s = None -> resolves net api s = false.
Proof. unfold resolves. now intros ->. Qed.

(** ** The claims about the overlay *)

(** C7: with a positive TVL the overlay returns its four sums, and when price
    resolution fails for BAL (no price, or a price that tests false) a BAL
    reward with a positive rate makes [bal_apr] the caller's [bal_max_apr];
    when it fails for AURA, [aura_apr] is zero; and a reward in any symbol
    other than BAL whose price resolution fails contributes nothing: the
    result is the one computed without that reward. *)
Theorem C7_price_failure_is_asymmetric net api pool tvl bal_max_apr :
  0 < tvl ->
  exists d api',
    calculate_aura_apr net api (Some pool) tvl bal_max_apr = Ok (Some d, api')
    /\ (resolves net api "BAL" = false ->
        (exists r, In r (rewardData pool) /\ token_symbol r = "BAL"
                   /\ 0 < or_zero (rewardRate r)) ->
        bal_apr d = bal_max_apr)
    /\ (resolves net api "AURA" = false -> aura_apr d = 0)
    /\ (forall l1 r l2,
          rewardData pool = (l1 ++ r :: l2)%list ->
          token_symbol r <> "BAL" ->
          resolves net api (token_symbol r) = false ->
          exists api'',
            calculate_aura_apr net api (Some (with_rewards pool (l1 ++ l2))) tvl bal_max_apr
            = Ok (Some d, api'')).
Proof.
  intros Htvl.
  destruct (overlay_failed_prices net api pool tvl bal_max_apr Htvl)
    as (d & api' & E & Hb & Ha & Hd).
  exists d, api'. repeat split; auto.
  intros Hf Hex. apply Hb; [exact Hf|]. now apply is_bal_reward_exists.
Qed.

Lemma C7_witness :
  0 < 1000000
  /\ exists d api',
       calculate_aura_apr Examples.net_down Aura.__init__ (Some Examples.aura_pool) 1000000 5
       = Ok (Some d, api')
       /\ bal_apr d = 5 /\ aura_apr d = 0.
Proof.
  assert (H : 0 < 1000000) by reflexivity.
  split; [exact H|].
  destruct (C7_price_failure_is_asymmetric Examples.net_down Aura.__init__
              Examples.aura_pool 1000000 5 H) as (d & api' & E & Hb & Ha & _).
  exists d, api'. split; [exact E|]. split.
  - apply Hb; [reflexivity|].
    eexists. split; [left; reflexivity|]. split; reflexivity.
  - apply Ha. reflexivity.
Defined.

(** C9: for a TVL that is zero or negative the overlay returns the empty
    result, whatever the pool; nothing is raised and the client is untouched,
    so no price is looked up and no division is evaluated, although dividing
    by a zero TVL would raise. *)
Theorem C9_nonpositive_tvl_is_empty net api aura_pool tvl bal_max_apr :
  tvl <= 0 ->
  calculate_aura_apr net api aura_pool tvl bal_max_apr = Ok (None, api)
  /\ (tvl == 0 -> forall x, Py.div x tvl = Raise ZeroDivisionError).
Proof.
  intros H. split; [now apply calculate_aura_apr_guard|].
  intros E x. unfold Py.div. now rewrite (proj2 (Qeq_bool_iff tvl 0) E).
Qed.

Lemma C9_witness :
  0 <= 0
  /\ calculate_aura_apr Examples.net_down Aura.__init__ (Some Examples.aura_pool) 0 5
     = Ok (None, Aura.__init__).
Proof.
  assert (H : 0 <= 0) by discriminate.
  split; [exact H|].
  exact (proj1 (C9_nonpositive_tvl_is_empty Examples.net_down Aura.__init__
                  (Some Examples.aura_pool) 0 5 H)).
Defined.

(** C10: a price of exactly 0 in the oracle's answer is handled like a
    missing price. Storing it changes the cache no more than storing no price;
    no symbol of a freshly fetched cache has price 0; and a tracked symbol
    whose oracle id comes back with price 0 has no price in [get_token_price].
    In the overlay a BAL priced 0 then makes [bal_apr] the caller's
    [bal_max_apr], and a reward in another tracked symbol priced 0 is dropped. *)
Theorem C10_zero_price_is_a_failed_lookup net :
  (forall cache cg p, p == 0 -> store_price cache (cg, Some p) = store_price cache (cg, None))
  /\ (forall max_retries s q,
        fst (fetch_all_prices net max_retries Aura.__init__) !! s = Some q -> ~ q == 0)
  /\ (forall s cg,
        assoc s COINGECKO_IDS = Some cg ->
        (forall p, In (cg, Some p) (batch net 3 3 0) -> p == 0) ->
        fst (get_token_price net Aura.__init__ s) = None
        /\ forall pool tvl bal_max_apr,
             0 < tvl ->
             exists d api',
               calculate_aura_apr net Aura.__init__ (Some pool) tvl bal_max_apr
               = Ok (Some d, api')
               /\ (s = "BAL" ->
                   (exists r, In r (rewardData pool) /\ token_symbol r = "BAL"
                              /\ 0 < or_zero (rewardRate r)) ->
                   bal_apr d = bal_max_apr)
               /\ (s <> "BAL" ->
                   forall l1 r l2,
                     rewardData pool = (l1 ++ r :: l2)%list ->
                     token_symbol r = s ->
                     exists api'',
                       calculate_aura_apr net Aura.__init__
                         (Some (with_rewards pool (l1 ++ l2))) tvl bal_max_apr
                       = Ok (Some d, api''))).
Proof.
  split; [|split].
  - intros cache cg p Hp.
    rewrite (store_price_unusable cache cg (Some p)); [reflexivity|].
    now apply truthy_false_iff.
  - intros m s q. apply no_zero_cached.
  - intros s cg A Hz.
    pose proof (zero_price_absent net s cg A Hz) as P.
    split; [exact P|].
    intros pool tvl bm Htvl.
    destruct (overlay_failed_prices net Aura.__init__ pool tvl bm Htvl)
      as (d & api' & E & Hb & _ & Hd).
    exists d, api'. split; [exact E|]. split.
    + intros -> Hex. apply Hb; [now apply unresolved_of_absent|].
      now apply is_bal_reward_exists.
    + intros Hne l1 r l2 Hl Hs. apply (Hd l1 r l2 Hl); rewrite Hs; [exact Hne|].
      now apply unresolved_of_absent.
Qed.

Lemma C10_witness :
  fst (get_token_price Examples.net_zero Aura.__init__ "BAL") = None
  /\ exists d api',
       calculate_aura_apr Examples.net_zero Aura.__init__ (Some Examples.aura_pool) 1000000 5
       = Ok (Some d, api')
       /\ bal_apr d = 5.
Proof.
  assert (Hz : forall p, In ("balancer", Some p) (batch Examples.net_zero 3 3 0) -> p == 0).
  { intros p [H|[H|[H|[]]]]; inversion H. reflexivity. }
  destruct (proj2 (proj2 (C10_zero_price_is_a_failed_lookup Examples.net_zero))
              "BAL" "balancer" eq_refl Hz) as [P O].
  split; [exact P|].
  assert (H : 0 < 1000000) by reflexivity.
  destruct (O Examples.aura_pool 1000000 5 H) as (d & api' & E & Hb & _).
  exists d, api'. split; [exact E|].
  apply Hb; [reflexivity|].
  eexists. split; [left; reflexivity|]. split; reflexivity.
Defined.

(** ** The tracker *)

Import Tracker.

(** What [_parse_pool] returns for a payload: it never raises, the reward
    components are those of [parse_apr_items], and the four overlay fields
    are either all absent or those of a matched Aura pool. *)
Lemma parse_pool_ok net self pd chain ae :
  let acc := parse_apr_items (Payload.aprItems (Payload.dynamicData pd)) in
  exists r self',
    _parse_pool net self (Some pd) chain ae = Ok (Some r, self')
    /\ tvl r = or_zero (Payload.totalLiquidity (Payload.dynamicData pd))
    /\ base_apy r = apr_base_apy acc
    /\ bal_rewards_apy r = [bal_base acc; bal_base acc + bal_boost acc]
    /\ other_rewards r = apr_other_rewards acc
    /\ total_apy r = apr_base_apy acc + bal_base acc + sum (map apy (apr_other_rewards acc))
    /\ ((aura_apy r = None /\ aura_tvl r = None /\ aura_boost r = None
         /\ aura_staking_contract r = None)
        \/ (exists aura_pool t,
              aura_tvl r = Some t /\ aura_boost r = Some 2.5
              /\ aura_staking_contract r = rewardPool aura_pool
              /\ (tvl r <= 0 -> aura_apy r = None)
              /\ (0 < tvl r -> exists a, aura_apy r = Some a))).
Proof.
  intros acc. unfold _parse_pool. fold acc.
  set (tvl0 := or_zero (Payload.totalLiquidity (Payload.dynamicData pd))).
  destruct (aura_api self) as [api|]; [destruct ae|].
  2,3: eexists _, _; split; [reflexivity|]; cbn; repeat split; left; repeat split.
  destruct (find_pool_by_balancer_address net api _ chain) as [[ap|] api1].
  2: eexists _, _; split; [reflexivity|]; cbn; repeat split; left; repeat split.
  destruct (Qlt_le_dec 0 tvl0) as [Hpos|Hle].
  - destruct (calculate_aura_apr_ok net api1 ap tvl0 (bal_base acc + bal_boost acc) Hpos)
      as (d & api2 & E & _).
    rewrite E. eexists _, _; split; [reflexivity|]; cbn; repeat split.
    right. exists ap. eexists. repeat split.
    + intros Hle. exfalso. exact (Qlt_not_le _ _ Hpos Hle).
    + eauto.
  - rewrite (calculate_aura_apr_guard net api1 (Some ap) tvl0 _ Hle).
    eexists _, _; split; [reflexivity|]; cbn; repeat split.
    right. exists ap. eexists. repeat split.
    intros Hpos. exfalso. exact (Qlt_not_le _ _ Hpos Hle).
Qed.

(** *** Reward items *)

Lemma fold_apr_step_boost l acc :
  (forall item, In item l -> Payload.type item = "STAKING_BOOST" ->
                0 <= or_zero (Payload.apr item)) ->
  0 <= bal_boost acc ->
  0 <= bal_boost (fold_left apr_step l acc).
Proof.
  revert acc. induction l as [|item l IH]; intros acc Hall Hacc; simpl; [exact Hacc|].
  apply IH; [intros i Hi; apply Hall; now right|].
  unfold apr_step.
  destruct (String.eqb_spec (Payload.type item) "SWAP_FEE_24H"); [exact Hacc|].
  destruct (String.eqb_spec (Payload.type item) "VEBAL_EMISSIONS"); [exact Hacc|].
  destruct (String.eqb_spec (Payload.type item) "STAKING_BOOST") as [E|_].
  - cbn. specialize (Hall item (or_introl eq_refl) E). lra.
  - destruct (Qltb 0 _); exact Hacc.
Qed.

Lemma apr_step_dropped acc item :
  classified (Payload.type item) = false -> or_zero (Payload.apr item) <= 0 ->
  apr_step acc item = acc.
Proof.
  unfold classified, apr_step. intros C Hle.
  apply orb_false_iff in C as [C C3]. apply orb_false_iff in C as [C1 C2].
  rewrite C1, C2, C3.
  destruct (Qltb 0 (or_zero (Payload.apr item) * 100)) eqn:E; [|reflexivity].
  apply Qltb_true in E. lra.
Qed.

Lemma parse_apr_items_dropped l1 item l2 :
  classified (Payload.type item) = false -> or_zero (Payload.apr item) <= 0 ->
  parse_apr_items (l1 ++ item :: l2) = parse_apr_items (l1 ++ l2).
Proof.
  intros C Hle. unfold parse_apr_items. rewrite !fold_left_app. cbn [fold_left].
  now rewrite apr_step_dropped.
Qed.

Lemma parse_pool_items net self pd chain ae l l' :
  parse_apr_items l = parse_apr_items l' ->
  _parse_pool net self (Some (with_items pd l)) chain ae
  = _parse_pool net self (Some (with_items pd l')) chain ae.
Proof.
  intros H. unfold _parse_pool, with_items.
  cbn [Payload.dynamicData Payload.aprItems Payload.totalLiquidity Payload.totalShares
       Payload.poolTokens Payload.address Payload.name Payload.id].
  now rewrite H.
Qed.

(** *** Rewards of the overlay with a rate that is zero or negative *)

Lemma reward_step_skipped net tvl bm st r :
  or_zero (rewardRate r) <= 0 -> reward_step net tvl bm st r = Ok st.
Proof. intros H. unfold reward_step. now rewrite (proj2 (Qleb_true _ 0) H). Qed.

Lemma reward_loop_app net tvl bm st l1 l2 :
  reward_loop net tvl bm st (l1 ++ l2)
  = reward_loop net tvl bm st l1 ≫= (fun st' => reward_loop net tvl bm st' l2).
Proof.
  revert st. induction l1 as [|r l1 IH]; intros st; simpl; [reflexivity|].
  destruct (reward_step net tvl bm st r) as [st'|e]; [apply IH | reflexivity].
Qed.

Lemma reward_loop_skipped net tvl bm st l1 r l2 :
  or_zero (rewardRate r) <= 0 ->
  reward_loop net tvl bm st (l1 ++ r :: l2) = reward_loop net tvl bm st (l1 ++ l2).
Proof.
  intros H. rewrite !reward_loop_app.
  destruct (reward_loop net tvl bm st l1) as [st'|e]; [|reflexivity].
  cbn [mbind res_mbind res_bind reward_loop]. now rewrite reward_step_skipped.
Qed.

(** ** The claims about parsing *)

(** C1 (amended): in every parsed record [aura_tvl] and [aura_boost] are
    present together or absent together, and when they are absent so are
    [aura_apy] and [aura_staking_contract]; hence [aura_apy] is absent
    whenever the three other overlay fields are. For a record with a positive
    TVL the converse holds too: [aura_apy] is absent if and only if the three
    others are. *)
Theorem C1_overlay_fields net self pd chain ae :
  exists r self',
    _parse_pool net self (Some pd) chain ae = Ok (Some r, self')
    /\ (aura_tvl r = None <-> aura_boost r = None)
    /\ (aura_boost r = None -> aura_apy r = None /\ aura_staking_contract r = None)
    /\ (aura_tvl r = None /\ aura_boost r = None /\ aura_staking_contract r = None ->
        aura_apy r = None)
    /\ (0 < tvl r ->
        (aura_apy r = None <->
         aura_tvl r = None /\ aura_boost r = None /\ aura_staking_contract r = None)).
Proof.
  destruct (parse_pool_ok net self pd chain ae)
    as (r & self' & E & _ & _ & _ & _ & _ & [(Ha & Ht & Hb & Hs)|(ap & t & Ht & Hb & Hs & Hle & Hpos)]).
  - exists r, self'. split; [exact E|]. rewrite Ha, Ht, Hb, Hs. tauto.
  - exists r, self'. split; [exact E|]. rewrite Ht, Hb.
    split; [split; discriminate|]. split; [discriminate|].
    split; [intros (H & _); discriminate|].
    intros Hp. destruct (Hpos Hp) as [a ->]. split; [discriminate|].
    intros (H & _). discriminate.
Qed.

Lemma C1_witness :
  exists r,
    Examples.parsed Examples.net_down (Tracker.__init__ true)
      (Examples.pool_payload Examples.spec_items 1000000) "ethereum" true = Some r
    /\ 0 < tvl r
    /\ (aura_apy r = None <->
        aura_tvl r = None /\ aura_boost r = None /\ aura_staking_contract r = None).
Proof.
  destruct (C1_overlay_fields Examples.net_down (Tracker.__init__ true)
              (Examples.pool_payload Examples.spec_items 1000000) "ethereum" true)
    as (r & self' & E & _ & _ & _ & H).
  exists r. unfold Examples.parsed. rewrite E. split; [reflexivity|].
  assert (T : 0 < tvl r).
  { vm_compute in E. injection E as <- _. reflexivity. }
  split; [exact T | exact (H T)].
Defined.

(** C1 as stated fails: a pool matched on Aura whose TVL is 0 is parsed into a
    record without [aura_apy] but with [aura_tvl], [aura_boost] and
    [aura_staking_contract]. *)
Lemma C1_counterexample :
  exists r,
    Examples.parsed Examples.net_down (Tracker.__init__ true)
      (Examples.pool_payload Examples.spec_items 0) "ethereum" true = Some r
    /\ ~ (aura_apy r = None <->
          aura_tvl r = None /\ aura_boost r = None /\ aura_staking_contract r = None).
Proof.
  eexists. split; [vm_compute; reflexivity|].
  cbn. intros [H _]. destruct (H eq_refl) as [H' _]. discriminate H'.
Qed.

(** C2 (amended): when no boost-emission item has a negative apr, the parsed
    record has [bal_rewards_apy = [lo; hi]] with [lo <= hi]. *)
Theorem C2_bal_rewards_ordered net self pd chain ae :
  (forall item,
     In item (Payload.aprItems (Payload.dynamicData pd)) ->
     Payload.type item = "STAKING_BOOST" -> 0 <= or_zero (Payload.apr item)) ->
  exists r self' lo hi,
    _parse_pool net self (Some pd) chain ae = Ok (Some r, self')
    /\ bal_rewards_apy r = [lo; hi]
    /\ lo <= hi.
Proof.
  intros Hall.
  destruct (parse_pool_ok net self pd chain ae) as (r & self' & E & _ & _ & B & _).
  exists r, self'. eexists _, _. split; [exact E|]. split; [exact B|].
  assert (H : 0 <= bal_boost (parse_apr_items (Payload.aprItems (Payload.dynamicData pd)))).
  { apply fold_apr_step_boost; [exact Hall | cbn; lra]. }
  lra.
Qed.

Lemma C2_witness :
  exists r self' lo hi,
    _parse_pool Examples.net_down (Tracker.__init__ false)
      (Some (Examples.pool_payload Examples.spec_items 1000000)) "ethereum" false
    = Ok (Some r, self')
    /\ bal_rewards_apy r = [lo; hi]
    /\ lo <= hi.
Proof.
  apply (C2_bal_rewards_ordered Examples.net_down (Tracker.__init__ false)
           (Examples.pool_payload Examples.spec_items 1000000) "ethereum" false).
  intros item [<-|[<-|[<-|[]]]] _; vm_compute; discriminate.
Defined.

(** C2 as stated fails: a boost-emission item with a negative apr puts the
    second entry of [bal_rewards_apy] below the first. *)
Lemma C2_counterexample :
  exists r lo hi,
    Examples.parsed Examples.net_down (Tracker.__init__ false)
      (Examples.pool_payload [Examples.item "STAKING_BOOST" (-0.01)] 1000000)
      "ethereum" false = Some r
    /\ bal_rewards_apy r = [lo; hi]
    /\ ~ lo <= hi.
Proof.
  eexists _, _, _. split; [vm_compute; reflexivity|].
  split; [reflexivity|]. intros H. vm_compute in H. now apply H.
Qed.

(** C3 (amended): a reward item with apr zero or negative whose type is none
    of swap-fee, base-emission and boost-emission contributes nothing: the
    payload parses to the same result with and without it. In the overlay a
    reward with a rate that is zero or negative contributes nothing: the
    computation gives the same result with and without it. *)
Theorem C3_nonpositive_dropped net self pd chain ae api pool tvl bal_max_apr :
  (forall l1 item l2,
     classified (Payload.type item) = false ->
     or_zero (Payload.apr item) <= 0 ->
     _parse_pool net self (Some (with_items pd (l1 ++ item :: l2))) chain ae
     = _parse_pool net self (Some (with_items pd (l1 ++ l2))) chain ae)
  /\ (forall l1 r l2,
        or_zero (rewardRate r) <= 0 ->
        calculate_aura_apr net api (Some (with_rewards pool (l1 ++ r :: l2))) tvl bal_max_apr
        = calculate_aura_apr net api (Some (with_rewards pool (l1 ++ l2))) tvl bal_max_apr).
Proof.
  split.
  - intros l1 item l2 C Hle. apply parse_pool_items.
    now apply parse_apr_items_dropped.
  - intros l1 r l2 Hle. unfold calculate_aura_apr, with_rewards. cbn [rewardData].
    destruct (Qleb tvl 0); [reflexivity|].
    now rewrite reward_loop_skipped.
Qed.

Lemma C3_witness :
  _parse_pool Examples.net_down (Tracker.__init__ true)
    (Some (with_items (Examples.pool_payload [] 1000000)
             ([Examples.item "SWAP_FEE_24H" 0.05] ++ Examples.item "MERKL" (-0.01)
                :: [Examples.item "VEBAL_EMISSIONS" 0.02])))
    "ethereum" true
  = _parse_pool Examples.net_down (Tracker.__init__ true)
      (Some (with_items (Examples.pool_payload [] 1000000)
               ([Examples.item "SWAP_FEE_24H" 0.05] ++ [Examples.item "VEBAL_EMISSIONS" 0.02])))
      "ethereum" true.
Proof.
  apply (proj1 (C3_nonpositive_dropped Examples.net_down (Tracker.__init__ true)
                  (Examples.pool_payload [] 1000000) "ethereum" true
                  Aura.__init__ Examples.aura_pool 1000000 5)).
  - reflexivity.
  - vm_compute. discriminate.
Defined.

(** C3 as stated fails: a swap-fee item with a negative apr sets [base_apy]
    and [total_apy] to its value; without the item both are 0. *)
Lemma C3_counterexample :
  exists r r0,
    or_zero (Payload.apr (Examples.item "SWAP_FEE_24H" (-0.01))) <= 0
    /\ Examples.parsed Examples.net_down (Tracker.__init__ false)
         (Examples.pool_payload [Examples.item "SWAP_FEE_24H" (-0.01)] 1000000)
         "ethereum" false = Some r
    /\ Examples.parsed Examples.net_down (Tracker.__init__ false)
         (Examples.pool_payload [] 1000000) "ethereum" false = Some r0
    /\ base_apy r == -1 /\ total_apy r == -1
    /\ base_apy r0 == 0 /\ total_apy r0 == 0.
Proof.
  eexists _, _. split; [vm_compute; discriminate|].
  split; [vm_compute; reflexivity|]. split; [vm_compute; reflexivity|].
  repeat split; reflexivity.
Qed.

(** [sum] adds the values up: it is the sum as the specification has it. *)
Lemma fold_left_Qplus l a : fold_left Qplus (map apy l) a == a + apy_sum l.
Proof.
  revert a. induction l as [|x l IH]; intros a; cbn [map fold_left apy_sum].
  - ring.
  - rewrite IH. ring.
Qed.

Lemma sum_apy l : sum (map apy l) == apy_sum l.
Proof. unfold sum. rewrite fold_left_Qplus. ring. Qed.

(** C8: every payload parses (nothing is raised) into a record with
    [bal_rewards_apy = [lo; hi]] and
    [total_apy = base_apy + lo + sum of the other rewards' apy], the sum being
    the one the code computes, which is the values added one by one. For the
    reward items swap-fee 0.05, base-emission 0.02, boost-emission 0.03 the
    record has [base_apy = 5], [bal_rewards_apy = [2; 5]] and [total_apy = 7];
    followed by two rewards of other types with apr 0.012 and 0.03, the record
    has these two percentages as other rewards and [total_apy = 11.2]. *)
Theorem C8_total_apy net self pd chain ae :
  exists r self' lo hi,
    _parse_pool net self (Some pd) chain ae = Ok (Some r, self')
    /\ bal_rewards_apy r = [lo; hi]
    /\ total_apy r = base_apy r + lo + sum (map apy (other_rewards r))
    /\ total_apy r == base_apy r + lo + apy_sum (other_rewards r)
    /\ (Payload.aprItems (Payload.dynamicData pd) = Examples.spec_items ->
        base_apy r == 5 /\ lo == 2 /\ hi == 5 /\ total_apy r == 7
        /\ other_rewards r = [])
    /\ (Payload.aprItems (Payload.dynamicData pd) = Examples.items_with_others ->
        base_apy r == 5 /\ lo == 2 /\ hi == 5
        /\ (exists first second,
              other_rewards r = [first; second]
              /\ token first = "MERKL" /\ apy first == 1.2
              /\ token second = "SURPLUS" /\ apy second == 3)
        /\ apy_sum (other_rewards r) == 4.2
        /\ total_apy r == 11.2).
Proof.
  destruct (parse_pool_ok net self pd chain ae) as (r & self' & E & _ & A & B & O & T & _).
  exists r, self'. eexists _, _. split; [exact E|]. split; [exact B|].
  split; [now rewrite T, A, O|].
  split; [rewrite T, A, O; now rewrite sum_apy|].
  split.
  - intros Hi. rewrite T, A, O, Hi. repeat split; reflexivity.
  - intros Hi. rewrite T, A, O, Hi. split; [reflexivity|]. split; [reflexivity|].
    split; [reflexivity|]. split; [|split; reflexivity].
    eexists _, _. split; [reflexivity|]. repeat split; reflexivity.
Qed.

Lemma C8_witness :
  exists r r',
    Examples.parsed Examples.net_down (Tracker.__init__ false)
      (Examples.pool_payload Examples.spec_items 1000000) "ethereum" false = Some r
    /\ base_apy r == 5 /\ total_apy r == 7
    /\ Examples.parsed Examples.net_down (Tracker.__init__ false)
         (Examples.pool_payload Examples.items_with_others 1000000) "ethereum" false
       = Some r'
    /\ apy_sum (other_rewards r') == 4.2 /\ total_apy r' == 11.2.
Proof.
  destruct (C8_total_apy Examples.net_down (Tracker.__init__ false)
              (Examples.pool_payload Examples.spec_items 1000000) "ethereum" false)
    as (r & self' & lo & hi & E & _ & _ & _ & H & _).
  destruct (C8_total_apy Examples.net_down (Tracker.__init__ false)
              (Examples.pool_payload Examples.items_with_others 1000000) "ethereum" false)
    as (r' & self'' & lo' & hi' & E' & _ & _ & _ & _ & H').
  exists r, r'. unfold Examples.parsed. rewrite E, E'.
  destruct (H eq_refl) as (Hb & _ & _ & Ht & _).
  destruct (H' eq_refl) as (_ & _ & _ & _ & Hs & Ht').
  repeat split; assumption.
Defined.

(** ** The snapshot store *)

Lemma all_some_str l : all_some (map as_str (map JStr l)) = Some l.
Proof. induction l as [|x l IH]; simpl; [reflexivity | now rewrite IH]. Qed.

Lemma all_some_num (f : Q -> Q) l :
  all_some (map as_num (map (fun a => JNum (f a)) l)) = Some (map f l).
Proof. induction l as [|x l IH]; simpl; [reflexivity | now rewrite IH]. Qed.

Lemma all_some_other_rewards l :
  all_some (map json_to_other_reward (map other_reward_to_json l)) = Some l.
Proof.
  induction l as [|[t a] l IH]; simpl; [reflexivity|]. now rewrite IH.
Qed.

Lemma json_to_pool_to_json pool : _json_to_pool (_pool_to_json pool) = Some (reload pool).
Proof.
  destruct pool as [n c a i t b br o ta co cr ca cp aa at_ ab asc].
  unfold _json_to_pool, _pool_to_json, reload, str_list, num_list.
  cbn -[round _generate_pool_key _format_currency all_some map].
  rewrite all_some_other_rewards, !all_some_str.
  cbn -[round _generate_pool_key _format_currency all_some map].
  rewrite (all_some_num (fun a => round a 6)), (all_some_num (fun p => round p 4)).
  cbn -[round _generate_pool_key _format_currency all_some map].
  destruct aa as [aa|]; cbn -[round]; [|reflexivity].
  destruct at_, ab, asc; reflexivity.
Qed.

Lemma omap_json_to_pool l : omap _json_to_pool (map _pool_to_json l) = map reload l.
Proof.
  induction l as [|x l IH]; [reflexivity|].
  cbn [map omap list_omap]. fold (omap _json_to_pool (map _pool_to_json l)).
  rewrite json_to_pool_to_json. cbn. now rewrite IH.
Qed.

Lemma load_after_save s now rs :
  rs <> [] -> load (fst (save s now rs)) = Ok (map reload rs).
Proof.
  intros H. destruct rs as [|r rs]; [contradiction|].
  unfold save. set (l := r :: rs). cbn -[l omap map sorted_set existsb length].
  now rewrite omap_json_to_pool.
Qed.

(** Rounding what is already rounded changes nothing. *)
Lemma round_half_even_Z z : round_half_even (inject_Z z) = z.
Proof.
  unfold round_half_even. rewrite Qfloor_Z.
  assert (E : inject_Z z - inject_Z z == 0) by ring.
  now rewrite E.
Qed.

#[local] Instance round_half_even_comp : Proper (Qeq ==> eq) round_half_even.
Proof.
  intros x y E. unfold round_half_even.
  rewrite (Qfloor_comp _ _ E).
  assert (E' : x - inject_Z (Qfloor y) == y - inject_Z (Qfloor y)) by now rewrite E.
  now rewrite E'.
Qed.

Lemma round_idempotent x n : round (round x n) n = round x n.
Proof.
  unfold round. f_equal.
  set (z := round_half_even (x * inject_Z (Z.pos (pow10 n)))).
  transitivity (round_half_even (inject_Z z)); [|apply round_half_even_Z].
  apply round_half_even_comp.
  unfold Qeq, Qmult, inject_Z. cbn [Qnum Qden]. rewrite Pos2Z.inj_mul. ring.
Qed.

(** ** The history store *)

Lemma dict_get_set_eq k v d : dict_get k (dict_set k v d) = Some v.
Proof.
  induction d as [|[k' v'] d IH]; simpl.
  - now rewrite String.eqb_refl.
  - destruct (String.eqb_spec k k') as [->|N]; simpl.
    + now rewrite String.eqb_refl.
    + apply String.eqb_neq in N. now rewrite N.
Qed.

Lemma dict_get_set_ne k k' v d : k <> k' -> dict_get k' (dict_set k v d) = dict_get k' d.
Proof.
  intros N. induction d as [|[k0 v0] d IH]; simpl.
  - destruct (String.eqb_spec k' k); [congruence | reflexivity].
  - destruct (String.eqb_spec k k0) as [->|N0]; simpl.
    + destruct (String.eqb_spec k' k0); [congruence | reflexivity].
    + now rewrite IH.
Qed.

Lemma series_of_mk dd la h k :
  series_of {| data_dir := dd; latest := la; history := Doc h |} k = doc_series h k.
Proof. reflexivity. Qed.

Lemma empty_history_ok now : history_ok (_empty_history now).
Proof.
  unfold history_ok, _empty_history. eexists _, []. split; [reflexivity|].
  split; [reflexivity|]. intros k slot H. discriminate H.
Qed.

Lemma set_last_updated_ok now h :
  history_ok h ->
  exists h',
    setitem "last_updated" (JStr now) h = Ok h'
    /\ history_ok h'
    /\ forall k, doc_series h' k = doc_series h k.
Proof.
  intros (d & pools & -> & P & S). eexists. split; [reflexivity|].
  assert (G : dict_get "pools" (dict_set "last_updated" (JStr now) d) = Some (JObj pools)).
  { rewrite dict_get_set_ne; [exact P | discriminate]. }
  split.
  - exists (dict_set "last_updated" (JStr now) d), pools. auto.
  - intros k. unfold doc_series. cbn [as_dict mbind option_bind]. now rewrite G, P.
Qed.

(** One iteration of the loop of [append_history] on a well-shaped document. *)
Lemma append_snapshot_ok now max h pool :
  history_ok h ->
  exists h',
    append_snapshot now max h pool = Ok h'
    /\ history_ok h'
    /\ default [] (doc_series h' (_generate_pool_key pool))
       = trim max (default [] (doc_series h (_generate_pool_key pool))
                   ++ [snapshot_of now pool])
    /\ forall k, k <> _generate_pool_key pool -> doc_series h' k = doc_series h k.
Proof.
  intros (d & pools & -> & P & S).
  unfold append_snapshot. set (key := _generate_pool_key pool).
  cbn [getitem]. rewrite P. cbn [mbind res_mbind res_bind].
  set (fresh := JObj [("metadata", _); ("snapshots", JArr [])]).
  set (pools' := if dict_mem key pools then pools else dict_set key fresh pools).
  assert (Hslot : exists sd l,
             dict_get key pools' = Some (JObj sd)
             /\ dict_get "snapshots" sd = Some (JArr l)
             /\ default [] (doc_series (JObj d) key) = l).
  { unfold pools', dict_mem, doc_series. cbn [as_dict mbind option_bind]. rewrite P.
    cbn [as_dict mbind option_bind].
    destruct (dict_get key pools) as [slot|] eqn:E.
    - destruct (S _ _ E) as (sd & l & -> & Hl). exists sd, l.
      cbn [as_dict mbind option_bind]. rewrite Hl. auto.
    - eexists _, []. rewrite dict_get_set_eq. split; [reflexivity|]. split; reflexivity. }
  destruct Hslot as (sd & l & Hk & Hl & Hs).
  assert (S' : forall k slot, dict_get k pools' = Some slot -> slot_ok slot).
  { unfold pools'. destruct (dict_mem key pools); [exact S|].
    intros k slot. destruct (String.eqb_spec key k) as [<-|N].
    - rewrite dict_get_set_eq. intros [= <-]. eexists _, []. split; reflexivity.
    - rewrite dict_get_set_ne by exact N. apply S. }
  assert (O : forall k, k <> key -> dict_get k pools' = dict_get k pools).
  { intros k N. unfold pools'. destruct (dict_mem key pools); [reflexivity|].
    apply dict_get_set_ne. congruence. }
  rewrite Hk. cbn [getitem mbind res_mbind res_bind]. rewrite Hl.
  cbn [mbind res_mbind res_bind setitem].
  set (l' := trim max (l ++ [snapshot_of now pool])).
  set (slot' := JObj (dict_set "snapshots" (JArr l') sd)).
  eexists. split; [reflexivity|].
  assert (G : dict_get "pools" (dict_set "pools" (JObj (dict_set key slot' pools')) d)
              = Some (JObj (dict_set key slot' pools'))) by apply dict_get_set_eq.
  split; [|split].
  - eexists _, _. split; [reflexivity|]. split; [exact G|].
    intros k slot. destruct (String.eqb_spec key k) as [<-|N].
    + rewrite dict_get_set_eq. intros [= <-]. eexists _, l'. split; [reflexivity|].
      apply dict_get_set_eq.
    + rewrite dict_get_set_ne by exact N. apply S'.
  - rewrite Hs. unfold doc_series. cbn [as_dict mbind option_bind]. rewrite G.
    cbn [as_dict mbind option_bind]. rewrite dict_get_set_eq. unfold slot'.
    cbn [as_dict mbind option_bind]. rewrite dict_get_set_eq. reflexivity.
  - intros k N. unfold doc_series. cbn [as_dict mbind option_bind]. rewrite G, P.
    cbn [as_dict mbind option_bind].
    rewrite dict_get_set_ne by congruence. now rewrite (O k N).
Qed.

Lemma for_each_append_ok now max l h :
  history_ok h ->
  exists h',
    for_each (append_snapshot now max) h l = Ok h'
    /\ history_ok h'
    /\ forall k, (forall pool, In pool l -> _generate_pool_key pool <> k) ->
                 doc_series h' k = doc_series h k.
Proof.
  revert h. induction l as [|pool l IH]; intros h Hh; cbn [for_each].
  - eauto.
  - destruct (append_snapshot_ok now max h pool Hh) as (h1 & E1 & H1 & _ & O1).
    rewrite E1. cbn [mbind res_mbind res_bind].
    destruct (IH h1 H1) as (h2 & E2 & H2 & O2).
    exists h2. split; [exact E2|]. split; [exact H2|].
    intros k N. rewrite O2 by (intros p Hp; apply N; now right).
    apply O1. intros ->. exact (N pool (or_introl eq_refl) eq_refl).
Qed.

Lemma start_ok now s : file_ok (history s) -> history_ok (start_of now s).
Proof.
  unfold start_of, file_ok. destruct (history s); auto using empty_history_ok.
Qed.

Lemma start_series now s k : doc_series (start_of now s) k = series_of s k.
Proof.
  unfold start_of, series_of, doc_series. destruct (history s); reflexivity.
Qed.

Lemma append_history_ok s now l max :
  file_ok (history s) ->
  exists out,
    append_history s now l max = Ok out
    /\ file_ok (history (fst out))
    /\ data_dir (fst out) = data_dir s
    /\ forall k, (forall pool, In pool l -> _generate_pool_key pool <> k) ->
                 series_of (fst out) k = series_of s k.
Proof.
  intros Hs. unfold append_history. fold (start_of now s).
  destruct l as [|pool l].
  { exists (s, EmptyString). repeat split; auto. }
  destruct (set_last_updated_ok now _ (start_ok now s Hs)) as (h0 & E0 & H0 & S0).
  rewrite E0. cbn [mbind res_mbind res_bind].
  destruct (for_each_append_ok now max (pool :: l) h0 H0) as (h1 & E1 & H1 & O1).
  rewrite E1. cbn [mbind res_mbind res_bind].
  eexists. split; [reflexivity|]. cbn [fst history data_dir].
  split; [exact H1|]. split; [reflexivity|].
  intros k N. rewrite series_of_mk, (O1 k N), S0. apply start_series.
Qed.

Lemma append_history_one s now pool max :
  file_ok (history s) ->
  exists s1,
    append_history s now [pool] max = Ok (s1, history_file s)
    /\ file_ok (history s1)
    /\ data_dir s1 = data_dir s
    /\ entries s1 (_generate_pool_key pool)
       = trim max (entries s (_generate_pool_key pool) ++ [snapshot_of now pool])
    /\ forall k, k <> _generate_pool_key pool -> series_of s1 k = series_of s k.
Proof.
  intros Hs. unfold append_history. fold (start_of now s).
  destruct (set_last_updated_ok now _ (start_ok now s Hs)) as (h0 & E0 & H0 & S0).
  rewrite E0. cbn [mbind res_mbind res_bind for_each].
  destruct (append_snapshot_ok now max h0 pool H0) as (h1 & E1 & H1 & T1 & O1).
  rewrite E1. cbn [mbind res_mbind res_bind].
  eexists. split; [reflexivity|]. cbn [history data_dir].
  split; [exact H1|]. split; [reflexivity|]. split.
  - unfold entries. rewrite series_of_mk, T1, S0.
    now rewrite start_series.
  - intros k N. rewrite series_of_mk, (O1 k N), S0. apply start_series.
Qed.

Lemma append_each_ok k calls s :
  file_ok (history s) ->
  Forall (fun c => _generate_pool_key (snd c) = k) calls ->
  exists sN,
    append_each s calls None = Ok sN
    /\ file_ok (history sN)
    /\ data_dir sN = data_dir s
    /\ entries sN k = (entries s k ++ map (fun c => snapshot_of (fst c) (snd c)) calls)%list.
Proof.
  revert s. induction calls as [|[now pool] calls IH]; intros s Hs Hall; cbn [append_each].
  - exists s. rewrite app_nil_r. auto.
  - inversion_clear Hall as [|? ? Hk Hrest]. cbn [snd] in Hk. subst k.
    destruct (append_history_one s now pool None Hs) as (s1 & E1 & H1 & D1 & T1 & _).
    rewrite E1. cbn [mbind res_mbind res_bind fst].
    destruct (IH s1 H1 Hrest) as (sN & EN & HN & DN & TN).
    exists sN. split; [exact EN|]. split; [exact HN|]. split; [congruence|].
    rewrite TN, T1. cbn [trim map fst snd]. now rewrite <- app_assoc.
Qed.

Lemma trim_keeps_last (K : Z) (l : list json) :
  (0 < K)%Z -> (K < Z.of_nat (length l))%Z ->
  trim (Some K) l = drop (length l - Z.to_nat K) l
  /\ length (trim (Some K) l) = Z.to_nat K.
Proof.
  intros Hpos Hlt. unfold trim, slice_from.
  assert (E1 : (K =? 0)%Z = false) by lia.
  assert (E2 : (Z.of_nat (length l) >? K)%Z = true) by lia.
  assert (E3 : (- K <? 0)%Z = true) by lia.
  rewrite E1, E2, E3. cbn [negb andb].
  replace (Z.to_nat (Z.max 0 (Z.of_nat (length l) + - K))) with (length l - Z.to_nat K)%nat by lia.
  split; [reflexivity|]. rewrite length_drop. lia.
Qed.

(** ** The claims about the store *)

(** C5 (amended): for a non-empty list, [load] after [save] returns one record
    per saved record, in order, each the saved record with its numbers rounded
    as they were serialized: [tvl] to 2 decimals, [base_apy], the two entries
    of [bal_rewards_apy] and [total_apy] to 4, [aura_apy] to 4 when present,
    and [aura_tvl] to 2 when [aura_apy] is present. A record saved without
    [aura_apy] is read back without [aura_tvl]. Rounding a rounded number again
    changes nothing. *)
Theorem C5_load_after_save s now rs :
  rs <> [] ->
  load (fst (save s now rs)) = Ok (map reload rs)
  /\ (forall r, In r rs ->
        tvl (reload r) = round (tvl r) 2
        /\ base_apy (reload r) = round (base_apy r) 4
        /\ total_apy (reload r) = round (total_apy r) 4
        /\ (forall lo hi rest, bal_rewards_apy r = lo :: hi :: rest ->
              bal_rewards_apy (reload r) = [round lo 4; round hi 4])
        /\ aura_apy (reload r) = (fun a => round a 4) <$> aura_apy r
        /\ (is_Some (aura_apy r) ->
            aura_tvl (reload r) = (fun t => round t 2) <$> aura_tvl r)
        /\ (aura_apy r = None -> aura_tvl (reload r) = None))
  /\ (forall x n, round (round x n) n = round x n).
Proof.
  intros H. split; [now apply load_after_save|]. split; [|apply round_idempotent].
  intros r _. repeat split.
  - intros lo hi rest E. unfold reload. cbn [bal_rewards_apy]. now rewrite E.
  - intros [a E]. unfold reload. cbn [aura_tvl]. now rewrite E.
  - intros E. unfold reload. cbn [aura_tvl]. now rewrite E.
Qed.

Lemma C5_witness :
  [Examples.with_overlay] <> []
  /\ exists r,
       load (fst (save Examples.fresh "2026-01-01T00:00:00Z" [Examples.with_overlay]))
       = Ok [r]
       /\ tvl r = 1234567.89 /\ base_apy r = 5.0000 /\ aura_tvl r = Some 2.13.
Proof.
  assert (H : [Examples.with_overlay] <> []) by discriminate.
  split; [exact H|].
  destruct (C5_load_after_save Examples.fresh "2026-01-01T00:00:00Z"
              [Examples.with_overlay] H) as (E & _ & _).
  exists (reload Examples.with_overlay). split; [exact E|].
  repeat split; reflexivity.
Defined.

(** C5 as stated fails: a record with [aura_tvl] but without [aura_apy] is
    read back without [aura_tvl], not with [aura_tvl] rounded to 2 decimals. *)
Lemma C5_counterexample :
  exists r,
    load (fst (save Examples.fresh "2026-01-01T00:00:00Z" [Examples.without_apy])) = Ok [r]
    /\ aura_tvl Examples.without_apy = Some 2
    /\ aura_tvl r <> (fun t => round t 2) <$> aura_tvl Examples.without_apy.
Proof.
  eexists. split; [vm_compute; reflexivity|]. split; [reflexivity | discriminate].
Qed.

(** C6 (amended): starting from a history file in which the key has no
    entries, N successive [append_history] calls, each with one record of that
    key, all succeed and leave the key's series with exactly the N snapshots in
    call order. A further call with [max_snapshots = K], 0 < K < N + 1, leaves
    exactly the most recent K of the N + 1 snapshots and changes no other
    key's series. Moreover any call on a well-shaped history file succeeds and
    leaves the series of every key that is not among its records as it was. *)
Theorem C6_append_and_trim s0 k calls :
  file_ok (history s0) ->
  entries s0 k = [] ->
  Forall (fun c => _generate_pool_key (snd c) = k) calls ->
  let snapshots := map (fun c => snapshot_of (fst c) (snd c)) calls in
  exists sN,
    append_each s0 calls None = Ok sN
    /\ entries sN k = snapshots
    /\ length (entries sN k) = length calls
    /\ (forall now pool K,
          _generate_pool_key pool = k ->
          (0 < K)%Z -> (K < Z.of_nat (length calls) + 1)%Z ->
          exists s1,
            append_history sN now [pool] (Some K) = Ok (s1, history_file sN)
            /\ entries s1 k
               = drop (length calls + 1 - Z.to_nat K) (snapshots ++ [snapshot_of now pool])
            /\ length (entries s1 k) = Z.to_nat K
            /\ forall k', k' <> k -> series_of s1 k' = series_of sN k')
    /\ (forall now l max_snapshots,
          exists out,
            append_history sN now l max_snapshots = Ok out
            /\ forall k',
                 (forall pool, In pool l -> _generate_pool_key pool <> k') ->
                 series_of (fst out) k' = series_of sN k').
Proof.
  intros Hs He Hall snapshots.
  destruct (append_each_ok k calls s0 Hs Hall) as (sN & EN & HN & _ & TN).
  rewrite He in TN. cbn [app] in TN. fold snapshots in TN.
  exists sN. split; [exact EN|]. split; [exact TN|].
  split; [rewrite TN; unfold snapshots; apply length_map|]. split.
  - intros now pool K Hk Hpos Hlt.
    destruct (append_history_one sN now pool (Some K) HN) as (s1 & E1 & _ & _ & T1 & O1).
    rewrite Hk, TN in T1. rewrite Hk in O1.
    assert (L : length (snapshots ++ [snapshot_of now pool]) = (length calls + 1)%nat).
    { rewrite length_app. unfold snapshots. rewrite length_map. reflexivity. }
    destruct (trim_keeps_last K (snapshots ++ [snapshot_of now pool]) Hpos) as [D Ln].
    { rewrite L. lia. }
    exists s1. split; [exact E1|]. rewrite T1, Ln, D, L. auto.
  - intros now l max.
    destruct (append_history_ok sN now l max HN) as (out & E & _ & _ & O).
    exists out. auto.
Qed.

Lemma C6_witness :
  exists sN s1 path,
    append_each Examples.fresh
      [("2026-01-01T00:00:00Z", Examples.with_overlay);
       ("2026-01-02T00:00:00Z", Examples.without_apy);
       ("2026-01-03T00:00:00Z", Examples.with_overlay)] None = Ok sN
    /\ length (entries sN "ethereum_wrapped_eth_usdc") = 3%nat
    /\ append_history sN "2026-01-04T00:00:00Z" [Examples.without_apy] (Some 2%Z)
       = Ok (s1, path)
    /\ entries s1 "ethereum_wrapped_eth_usdc"
       = [snapshot_of "2026-01-03T00:00:00Z" Examples.with_overlay;
          snapshot_of "2026-01-04T00:00:00Z" Examples.without_apy].
Proof.
  destruct (C6_append_and_trim Examples.fresh "ethereum_wrapped_eth_usdc"
              [("2026-01-01T00:00:00Z", Examples.with_overlay);
               ("2026-01-02T00:00:00Z", Examples.without_apy);
               ("2026-01-03T00:00:00Z", Examples.with_overlay)])
    as (sN & EN & _ & LN & HK & _).
  - exact I.
  - reflexivity.
  - repeat constructor.
  - destruct (HK "2026-01-04T00:00:00Z" Examples.without_apy 2%Z eq_refl)
      as (s1 & E1 & T1 & _); [reflexivity | reflexivity |].
    exists sN, s1, (history_file sN). repeat split; assumption.
Defined.

(** C6 as stated fails for K = 0: [max_snapshots = 0] trims nothing, so after
    one append a second one with K = 0 < 1 + 1 leaves two entries, not zero. *)
Lemma C6_counterexample :
  exists s1 s2 path,
    append_each Examples.fresh [("2026-01-01T00:00:00Z", Examples.with_overlay)] None = Ok s1
    /\ append_history s1 "2026-01-02T00:00:00Z" [Examples.with_overlay] (Some 0%Z)
       = Ok (s2, path)
    /\ (0 < 1 + 1)%Z
    /\ length (entries s2 (_generate_pool_key Examples.with_overlay)) = 2%nat
    /\ length (entries s2 (_generate_pool_key Examples.with_overlay)) <> Z.to_nat 0.
Proof.
  eexists _, _, _. split; [vm_compute; reflexivity|].
  split; [vm_compute; reflexivity|]. split; [lia|].
  split; [reflexivity | discriminate].
Qed.

(** * Further properties *)

Import More History PoolDataDict.

(** ** The price cache *)

Lemma fetch_all_prices_fetched net m api :
  _prices_fetched (snd (fetch_all_prices net m api)) = true.
Proof.
  unfold fetch_all_prices. destruct (_prices_fetched api) eqn:E; [exact E|].
  apply fetch_attempts_fetched.
Qed.

(** X1: the price batch is fetched at most once per client. After any call
    of [fetch_all_prices] a further call returns the cache without a request,
    whatever the oracle would answer, and every price lookup leaves the
    client as it is and does not depend on the network. *)
Theorem prices_fetched_once net net' m m' api :
  let api1 := snd (fetch_all_prices net m api) in
  fetch_all_prices net' m' api1 = (_price_cache api1, api1)
  /\ (forall symbol,
        snd (get_token_price net' api1 symbol) = api1
        /\ fst (get_token_price net' api1 symbol) = fst (get_token_price net api1 symbol)).
Proof.
  intros api1.
  assert (F : _prices_fetched api1 = true) by apply fetch_all_prices_fetched.
  split.
  - unfold fetch_all_prices. now rewrite F.
  - intros symbol. unfold get_token_price. rewrite F.
    destruct (_price_cache api1 !! symbol); [auto|].
    destruct (_price_cache api1 !! upper symbol); auto.
Qed.

Lemma fetch_attempts_retry net m k data api r :
  (forall i, (i < k)%nat -> coingecko net i = RateLimited) ->
  coingecko net k = Prices data ->
  (k < m)%nat -> forall a, (a <= k)%nat -> (k - a < r)%nat ->
  _price_cache (fetch_attempts net m r a api)
  = fold_left store_price data (_price_cache api).
Proof.
  intros Hrl Hok Hk. revert r. 
  intros r a. revert a. induction r as [|r IH]; intros a Ha Hr; [lia|].
  cbn [fetch_attempts].
  destruct (Nat.eq_dec a k) as [->|Hne].
  - rewrite Hok. reflexivity.
  - rewrite (Hrl a) by lia.
    assert (E : (a <? m - 1)%nat = true) by (apply Nat.ltb_lt; lia).
    rewrite E. apply IH; lia.
Qed.

Lemma fetch_attempts_given_up net m api r a :
  (forall i, (i < m)%nat -> coingecko net i = RateLimited \/ coingecko net i = Failed) ->
  (a + r <= m)%nat ->
  _price_cache (fetch_attempts net m r a api) = _price_cache api.
Proof.
  intros H. revert a. induction r as [|r IH]; intros a Ha; cbn [fetch_attempts]; [reflexivity|].
  destruct (H a) as [E|E]; [lia | |]; rewrite E; [|reflexivity].
  destruct (a <? m - 1)%nat; [apply IH; lia | reflexivity].
Qed.

(** X2: a rate-limited price request is retried. When the oracle answers 429
    to the first [k] attempts and prices to the next one, with
    [k < max_retries], the cache of a fresh client holds what that answer
    stores; when each of the [max_retries] attempts is answered 429 or fails,
    the cache stays empty and every lookup finds no price. *)
Theorem rate_limit_is_retried net max_retries :
  (forall k data,
     (forall i, (i < k)%nat -> coingecko net i = RateLimited) ->
     coingecko net k = Prices data ->
     (k < max_retries)%nat ->
     fst (fetch_all_prices net max_retries Aura.__init__) = fold_left store_price data ∅)
  /\ ((forall i, (i < max_retries)%nat ->
         coingecko net i = RateLimited \/ coingecko net i = Failed) ->
      fst (fetch_all_prices net max_retries Aura.__init__) = ∅
      /\ forall symbol,
           fst (get_token_price net
                  (snd (fetch_all_prices net max_retries Aura.__init__)) symbol) = None).
Proof.
  split.
  - intros k data Hrl Hok Hk. unfold fetch_all_prices. cbn [Aura.__init__ _prices_fetched fst].
    rewrite (fetch_attempts_retry net max_retries k data _ max_retries Hrl Hok Hk 0%nat); [reflexivity|lia|lia].
  - intros H.
    assert (E : fst (fetch_all_prices net max_retries Aura.__init__) = ∅).
    { unfold fetch_all_prices. cbn [Aura.__init__ _prices_fetched fst].
      rewrite (fetch_attempts_given_up net max_retries _ max_retries 0 H); [reflexivity|lia]. }
    split; [exact E|]. intros symbol.
    unfold get_token_price. rewrite fetch_all_prices_fetched.
    assert (C : _price_cache (snd (fetch_all_prices net max_retries Aura.__init__)) = ∅).
    { rewrite <- E. unfold fetch_all_prices. now cbn [Aura.__init__ _prices_fetched fst snd]. }
    rewrite C, !lookup_empty. reflexivity.
Qed.

Lemma insert_all_lookup_in (symbols : list string) (p : Q) (cache : gmap string Q) s :
  In s symbols ->
  fold_left (fun (c : gmap string Q) symbol => <[symbol := p]> c) symbols cache !! s = Some p.
Proof.
  revert cache. induction symbols as [|x l IH]; intros cache; [intros []|].
  intros Hin. cbn [fold_left].
  destruct (in_dec string_dec s l) as [Hl|Hl]; [now apply IH|].
  destruct Hin as [->|Hin]; [|contradiction].
  assert (K : forall (l : list string) (c : gmap string Q), ~ In s l ->
            fold_left (fun (c : gmap string Q) symbol => <[symbol := p]> c) l c !! s = c !! s).
  { clear. induction l as [|y l IH]; intros c Hn; [reflexivity|]. cbn [fold_left].
    rewrite IH by (intros H; apply Hn; now right).
    apply lookup_insert_ne. intros ->. apply Hn. now left. }
  rewrite K by exact Hl. apply lookup_insert_eq.
Qed.

Lemma insert_all_lookup_out (symbols : list string) (p : Q) (cache : gmap string Q) s :
  ~ In s symbols ->
  fold_left (fun (c : gmap string Q) symbol => <[symbol := p]> c) symbols cache !! s
  = cache !! s.
Proof.
  revert cache. induction symbols as [|y l IH]; intros c Hn; [reflexivity|]. cbn [fold_left].
  rewrite IH by (intros H; apply Hn; now right).
  apply lookup_insert_ne. intros ->. apply Hn. now left.
Qed.

Lemma assoc_id_to_symbols s cg :
  assoc s COINGECKO_IDS = Some cg ->
  exists symbols, id_to_symbols !! cg = Some symbols /\ In s symbols.
Proof.
  rewrite id_to_symbols_eq. unfold COINGECKO_IDS. cbn [assoc].
  repeat match goal with
         | |- context [String.eqb s ?k] =>
             destruct (String.eqb_spec s k) as [->|_];
             [intros [= <-]; eexists; split; [reflexivity | simpl; auto]|]
         end.
  intros H. discriminate H.
Qed.

Lemma store_price_same_id cache entry s1 s2 cg :
  assoc s1 COINGECKO_IDS = Some cg -> assoc s2 COINGECKO_IDS = Some cg ->
  cache !! s1 = cache !! s2 ->
  store_price cache entry !! s1 = store_price cache entry !! s2.
Proof.
  intros A1 A2 E. destruct entry as [cg' p]. unfold store_price.
  destruct p as [p|]; [|exact E].
  destruct (id_to_symbols !! cg') as [symbols|] eqn:I; [|exact E].
  destruct (Py.truthy p); [|exact E].
  destruct (in_dec string_dec s1 symbols) as [H1|H1].
  - pose proof (id_to_symbols_assoc _ _ _ I H1) as A. rewrite A1 in A. injection A as <-.
    destruct (assoc_id_to_symbols s2 cg A2) as (symbols' & I' & H2).
    rewrite I in I'. injection I' as <-.
    now rewrite !insert_all_lookup_in.
  - destruct (in_dec string_dec s2 symbols) as [H2|H2].
    + pose proof (id_to_symbols_assoc _ _ _ I H2) as A. rewrite A2 in A. injection A as <-.
      destruct (assoc_id_to_symbols s1 cg A1) as (symbols' & I' & H1').
      rewrite I in I'. injection I' as <-. contradiction.
    + now rewrite !insert_all_lookup_out.
Qed.

Lemma store_prices_same_id data cache s1 s2 cg :
  assoc s1 COINGECKO_IDS = Some cg -> assoc s2 COINGECKO_IDS = Some cg ->
  cache !! s1 = cache !! s2 ->
  fold_left store_price data cache !! s1 = fold_left store_price data cache !! s2.
Proof.
  intros A1 A2. revert cache.
  induction data as [|entry data IH]; intros cache E; [exact E|].
  cbn [fold_left]. apply IH. now apply (store_price_same_id cache entry s1 s2 cg).
Qed.

Lemma rate_limit_witness :
  fst (fetch_all_prices Cases.net_busy 3 Aura.__init__) !! "BAL" = Some 3.
Proof.
  destruct (rate_limit_is_retried Cases.net_busy 3) as [H _].
  rewrite (H 1%nat [("balancer", Some 3)]).
  - reflexivity.
  - intros i Hi. destruct i; [reflexivity | lia].
  - reflexivity.
  - lia.
Defined.

(** X3: two symbols that are tracked under the same oracle id have the same
    cached price, or both none, after the fetch of a fresh client. *)
Theorem shared_oracle_id_shares_price net max_retries s1 s2 cg :
  assoc s1 COINGECKO_IDS = Some cg -> assoc s2 COINGECKO_IDS = Some cg ->
  fst (fetch_all_prices net max_retries Aura.__init__) !! s1
  = fst (fetch_all_prices net max_retries Aura.__init__) !! s2.
Proof.
  intros A1 A2. unfold fetch_all_prices. cbn [Aura.__init__ _prices_fetched fst].
  rewrite fetch_attempts_cache. cbn [_price_cache].
  apply (store_prices_same_id _ _ s1 s2 cg A1 A2). reflexivity.
Qed.

Lemma shared_oracle_id_witness :
  fst (fetch_all_prices Examples.net_zero 3 Aura.__init__) !! "OP"
  = fst (fetch_all_prices Examples.net_zero 3 Aura.__init__) !! "axlOP".
Proof.
  apply (shared_oracle_id_shares_price Examples.net_zero 3 "OP" "axlOP" "optimism");
    reflexivity.
Defined.

(** A stored price reaches the symbols of its oracle id and no others. *)
Lemma store_price_other cache cg' p' s cg :
  assoc s COINGECKO_IDS = Some cg -> cg' <> cg ->
  store_price cache (cg', p') !! s = cache !! s.
Proof.
  intros A N. unfold store_price. destruct p' as [p'|]; [|reflexivity].
  destruct (id_to_symbols !! cg') as [symbols|] eqn:I; [|reflexivity].
  destruct (Py.truthy p'); [|reflexivity].
  apply insert_all_lookup_out. intros Hin.
  pose proof (id_to_symbols_assoc _ _ _ I Hin) as A'. congruence.
Qed.

Lemma store_prices_other data cache s cg :
  assoc s COINGECKO_IDS = Some cg -> ~ In cg (map fst data) ->
  fold_left store_price data cache !! s = cache !! s.
Proof.
  intros A. revert cache. induction data as [|[cg' p'] data IH]; intros cache N;
    [reflexivity|].
  cbn [fold_left]. rewrite IH by (intros H; apply N; now right).
  apply (store_price_other cache cg' p' s cg A). intros ->. apply N. now left.
Qed.

Lemma store_price_hit cache cg p s :
  assoc s COINGECKO_IDS = Some cg -> Py.truthy p = true ->
  store_price cache (cg, Some p) !! s = Some p.
Proof.
  intros A T. unfold store_price.
  destruct (assoc_id_to_symbols s cg A) as (symbols & I & Hin).
  rewrite I, T. now apply insert_all_lookup_in.
Qed.

Lemma store_prices_found data cache cg p s :
  NoDup (map fst data) -> In (cg, Some p) data -> Py.truthy p = true ->
  assoc s COINGECKO_IDS = Some cg ->
  fold_left store_price data cache !! s = Some p.
Proof.
  intros Hnd Hin T A. revert cache Hnd Hin.
  induction data as [|[cg' p'] data IH]; intros cache Hnd Hin; [destruct Hin|].
  cbn [map fst] in Hnd. apply NoDup_cons in Hnd as [Hout Hnd]. cbn [fold_left].
  destruct Hin as [Heq|Hin].
  - injection Heq as -> ->.
    rewrite (store_prices_other data _ s cg A) by (rewrite <- list_elem_of_In; exact Hout).
    now apply store_price_hit.
  - now apply IH.
Qed.

Lemma fetched_cache_settled net api :
  fst (fetch_all_prices net 3 api) = _price_cache (settled net api).
Proof.
  unfold settled, fetch_all_prices. now destruct (_prices_fetched api).
Qed.

(** X4: a price lookup tries the symbol as given, then in capitals. For every
    client the answer is the price the cache holds, once the batch is
    fetched, for the symbol as given, and without one the price it holds for
    the symbol in capitals. Through a fresh client a symbol that is tracked,
    as given or else in capitals, gets the price the answer of the oracle
    gives for its id, when that price is not 0 and the answer names every id
    once; a price is only found for a symbol that is tracked as given or in
    capitals; and a symbol that is not tracked as given gets the answer of
    its capitals. *)
Theorem lookups_are_exact_then_uppercase net symbol :
  (forall api,
     let cache := fst (fetch_all_prices net 3 api) in
     fst (get_token_price net api symbol)
     = match cache !! symbol with
       | Some p => Some p
       | None => cache !! upper symbol
       end)
  /\ (forall cg p,
        NoDup (map fst (batch net 3 3 0)) ->
        In (cg, Some p) (batch net 3 3 0) -> ~ p == 0 ->
        assoc symbol COINGECKO_IDS = Some cg
        \/ (assoc symbol COINGECKO_IDS = None
            /\ assoc (upper symbol) COINGECKO_IDS = Some cg) ->
        fst (get_token_price net Aura.__init__ symbol) = Some p)
  /\ (forall p, fst (get_token_price net Aura.__init__ symbol) = Some p ->
                (exists cg, assoc symbol COINGECKO_IDS = Some cg)
                \/ (exists cg, assoc (upper symbol) COINGECKO_IDS = Some cg))
  /\ (assoc symbol COINGECKO_IDS = None ->
      fst (get_token_price net Aura.__init__ symbol)
      = fst (get_token_price net Aura.__init__ (upper symbol))).
Proof.
  set (api := Aura.__init__).
  assert (K : forall t, assoc t COINGECKO_IDS = None ->
                        _price_cache (settled net api) !! t = None).
  { intros t Ht. unfold api. rewrite settled_fresh_cache.
    destruct (_ !! t) as [q|] eqn:E; [|reflexivity].
    apply store_prices_lookup in E as [E|(cg & _ & _ & A)].
    - now rewrite lookup_empty in E.
    - congruence. }
  assert (U : forall t, upper (upper t) = upper t).
  { unfold upper. induction t as [|c t IH]; cbn; [reflexivity|]. rewrite IH. f_equal.
    destruct c as [[] [] [] [] [] [] [] []]; reflexivity. }
  split; [|split; [|split]].
  - intros api0 cache. unfold cache. rewrite fetched_cache_settled, get_token_price_settled.
    reflexivity.
  - intros cg p Hnd Hin Hp H. rewrite get_token_price_settled. cbn [fst].
    unfold lookup_price. apply truthy_true_iff in Hp.
    assert (F : forall t, assoc t COINGECKO_IDS = Some cg ->
                          _price_cache (settled net api) !! t = Some p).
    { intros t At. unfold api. rewrite settled_fresh_cache.
      exact (store_prices_found _ _ cg p t Hnd Hin Hp At). }
    destruct H as [A|[A A']].
    + now rewrite (F symbol A).
    + now rewrite (K symbol A), (F _ A').
  - intros p. rewrite get_token_price_settled. cbn [fst]. unfold lookup_price.
    destruct (assoc symbol COINGECKO_IDS) as [cg|] eqn:A; [eauto|].
    rewrite (K symbol A).
    destruct (assoc (upper symbol) COINGECKO_IDS) as [cg|] eqn:A'; [eauto|].
    rewrite (K _ A'). discriminate.
  - intros A. rewrite !get_token_price_settled. cbn [fst]. unfold lookup_price.
    rewrite (K symbol A), U.
    now destruct (_price_cache (settled net api) !! upper symbol).
Qed.

Lemma lookups_witness :
  fst (get_token_price Examples.net_zero Aura.__init__ "aura") = Some 2
  /\ fst (get_token_price Examples.net_zero Aura.__init__ "aura")
     = fst (get_token_price Examples.net_zero Aura.__init__ (upper "aura"))
  /\ fst (get_token_price Examples.net_zero Cases.primed "bal") = Some 1.
Proof.
  destruct (lookups_are_exact_then_uppercase Examples.net_zero "aura") as (_ & F & _ & H).
  destruct (lookups_are_exact_then_uppercase Examples.net_zero "bal") as (G & _).
  split; [|split].
  - apply (F "aura-finance" 2).
    + repeat constructor; rewrite list_elem_of_In; simpl; intuition discriminate.
    + right. left. reflexivity.
    + discriminate.
    + right. split; reflexivity.
  - apply H. reflexivity.
  - rewrite (G Cases.primed). reflexivity.
Defined.

(** ** The pool index of the Aura client *)

(** X5: the Aura pool index of a chain is fetched at most once. A second
    [get_pools] for the same chain, whatever the case of its letters, returns
    the same index and leaves the client as it is, whatever the network would
    answer. *)
Theorem pool_index_is_fetched_once net net' api chain chain' :
  lower chain' = lower chain ->
  get_pools net' (snd (get_pools net api chain)) chain' = get_pools net api chain.
Proof.
  intros L. unfold get_pools at 2 3.
  destruct (_pools_cache api !! lower chain) as [pools|] eqn:C.
  - cbn [snd]. unfold get_pools. now rewrite L, C.
  - destruct (assoc (lower chain) SUBGRAPH_URLS) as [url|] eqn:U.
    + cbn [snd]. unfold get_pools. rewrite L. cbn [_pools_cache].
      now rewrite lookup_insert_eq.
    + cbn [snd]. unfold get_pools. now rewrite L, C, U.
Qed.

Lemma pool_index_witness :
  get_pools Examples.net_zero (snd (get_pools Examples.net_down Aura.__init__ "ethereum"))
    "Ethereum"
  = get_pools Examples.net_down Aura.__init__ "ethereum".
Proof.
  apply (pool_index_is_fetched_once Examples.net_down Examples.net_zero Aura.__init__
           "ethereum" "Ethereum"). reflexivity.
Defined.

Lemma find_app {A} (f : A -> bool) (l1 l2 : list A) :
  find f (l1 ++ l2) = match find f l1 with Some x => Some x | None => find f l2 end.
Proof.
  induction l1 as [|x l1 IH]; [reflexivity|]. cbn [app find].
  destruct (f x); [reflexivity | exact IH].
Qed.

Lemma index_lookup (pools : list AuraPool) (m : gmap string AuraPool) k :
  k <> "" ->
  fold_left
    (fun (indexed : gmap string AuraPool) pool =>
       let lp_address := lower (lpToken_id pool) in
       if String.eqb lp_address "" then indexed else <[lp_address := pool]> indexed)
    pools m !! k
  = match last_where (fun p => String.eqb (lower (lpToken_id p)) k) pools with
    | Some p => Some p
    | None => m !! k
    end.
Proof.
  intros Hk. unfold last_where. revert m.
  induction pools as [|p pools IH]; intros m; [reflexivity|].
  cbn [fold_left rev]. rewrite IH, find_app.
  destruct (find _ (rev pools)); [reflexivity|]. cbn [find].
  destruct (String.eqb_spec (lower (lpToken_id p)) k) as [E|N].
  - destruct (String.eqb_spec (lower (lpToken_id p)) "") as [E'|_]; [congruence|].
    rewrite E. apply lookup_insert_eq.
  - destruct (String.eqb_spec (lower (lpToken_id p)) ""); [reflexivity|].
    now apply lookup_insert_ne.
Qed.

Lemma index_lookup_empty (pools : list AuraPool) (m : gmap string AuraPool) :
  fold_left
    (fun (indexed : gmap string AuraPool) pool =>
       let lp_address := lower (lpToken_id pool) in
       if String.eqb lp_address "" then indexed else <[lp_address := pool]> indexed)
    pools m !! "" = m !! "".
Proof.
  revert m. induction pools as [|p pools IH]; intros m; [reflexivity|].
  cbn [fold_left]. rewrite IH.
  destruct (String.eqb_spec (lower (lpToken_id p)) ""); [reflexivity|].
  now apply lookup_insert_ne.
Qed.

(** X6: on a chain that has a subgraph and is not indexed yet, the Aura pool
    found for a Balancer address is the last pool of the subgraph's answer
    whose LP token is that address, letters compared without case; the empty
    address finds nothing. *)
Theorem aura_pool_is_last_with_address net api balancer_address chain url :
  _pools_cache api !! lower chain = None ->
  assoc (lower chain) SUBGRAPH_URLS = Some url ->
  fst (find_pool_by_balancer_address net api balancer_address chain)
  = if String.eqb (lower balancer_address) "" then None
    else last_where
           (fun p => String.eqb (lower (lpToken_id p)) (lower balancer_address))
           (subgraph net url).
Proof.
  intros C U. unfold find_pool_by_balancer_address, get_pools. rewrite C, U. cbn [fst].
  destruct (String.eqb_spec (lower balancer_address) "") as [E|N].
  - rewrite E, index_lookup_empty. apply lookup_empty.
  - rewrite index_lookup by exact N. rewrite lookup_empty.
    now destruct (last_where _ _).
Qed.

Lemma aura_pool_is_last_witness :
  fst (find_pool_by_balancer_address Examples.net_down Aura.__init__ "0xAbC" "Ethereum")
  = Some Examples.aura_pool.
Proof.
  rewrite (aura_pool_is_last_with_address Examples.net_down Aura.__init__ "0xAbC" "Ethereum"
             "https://api.subgraph.ormilabs.com/api/public/396b336b-4ed7-469f-a8f4-468e1e26e9a8/subgraphs/aura-finance-mainnet/v0.0.1/");
    reflexivity.
Defined.

(** ** The sums of the overlay *)

Lemma reward_step_decimals net tvl bm st r d :
  decimals_of (with_decimals r d) = decimals_of r ->
  reward_step net tvl bm st (with_decimals r d) = reward_step net tvl bm st r.
Proof.
  intros E. unfold reward_step. fold (decimals_of (with_decimals r d)). fold (decimals_of r).
  rewrite E. reflexivity.
Qed.

(** X7: a reward whose decimals are 0 or missing is rated as one with 18
    decimals. *)
Theorem zero_decimals_are_read_as_18 net api pool tvl bal_max_apr l1 r l2 :
  token_decimals r = Some 0%Z \/ token_decimals r = None ->
  calculate_aura_apr net api (Some (with_rewards pool (l1 ++ r :: l2))) tvl bal_max_apr
  = calculate_aura_apr net api
      (Some (with_rewards pool (l1 ++ with_decimals r (Some 18%Z) :: l2))) tvl bal_max_apr.
Proof.
  intros H. unfold calculate_aura_apr, with_rewards. cbn [rewardData].
  destruct (Qleb tvl 0); [reflexivity|].
  rewrite !reward_loop_app.
  destruct (reward_loop net tvl bal_max_apr _ l1) as [st|e]; [|reflexivity].
  cbn [mbind res_mbind res_bind reward_loop].
  rewrite reward_step_decimals; [reflexivity|].
  unfold decimals_of, with_decimals. cbn [token_decimals].
  destruct H as [-> | ->]; reflexivity.
Qed.

Lemma zero_decimals_witness :
  calculate_aura_apr Examples.net_zero Aura.__init__
    (Some (with_rewards Examples.aura_pool ([] ++ Cases.aura_zero_decimals :: []))) 1000000 5
  = calculate_aura_apr Examples.net_zero Aura.__init__
      (Some (with_rewards Examples.aura_pool
               ([] ++ with_decimals Cases.aura_zero_decimals (Some 18%Z) :: []))) 1000000 5.
Proof.
  apply (zero_decimals_are_read_as_18 Examples.net_zero Aura.__init__ Examples.aura_pool
           1000000 5 []). left. reflexivity.
Defined.

Section Sums.
Variables (prices : string -> option Q) (tvl bm : Q).

Lemma step_bal acc r :
  fst (fst (step prices tvl bm acc r))
  = if rewards_in "BAL" r then bal_value prices tvl bm r else fst (fst acc).
Proof.
  unfold step, rewards_in, positive_rate, bal_value. destruct acc as [[b a] e].
  destruct (Qleb _ 0); cbn [negb]; [now rewrite andb_false_r|]. rewrite andb_true_r.
  destruct (String.eqb_spec (token_symbol r) "BAL") as [->|N].
  - destruct (prices "BAL") as [p|]; [destruct (Py.truthy p)|]; reflexivity.
  - destruct (prices (token_symbol r)) as [p|]; [|reflexivity].
    destruct (Py.truthy p); [|reflexivity].
    destruct (token_symbol r =? "AURA"); reflexivity.
Qed.

Lemma step_aura acc r :
  snd (fst (step prices tvl bm acc r))
  = if rewards_in "AURA" r
    then match prices "AURA" with
         | Some p => if Py.truthy p then apr_of tvl r p else snd (fst acc)
         | None => snd (fst acc)
         end
    else snd (fst acc).
Proof.
  unfold step, rewards_in, positive_rate. destruct acc as [[b a] e].
  destruct (Qleb _ 0); cbn [negb]; [now rewrite andb_false_r|]. rewrite andb_true_r.
  destruct (String.eqb_spec (token_symbol r) "AURA") as [->|N].
  - cbn. destruct (prices "AURA") as [p|]; [destruct (Py.truthy p)|]; reflexivity.
  - destruct (token_symbol r =? "BAL");
      (destruct (prices (token_symbol r)) as [p|]; [destruct (Py.truthy p)|]; reflexivity).
Qed.

Lemma step_extra acc r :
  snd (step prices tvl bm acc r)
  = if is_extra prices r
    then snd acc + apr_of tvl r (default 0 (prices (token_symbol r)))
    else snd acc.
Proof.
  unfold step, is_extra, positive_rate, usable. destruct acc as [[b a] e].
  destruct (Qleb _ 0); cbn [negb andb]; [reflexivity|].
  destruct (token_symbol r =? "BAL"); cbn [negb andb].
  - destruct (prices (token_symbol r)) as [p|]; [destruct (Py.truthy p)|]; reflexivity.
  - destruct (token_symbol r =? "AURA"); cbn [negb andb].
    + destruct (prices (token_symbol r)) as [p|]; [destruct (Py.truthy p)|]; reflexivity.
    + destruct (prices (token_symbol r)) as [p|]; [destruct (Py.truthy p)|]; reflexivity.
Qed.

Lemma fold_step_bal l acc :
  fst (fst (fold_left (step prices tvl bm) l acc))
  = match last_where (rewards_in "BAL") l with
    | Some r => bal_value prices tvl bm r
    | None => fst (fst acc)
    end.
Proof.
  unfold last_where. revert acc. induction l as [|r l IH]; intros acc; [reflexivity|].
  cbn [fold_left rev]. rewrite IH, find_app, step_bal.
  destruct (find _ (rev l)); [reflexivity|]. cbn [find].
  now destruct (rewards_in "BAL" r).
Qed.

Lemma fold_step_aura l acc :
  snd (fst (fold_left (step prices tvl bm) l acc))
  = match last_where (rewards_in "AURA") l, prices "AURA" with
    | Some r, Some p => if Py.truthy p then apr_of tvl r p else snd (fst acc)
    | _, _ => snd (fst acc)
    end.
Proof.
  unfold last_where. revert acc. induction l as [|r l IH]; intros acc; [reflexivity|].
  cbn [fold_left rev]. rewrite IH, find_app, step_aura.
  destruct (find _ (rev l)) as [r'|].
  - destruct (prices "AURA") as [p|]; [destruct (Py.truthy p)|];
      destruct (rewards_in "AURA" r); reflexivity.
  - cbn [find]. destruct (rewards_in "AURA" r); [|now destruct (prices "AURA")].
    destruct (prices "AURA") as [p|]; reflexivity.
Qed.

Lemma fold_step_extra l acc :
  snd (fold_left (step prices tvl bm) l acc)
  = fold_left Qplus
      (map (fun r => apr_of tvl r (default 0 (prices (token_symbol r))))
           (List.filter (is_extra prices) l))
      (snd acc).
Proof.
  revert acc. induction l as [|r l IH]; intros acc; [reflexivity|].
  cbn [fold_left]. rewrite IH, step_extra. 
  cbn [List.filter]. destruct (is_extra prices r); reflexivity.
Qed.

End Sums.

(** X8: what the overlay returns for a positive TVL. [bal_apr] is what the
    last BAL reward with a positive rate gives: its APR at the price of BAL,
    or [bal_max_apr] when BAL has no usable price; 0 without such a reward.
    [aura_apr] is the APR of the last AURA reward with a positive rate when
    AURA has a usable price, else 0. [extra_apr] is the sum of the APRs of
    the rewards in other symbols with a positive rate and a usable price.
    [total_apr] is the sum of the three. *)
Theorem overlay_sum_formulas net api pool tvl bal_max_apr :
  0 < tvl ->
  let prices := fun symbol => fst (get_token_price net api symbol) in
  exists d api',
    calculate_aura_apr net api (Some pool) tvl bal_max_apr = Ok (Some d, api')
    /\ bal_apr d
       = match last_where (rewards_in "BAL") (rewardData pool) with
         | None => 0
         | Some r => bal_value prices tvl bal_max_apr r
         end
    /\ aura_apr d
       = match last_where (rewards_in "AURA") (rewardData pool), prices "AURA" with
         | Some r, Some p => if Py.truthy p then apr_of tvl r p else 0
         | _, _ => 0
         end
    /\ extra_apr d
       = sum (map (fun r => apr_of tvl r (default 0 (prices (token_symbol r))))
                  (List.filter (is_extra prices) (rewardData pool)))
    /\ total_apr d = bal_apr d + aura_apr d + extra_apr d.
Proof.
  intros Htvl prices.
  destruct (calculate_aura_apr_ok net api pool tvl bal_max_apr Htvl) as (d & api' & E & R & T & _).
  exists d, api'. split; [exact E|].
  change (price net api) with prices in R.
  assert (Rb : bal_apr d = fst (fst (fold_left (step prices tvl bal_max_apr) (rewardData pool) (0, 0, 0))))
    by now rewrite <- R.
  assert (Ra : aura_apr d = snd (fst (fold_left (step prices tvl bal_max_apr) (rewardData pool) (0, 0, 0))))
    by now rewrite <- R.
  assert (Re : extra_apr d = snd (fold_left (step prices tvl bal_max_apr) (rewardData pool) (0, 0, 0)))
    by now rewrite <- R.
  rewrite fold_step_bal in Rb. rewrite fold_step_aura in Ra. rewrite fold_step_extra in Re.
  repeat split; assumption.
Qed.

Lemma sum_formulas_witness :
  exists d api',
    calculate_aura_apr Examples.net_zero Aura.__init__ (Some Examples.aura_pool) 1000000 5
    = Ok (Some d, api')
    /\ bal_apr d = 5 /\ extra_apr d = 0.
Proof.
  assert (H : 0 < 1000000) by reflexivity.
  destruct (overlay_sum_formulas Examples.net_zero Aura.__init__ Examples.aura_pool 1000000 5 H)
    as (d & api' & E & Hb & _ & He & _).
  exists d, api'. split; [exact E|]. split; [exact Hb | exact He].
Defined.

Lemma apr_of_nonneg tvl r p :
  0 < tvl -> 0 <= p -> 0 <= or_zero (rewardRate r) -> 0 <= apr_of tvl r p.
Proof.
  intros Ht Hp Hr. unfold apr_of, Qdiv.
  assert (H10 : 0 <= / 10 ^ decimals_of r).
  { apply Qinv_le_0_compat, Qpower_0_le. discriminate. }
  assert (Hi : 0 <= / tvl) by (apply Qinv_le_0_compat; lra).
  assert (Hs : 0 <= seconds_per_year) by discriminate.
  repeat apply Qmult_le_0_compat; auto; discriminate.
Qed.

Lemma step_nonneg prices tvl bm acc r :
  0 < tvl -> 0 <= bm -> (forall s p, prices s = Some p -> 0 <= p) ->
  0 <= fst (fst acc) /\ 0 <= snd (fst acc) /\ 0 <= snd acc ->
  let acc' := step prices tvl bm acc r in
  0 <= fst (fst acc') /\ 0 <= snd (fst acc') /\ 0 <= snd acc'.
Proof.
  intros Ht Hbm Hp. destruct acc as [[b a] e]. cbn [fst snd]. intros (Hb & Ha & He).
  unfold step. destruct (Qleb (or_zero (rewardRate r)) 0) eqn:R; [cbn; auto|].
  apply Qleb_false in R.
  destruct (prices (token_symbol r)) as [p|] eqn:P.
  - assert (A : 0 <= apr_of tvl r p).
    { apply apr_of_nonneg; [exact Ht | exact (Hp _ _ P) | lra]. }
    destruct (Py.truthy p).
    + destruct (token_symbol r =? "BAL"); [cbn; auto|].
      destruct (token_symbol r =? "AURA"); cbn; repeat split; auto. lra.
    + destruct (token_symbol r =? "BAL"); cbn; auto.
  - destruct (token_symbol r =? "BAL"); cbn; auto.
Qed.

(** X9: for a positive TVL, a [bal_max_apr] that is not negative and prices
    that are not negative, none of the four APRs of the overlay is negative,
    whatever the reward rates are. *)
Theorem overlay_sums_are_nonnegative net api pool tvl bal_max_apr :
  0 < tvl -> 0 <= bal_max_apr ->
  (forall symbol p, fst (get_token_price net api symbol) = Some p -> 0 <= p) ->
  exists d api',
    calculate_aura_apr net api (Some pool) tvl bal_max_apr = Ok (Some d, api')
    /\ 0 <= bal_apr d /\ 0 <= aura_apr d /\ 0 <= extra_apr d /\ 0 <= total_apr d.
Proof.
  intros Ht Hbm Hp.
  destruct (calculate_aura_apr_ok net api pool tvl bal_max_apr Ht) as (d & api' & E & R & T & _).
  exists d, api'. split; [exact E|].
  assert (N : forall l acc,
            0 <= fst (fst acc) /\ 0 <= snd (fst acc) /\ 0 <= snd acc ->
            let acc' := fold_left (step (price net api) tvl bal_max_apr) l acc in
            0 <= fst (fst acc') /\ 0 <= snd (fst acc') /\ 0 <= snd acc').
  { induction l as [|r l IH]; intros acc Hacc; [exact Hacc|].
    cbn [fold_left]. apply IH. now apply step_nonneg. }
  specialize (N (rewardData pool) (0, 0, 0)). rewrite <- R in N. cbn [fst snd] in N.
  destruct N as (Hb & Ha & He); [repeat split; discriminate|].
  repeat split; try assumption. rewrite T. lra.
Qed.

Lemma overlay_nonnegative_witness :
  exists d api',
    calculate_aura_apr Examples.net_zero Aura.__init__ (Some Examples.aura_pool) 1000000 5
    = Ok (Some d, api')
    /\ 0 <= bal_apr d /\ 0 <= aura_apr d /\ 0 <= extra_apr d /\ 0 <= total_apr d.
Proof.
  apply (overlay_sums_are_nonnegative Examples.net_zero Aura.__init__ Examples.aura_pool
           1000000 5).
  - reflexivity.
  - discriminate.
  - intros symbol p. rewrite get_token_price_settled. cbn [fst]. unfold lookup_price.
    intros H.
    assert (C : forall t q, _price_cache (settled Examples.net_zero Aura.__init__) !! t = Some q ->
                            0 <= q).
    { intros t q. rewrite settled_fresh_cache. intros L.
      apply store_prices_lookup in L as [L|(cg & Hin & _)].
      - now rewrite lookup_empty in L.
      - destruct Hin as [Hin|[Hin|[Hin|[]]]]; inversion Hin; discriminate. }
    destruct (_ !! symbol) as [q|] eqn:L; [injection H as <-; exact (C _ _ L)|].
    exact (C _ _ H).
Defined.

(** ** More about parsing *)

(** The fields of a parsed record that are copied from the payload. *)
Lemma parse_pool_identity net self pd chain ae :
  exists r self',
    _parse_pool net self (Some pd) chain ae = Ok (Some r, self')
    /\ DataStore.chain r = chain
    /\ name r = default "Unknown" (Payload.name pd)
    /\ address r = default "" (Payload.address pd)
    /\ pool_id r = default "" (Payload.id pd)
    /\ coins r = map (fun t => default "Unknown" (Payload.symbol t)) (Payload.poolTokens pd)
    /\ coin_amounts r = map (fun t => or_zero (Payload.balance t)) (Payload.poolTokens pd)
    /\ coin_prices r = map (fun _ => 0) (Payload.poolTokens pd)
    /\ length (coin_ratios r) = length (Payload.poolTokens pd)
    /\ enable_aura self' = enable_aura self
    /\ (aura_api self = None -> self' = self).
Proof.
  unfold _parse_pool.
  set (tvl0 := or_zero (Payload.totalLiquidity (Payload.dynamicData pd))).
  set (acc := parse_apr_items _).
  assert (Fin : forall a b c d self',
    enable_aura self' = enable_aura self -> (aura_api self = None -> self' = self) ->
    exists r self'',
      (Ok (Some
        {| name := default "Unknown" (Payload.name pd);
           DataStore.chain := chain;
           address := default "" (Payload.address pd);
           pool_id := default "" (Payload.id pd);
           tvl := tvl0;
           base_apy := apr_base_apy acc;
           bal_rewards_apy := [bal_base acc; bal_base acc + bal_boost acc];
           other_rewards := apr_other_rewards acc;
           total_apy := apr_base_apy acc + bal_base acc + sum (map apy (apr_other_rewards acc));
           coins := map (fun t => fst (fst t))
                      (map (parse_token (length (Payload.poolTokens pd))) (Payload.poolTokens pd));
           coin_ratios := map snd
                      (map (parse_token (length (Payload.poolTokens pd))) (Payload.poolTokens pd));
           coin_amounts := map (fun t => snd (fst t))
                      (map (parse_token (length (Payload.poolTokens pd))) (Payload.poolTokens pd));
           coin_prices := map (fun _ => 0)
                      (map (parse_token (length (Payload.poolTokens pd))) (Payload.poolTokens pd));
           aura_apy := a; aura_tvl := b; aura_boost := c; aura_staking_contract := d |},
        self') : res (option PoolData * BalancerTracker)) = Ok (Some r, self'')
      /\ DataStore.chain r = chain
      /\ name r = default "Unknown" (Payload.name pd)
      /\ address r = default "" (Payload.address pd)
      /\ pool_id r = default "" (Payload.id pd)
      /\ coins r = map (fun t => default "Unknown" (Payload.symbol t)) (Payload.poolTokens pd)
      /\ coin_amounts r = map (fun t => or_zero (Payload.balance t)) (Payload.poolTokens pd)
      /\ coin_prices r = map (fun _ => 0) (Payload.poolTokens pd)
      /\ length (coin_ratios r) = length (Payload.poolTokens pd)
      /\ enable_aura self'' = enable_aura self
      /\ (aura_api self = None -> self'' = self)).
  { intros a b c d self' He Hn. eexists _, _. split; [reflexivity|]. cbn.
    rewrite !map_map, !length_map. repeat split; auto. }
  destruct (aura_api self) as [api|] eqn:A; [destruct ae|].
  2,3: cbn [mbind res_mbind res_bind]; apply Fin; auto.
  destruct (find_pool_by_balancer_address net api _ chain) as [[ap|] api1].
  2: cbn [mbind res_mbind res_bind]; apply Fin; [reflexivity | discriminate].
  destruct (Qlt_le_dec 0 tvl0) as [Hpos|Hle].
  - destruct (calculate_aura_apr_ok net api1 ap tvl0 (bal_base acc + bal_boost acc) Hpos)
      as (d & api2 & E & _).
    rewrite E. cbn [mbind res_mbind res_bind]. apply Fin; [reflexivity | discriminate].
  - rewrite (calculate_aura_apr_guard net api1 (Some ap) tvl0 _ Hle).
    cbn [mbind res_mbind res_bind]. apply Fin; [reflexivity | discriminate].
Qed.


(** *** Reward items: the last item of a type wins, the others are listed *)

Lemma last_percent_cons t item items dflt :
  last_percent t (item :: items) dflt
  = last_percent t items (if of_type t item then percent item else dflt).
Proof.
  unfold last_percent, last_where. cbn [rev]. rewrite find_app.
  destruct (find _ (rev items)); [reflexivity|]. cbn [find].
  now destruct (of_type t item).
Qed.

Lemma fold_apr_step items acc :
  let acc' := fold_left apr_step items acc in
  apr_base_apy acc' = last_percent "SWAP_FEE_24H" items (apr_base_apy acc)
  /\ bal_base acc' = last_percent "VEBAL_EMISSIONS" items (bal_base acc)
  /\ bal_boost acc' = last_percent "STAKING_BOOST" items (bal_boost acc)
  /\ apr_other_rewards acc'
     = (apr_other_rewards acc
        ++ map (fun item => {| token := Payload.title item; apy := percent item |})
               (List.filter is_other items))%list.
Proof.
  revert acc. induction items as [|item items IH]; intros acc.
  - cbn. rewrite app_nil_r. auto.
  - cbn [fold_left]. specialize (IH (apr_step acc item)). cbn zeta in IH.
    destruct IH as (H1 & H2 & H3 & H4). cbn zeta.
    rewrite H1, H2, H3, H4, !last_percent_cons. clear.
    unfold apr_step, of_type, is_other, classified, percent. cbn [List.filter].
    destruct (String.eqb_spec (Payload.type item) "SWAP_FEE_24H") as [E|N1].
    + rewrite E. cbn. repeat split; reflexivity.
    + destruct (String.eqb_spec (Payload.type item) "VEBAL_EMISSIONS") as [E|N2].
      * rewrite E. cbn. repeat split; reflexivity.
      * destruct (String.eqb_spec (Payload.type item) "STAKING_BOOST") as [E|N3].
        -- cbn. repeat split; reflexivity.
        -- cbn [orb negb andb].
           destruct (Qltb 0 (or_zero (Payload.apr item) * 100)); cbn.
           ++ repeat split; try reflexivity. now rewrite <- app_assoc.
           ++ repeat split; reflexivity.
Qed.

(** X11: of several reward items of the swap-fee, the base-emission or the
    boost-emission type the last one counts, and 0 stands for a type without
    item; [other_rewards] lists, in order, the items of any other type with a
    positive apr, each with its title and its apr as a percentage. *)
Theorem reward_items_last_of_a_type_wins net self pd chain ae :
  let items := Payload.aprItems (Payload.dynamicData pd) in
  exists r self',
    _parse_pool net self (Some pd) chain ae = Ok (Some r, self')
    /\ base_apy r = last_percent "SWAP_FEE_24H" items 0
    /\ bal_rewards_apy r
       = [last_percent "VEBAL_EMISSIONS" items 0;
          last_percent "VEBAL_EMISSIONS" items 0 + last_percent "STAKING_BOOST" items 0]
    /\ other_rewards r
       = map (fun item => {| token := Payload.title item; apy := percent item |})
             (List.filter is_other items)
    /\ Forall (fun o => 0 < apy o) (other_rewards r).
Proof.
  intros items.
  destruct (parse_pool_ok net self pd chain ae) as (r & self' & E & _ & A & B & O & _).
  exists r, self'. split; [exact E|].
  destruct (fold_apr_step items
              {| apr_base_apy := 0; bal_base := 0; bal_boost := 0; apr_other_rewards := [] |})
    as (H1 & H2 & H3 & H4).
  cbn [apr_base_apy bal_base bal_boost apr_other_rewards app] in H1, H2, H3, H4.
  fold (parse_apr_items items) in H1, H2, H3, H4. fold items in A, B, O.
  rewrite A, B, O, H1, H2, H3, H4.
  repeat split. clear. induction items as [|item items IH]; cbn [List.filter map]; [constructor|].
  destruct (is_other item) eqn:I; [|exact IH]. cbn [map]. constructor; [|exact IH].
  cbn [apy]. unfold is_other in I. apply andb_true_iff in I as [_ I].
  now apply Qltb_true.
Qed.

(** X12: the overlay fields of a parsed record are set only when the tracker
    has an Aura client, the entry enables Aura and the address of the pool is
    in the Aura index of the chain. Then [aura_boost] is 2.5,
    [aura_staking_contract] is the reward pool, and [aura_tvl] is the staked
    balance in units of 1e18 times the BPT price (TVL per share, 1 without
    shares). Otherwise the four fields are absent; without client or flag the
    tracker is left as it is. *)
Theorem overlay_needs_client_flag_and_index net self pd chain ae :
  exists r self',
    _parse_pool net self (Some pd) chain ae = Ok (Some r, self')
    /\ match aura_api self with
       | Some api =>
           if ae then
             match fst (find_pool_by_balancer_address net api
                          (default "" (Payload.address pd)) chain) with
             | Some aura_pool =>
                 aura_boost r = Some 2.5
                 /\ aura_staking_contract r = rewardPool aura_pool
                 /\ aura_tvl r
                    = Some (or_zero (totalStaked aura_pool) / 1000000000000000000
                            * (if Qltb 0 (or_zero (Payload.totalShares (Payload.dynamicData pd)))
                               then tvl r / or_zero (Payload.totalShares (Payload.dynamicData pd))
                               else 1))
             | None =>
                 aura_apy r = None /\ aura_tvl r = None /\ aura_boost r = None
                 /\ aura_staking_contract r = None
             end
           else
             self' = self
             /\ aura_apy r = None /\ aura_tvl r = None /\ aura_boost r = None
             /\ aura_staking_contract r = None
       | None =>
           self' = self
           /\ aura_apy r = None /\ aura_tvl r = None /\ aura_boost r = None
           /\ aura_staking_contract r = None
       end.
Proof.
  unfold _parse_pool.
  set (tvl0 := or_zero (Payload.totalLiquidity (Payload.dynamicData pd))).
  set (acc := parse_apr_items _).
  destruct (aura_api self) as [api|] eqn:A; [destruct ae|].
  2,3: eexists _, _; split; [reflexivity|]; cbn; repeat split.
  destruct (find_pool_by_balancer_address net api _ chain) as [[ap|] api1]; cbn [fst].
  2: eexists _, _; split; [reflexivity|]; cbn; repeat split.
  destruct (Qlt_le_dec 0 tvl0) as [Hpos|Hle].
  - destruct (calculate_aura_apr_ok net api1 ap tvl0 (bal_base acc + bal_boost acc) Hpos)
      as (d & api2 & E & _).
    rewrite E. eexists _, _; split; [reflexivity|]; cbn; repeat split.
  - rewrite (calculate_aura_apr_guard net api1 (Some ap) tvl0 _ Hle).
    eexists _, _; split; [reflexivity|]; cbn; repeat split.
Qed.

(** ** The metadata of the snapshot file *)

Lemma ltb_lt a b : String.ltb a b = true <-> String_as_OT.lt a b.
Proof.
  unfold String.ltb. rewrite <- String_as_OT.cmp_lt. unfold String_as_OT.cmp.
  destruct (String.compare a b); split; congruence.
Qed.

Lemma not_ltb_lt a b : a <> b -> String.ltb a b = false -> String_as_OT.lt b a.
Proof.
  intros N H. apply String_as_OT.cmp_lt. unfold String_as_OT.cmp.
  unfold String.ltb in H. rewrite String.compare_antisym.
  destruct (String.compare a b) eqn:C; [|discriminate|reflexivity].
  apply String.compare_eq_iff in C. contradiction.
Qed.

Lemma insert_sorted_in x l z : In z (insert_sorted x l) <-> z = x \/ In z l.
Proof.
  induction l as [|y l IH]; cbn [insert_sorted].
  - cbn. intuition.
  - destruct (String.eqb_spec x y) as [->|N].
    + cbn. intuition.
    + destruct (String.ltb x y); cbn; [intuition|]. rewrite IH. intuition.
Qed.

Lemma insert_sorted_sorted x l :
  StronglySorted String_as_OT.lt l -> StronglySorted String_as_OT.lt (insert_sorted x l).
Proof.
  induction 1 as [|y l Hs IH Hall]; cbn [insert_sorted].
  - repeat constructor.
  - destruct (String.eqb_spec x y) as [->|N]; [now constructor|].
    destruct (String.ltb x y) eqn:L.
    + apply ltb_lt in L. constructor; [now constructor|].
      constructor; [exact L|].
      eapply List.Forall_impl; [|exact Hall]. intros z Hz.
      exact (String_as_OT.lt_trans _ _ _ L Hz).
    + constructor; [exact IH|].
      apply List.Forall_forall. intros z Hz. apply insert_sorted_in in Hz as [->|Hz].
      * now apply not_ltb_lt.
      * rewrite List.Forall_forall in Hall. now apply Hall.
Qed.

Lemma sorted_set_spec xs :
  StronglySorted String_as_OT.lt (sorted_set xs)
  /\ forall z, In z (sorted_set xs) <-> In z xs.
Proof.
  unfold sorted_set. induction xs as [|x xs [IHs IHi]]; cbn [fold_right].
  - split; [constructor | tauto].
  - split; [now apply insert_sorted_sorted|].
    intros z. rewrite insert_sorted_in, IHi. cbn. intuition.
Qed.

(** X13: after [save] of a non-empty list, [get_metadata] returns the time of
    the call, the number of records, the chains of the records, sorted and
    without duplicates, and whether some record has an [aura_apy]. *)
Theorem metadata_summarises_the_batch s now rs :
  rs <> [] ->
  exists metadata chains has_aura,
    get_metadata (fst (save s now rs)) = Ok (JObj metadata)
    /\ dict_get "generated_at" metadata = Some (JStr now)
    /\ dict_get "total_pools" metadata = Some (JNum (inject_Z (Z.of_nat (length rs))))
    /\ dict_get "chains" metadata = Some (JArr (map JStr chains))
    /\ StronglySorted String_as_OT.lt chains
    /\ (forall c, In c chains <-> exists r, In r rs /\ chain r = c)
    /\ dict_get "has_aura" metadata = Some (JBool has_aura)
    /\ (has_aura = true <-> exists r, In r rs /\ aura_apy r <> None).
Proof.
  intros H. destruct rs as [|r0 rs]; [contradiction|]. clear H.
  set (l := r0 :: rs).
  exists [("generated_at", JStr now); ("source", JStr "BalancerTracker");
          ("total_pools", JNum (inject_Z (Z.of_nat (length l))));
          ("chains", JArr (map JStr (sorted_set (map chain l))));
          ("has_aura", JBool (existsb (fun p => bool_decide (is_Some (aura_apy p))) l))],
         (sorted_set (map chain l)),
         (existsb (fun p => bool_decide (is_Some (aura_apy p))) l).
  split; [reflexivity|]. do 3 (split; [reflexivity|]).
  destruct (sorted_set_spec (map chain l)) as [Hs Hi].
  split; [exact Hs|]. split.
  - intros c. rewrite Hi, in_map_iff. firstorder.
  - split; [reflexivity|]. rewrite existsb_exists. split.
    + intros (r & Hin & Hb). exists r. split; [exact Hin|].
      apply bool_decide_eq_true in Hb. destruct Hb as [a ->]. discriminate.
    + intros (r & Hin & Hn). exists r. split; [exact Hin|].
      apply bool_decide_eq_true. destruct (aura_apy r); [eauto | contradiction].
Qed.

Lemma batch_metadata_witness :
  exists metadata,
    get_metadata (fst (save Examples.fresh "2026-01-01T00:00:00Z"
                         [Examples.with_overlay; Examples.named "arbitrum" "B";
                          Examples.without_apy])) = Ok (JObj metadata)
    /\ dict_get "chains" metadata = Some (JArr [JStr "arbitrum"; JStr "ethereum"])
    /\ dict_get "has_aura" metadata = Some (JBool true).
Proof.
  destruct (metadata_summarises_the_batch Examples.fresh "2026-01-01T00:00:00Z"
              [Examples.with_overlay; Examples.named "arbitrum" "B"; Examples.without_apy])
    as (m & chains & b & E & _); [discriminate|].
  exists m. split; [exact E|].
  vm_compute in E. injection E as <-. split; reflexivity.
Defined.

(** ** More about the history store *)

Lemma for_each_append_series now max l h :
  history_ok h ->
  exists h',
    for_each (append_snapshot now max) h l = Ok h'
    /\ history_ok h'
    /\ forall k,
         default [] (doc_series h' k)
         = grow max (default [] (doc_series h k)) (map (snapshot_of now) (with_key k l)).
Proof.
  revert h. induction l as [|pool l IH]; intros h Hh; cbn [for_each].
  - exists h. auto.
  - destruct (append_snapshot_ok now max h pool Hh) as (h1 & E1 & H1 & T1 & O1).
    rewrite E1. cbn [mbind res_mbind res_bind].
    destruct (IH h1 H1) as (h2 & E2 & H2 & T2).
    exists h2. split; [exact E2|]. split; [exact H2|].
    intros k. rewrite T2. unfold with_key. cbn [List.filter].
    destruct (String.eqb_spec (_generate_pool_key pool) k) as [<-|N].
    + cbn [map grow fold_left]. now rewrite T1.
    + now rewrite (O1 k) by congruence.
Qed.

Lemma append_history_series s now l max :
  file_ok (history s) ->
  exists out,
    append_history s now l max = Ok out
    /\ file_ok (history (fst out))
    /\ forall k,
         entries (fst out) k
         = grow max (entries s k) (map (snapshot_of now) (with_key k l)).
Proof.
  intros Hs. unfold append_history. fold (start_of now s).
  destruct l as [|pool l].
  { exists (s, EmptyString). repeat split; auto. }
  destruct (set_last_updated_ok now _ (start_ok now s Hs)) as (h0 & E0 & H0 & S0).
  rewrite E0. cbn [mbind res_mbind res_bind].
  destruct (for_each_append_series now max (pool :: l) h0 H0) as (h1 & E1 & H1 & T1).
  rewrite E1. cbn [mbind res_mbind res_bind].
  eexists. split; [reflexivity|]. cbn [fst history].
  split; [exact H1|].
  intros k. unfold entries. rewrite series_of_mk, T1, S0. now rewrite start_series.
Qed.

Lemma grow_unlimited series new : grow None series new = (series ++ new)%list.
Proof.
  revert series. induction new as [|x new IH]; intros series; cbn [grow fold_left].
  - now rewrite app_nil_r.
  - fold (grow None (trim None (series ++ [x])) new). rewrite IH. cbn [trim].
    now rewrite <- app_assoc.
Qed.

Lemma trim_positive (K : Z) (l : list json) :
  (0 < K)%Z -> trim (Some K) l = drop (length l - Z.to_nat K) l.
Proof.
  intros Hpos. unfold trim, slice_from.
  assert (E1 : (K =? 0)%Z = false) by lia. rewrite E1. cbn [negb andb].
  destruct (Z.of_nat (length l) >? K)%Z eqn:E2.
  - assert (E3 : (- K <? 0)%Z = true) by lia. rewrite E3. f_equal. lia.
  - replace (length l - Z.to_nat K)%nat with 0%nat by lia. reflexivity.
Qed.

Lemma grow_limited (K : Z) series new :
  (0 < K)%Z -> new <> [] ->
  grow (Some K) series new
  = drop (length (series ++ new) - Z.to_nat K) (series ++ new).
Proof.
  intros Hpos. revert series. induction new as [|x new IH]; intros series Hne; [contradiction|].
  cbn [grow fold_left]. fold (grow (Some K) (trim (Some K) (series ++ [x])) new).
  rewrite trim_positive by exact Hpos.
  destruct new as [|y new].
  - reflexivity.
  - rewrite IH by discriminate.
    set (b := (length (series ++ [x]) - Z.to_nat K)%nat).
    assert (Hb : (b <= length (series ++ [x]))%nat) by (unfold b; lia).
    assert (E : (drop b (series ++ [x]) ++ y :: new
                 = drop b (series ++ x :: y :: new))%list).
    { replace (series ++ x :: y :: new)%list with ((series ++ [x]) ++ y :: new)%list
        by now rewrite <- app_assoc.
      symmetry. exact (drop_app_le (series ++ [x]) (y :: new) b Hb). }
    rewrite E, drop_drop. f_equal.
    rewrite length_drop. unfold b. rewrite !length_app. cbn [length].
    clear. generalize (Z.to_nat K) (length series) (length new). intros k n m. lia.
Qed.

Lemma trim_negative (K : Z) (l : list json) :
  (K < 0)%Z -> trim (Some K) l = drop (Z.to_nat (- K)) l.
Proof.
  intros Hneg. unfold trim, slice_from.
  assert (E1 : (K =? 0)%Z = false) by lia.
  assert (E2 : (Z.of_nat (length l) >? K)%Z = true) by (rewrite Z.gtb_ltb; apply Z.ltb_lt; lia).
  assert (E3 : (- K <? 0)%Z = false) by lia.
  now rewrite E1, E2, E3.
Qed.

(** X14: [append_history] without limit, on a store whose history file is
    missing, malformed or well-shaped, never raises; it leaves the snapshot
    file alone and appends to the series of every key the snapshots of the
    records with that key, in the order of the list. *)
Theorem history_grows_in_record_order s now l :
  file_ok (history s) ->
  exists out,
    append_history s now l None = Ok out
    /\ file_ok (history (fst out))
    /\ latest (fst out) = latest s
    /\ forall k,
         entries (fst out) k
         = (entries s k ++ map (snapshot_of now) (with_key k l))%list.
Proof.
  intros Hs. destruct (append_history_series s now l None Hs) as (out & E & H & T).
  exists out. split; [exact E|]. split; [exact H|]. split.
  - unfold append_history in E. destruct l; [now injection E as <-|].
    destruct (setitem _ _ _); [|discriminate E]. cbn [mbind res_mbind res_bind] in E.
    destruct (for_each _ _ _); [|discriminate E]. cbn [mbind res_mbind res_bind] in E.
    now injection E as <-.
  - intros k. rewrite T. apply grow_unlimited.
Qed.

Lemma history_grows_witness :
  exists out,
    append_history Examples.fresh "2026-01-01T00:00:00Z"
      [Examples.named "ethereum" "A"; Examples.named "ethereum" "B";
       Examples.named "ethereum" "a"] None = Ok out
    /\ entries (fst out) "ethereum_a"
       = [snapshot_of "2026-01-01T00:00:00Z" (Examples.named "ethereum" "A");
          snapshot_of "2026-01-01T00:00:00Z" (Examples.named "ethereum" "a")].
Proof.
  destruct (history_grows_in_record_order Examples.fresh "2026-01-01T00:00:00Z"
              [Examples.named "ethereum" "A"; Examples.named "ethereum" "B";
               Examples.named "ethereum" "a"] I) as (out & E & _ & _ & T).
  exists out. split; [exact E|]. rewrite T. reflexivity.
Defined.

(** X15: [append_history] with a limit [K > 0]. A series that no record of
    the call belongs to is left as it is, also when it is longer than [K]. A
    series that gets a snapshot ends up with the last [K] of the old entries
    followed by the new ones, all of them when they are not more than [K]. *)
Theorem limit_keeps_the_latest s now l (K : Z) :
  file_ok (history s) -> (0 < K)%Z ->
  exists out,
    append_history s now l (Some K) = Ok out
    /\ forall k,
         let all := (entries s k ++ map (snapshot_of now) (with_key k l))%list in
         (with_key k l = [] -> entries (fst out) k = entries s k)
         /\ (with_key k l <> [] ->
             entries (fst out) k = drop (length all - Z.to_nat K) all
             /\ (length (entries (fst out) k) <= Z.to_nat K)%nat).
Proof.
  intros Hs HK. destruct (append_history_series s now l (Some K) Hs) as (out & E & _ & T).
  exists out. split; [exact E|]. intros k all. rewrite T. split.
  - intros ->. reflexivity.
  - intros Hne. rewrite grow_limited; [|exact HK|].
    + split; [reflexivity|]. fold all. rewrite length_drop. lia.
    + destruct (with_key k l); [contradiction | discriminate].
Qed.

Lemma limit_keeps_witness :
  exists out,
    append_history Examples.fresh "2026-01-01T00:00:00Z"
      [Examples.named "ethereum" "A"; Examples.named "ethereum" "B";
       Examples.named "ethereum" "a"] (Some 1%Z) = Ok out
    /\ entries (fst out) "ethereum_a"
       = [snapshot_of "2026-01-01T00:00:00Z" (Examples.named "ethereum" "a")].
Proof.
  destruct (limit_keeps_the_latest Examples.fresh "2026-01-01T00:00:00Z"
              [Examples.named "ethereum" "A"; Examples.named "ethereum" "B";
               Examples.named "ethereum" "a"] 1 I eq_refl) as (out & E & T).
  exists out. split; [exact E|].
  destruct (T "ethereum_a") as [_ T2]. destruct T2 as [-> _]; [discriminate | reflexivity].
Defined.

(** X16: a negative limit [K] makes [append_history] drop the [-K] oldest
    entries of a series at every append; a series that starts empty stays
    empty. *)
Theorem negative_limit_drops_the_oldest s now pool (K : Z) :
  file_ok (history s) -> (K < 0)%Z ->
  exists out,
    append_history s now [pool] (Some K) = Ok out
    /\ entries (fst out) (_generate_pool_key pool)
       = drop (Z.to_nat (- K))
           (entries s (_generate_pool_key pool) ++ [snapshot_of now pool])
    /\ (entries s (_generate_pool_key pool) = [] ->
        entries (fst out) (_generate_pool_key pool) = []).
Proof.
  intros Hs HK.
  destruct (append_history_one s now pool (Some K) Hs) as (s1 & E & _ & _ & T & _).
  exists (s1, history_file s). split; [exact E|]. cbn [fst].
  rewrite T, trim_negative by exact HK. split; [reflexivity|].
  intros ->. cbn [app]. destruct (Z.to_nat (- K)) as [|[|n]] eqn:N; [lia | reflexivity | reflexivity].
Qed.

Lemma negative_limit_witness :
  exists out,
    append_history Examples.fresh "2026-01-01T00:00:00Z" [Examples.with_overlay]
      (Some (-1)%Z) = Ok out
    /\ entries (fst out) (_generate_pool_key Examples.with_overlay) = [].
Proof.
  destruct (negative_limit_drops_the_oldest Examples.fresh "2026-01-01T00:00:00Z"
              Examples.with_overlay (-1) I eq_refl) as (out & E & _ & T).
  exists out. split; [exact E|]. apply T. reflexivity.
Defined.

(** ** The metadata of a slot *)

Lemma append_snapshot_metadata now max h pool h' :
  history_ok h ->
  append_snapshot now max h pool = Ok h' ->
  doc_metadata h' (_generate_pool_key pool)
  = match doc_series h (_generate_pool_key pool) with
    | Some _ => doc_metadata h (_generate_pool_key pool)
    | None => Some (metadata_json pool)
    end
  /\ forall k, k <> _generate_pool_key pool -> doc_metadata h' k = doc_metadata h k.
Proof.
  intros (d & pools & -> & P & S).
  unfold append_snapshot. set (key := _generate_pool_key pool).
  cbn [getitem]. rewrite P. cbn [mbind res_mbind res_bind].
  set (fresh := JObj [("metadata", _); ("snapshots", JArr [])]).
  set (pools' := if dict_mem key pools then pools else dict_set key fresh pools).
  assert (Hslot : exists sd l,
             dict_get key pools' = Some (JObj sd)
             /\ dict_get "snapshots" sd = Some (JArr l)
             /\ dict_get "metadata" sd
                = match doc_series (JObj d) key with
                  | Some _ => doc_metadata (JObj d) key
                  | None => Some (metadata_json pool)
                  end).
  { unfold pools', dict_mem, doc_series, doc_metadata. cbn [as_dict mbind option_bind]. rewrite P.
    cbn [as_dict mbind option_bind].
    destruct (dict_get key pools) as [slot|] eqn:E.
    - destruct (S _ _ E) as (sd & l & -> & Hl). exists sd, l.
      cbn [as_dict mbind option_bind]. rewrite Hl. auto.
    - eexists _, []. rewrite dict_get_set_eq. split; [reflexivity|]. split; reflexivity. }
  destruct Hslot as (sd & l & Hk & Hl & Hm).
  assert (O : forall k, k <> key -> dict_get k pools' = dict_get k pools).
  { intros k N. unfold pools'. destruct (dict_mem key pools); [reflexivity|].
    apply dict_get_set_ne. congruence. }
  rewrite Hk. cbn [getitem mbind res_mbind res_bind]. rewrite Hl.
  cbn [mbind res_mbind res_bind setitem].
  set (l' := trim max (l ++ [snapshot_of now pool])).
  set (slot' := JObj (dict_set "snapshots" (JArr l') sd)).
  intros [= <-].
  assert (G : dict_get "pools" (dict_set "pools" (JObj (dict_set key slot' pools')) d)
              = Some (JObj (dict_set key slot' pools'))) by apply dict_get_set_eq.
  split.
  - rewrite <- Hm. unfold doc_metadata at 1. cbn [as_dict mbind option_bind]. rewrite G.
    cbn [as_dict mbind option_bind]. rewrite dict_get_set_eq. unfold slot'.
    cbn [as_dict mbind option_bind]. apply dict_get_set_ne. discriminate.
  - intros k N. unfold doc_metadata. cbn [as_dict mbind option_bind]. rewrite G, P.
    cbn [as_dict mbind option_bind].
    rewrite dict_get_set_ne by congruence. now rewrite (O k N).
Qed.

(** A slot is there exactly when it has a series. *)
Lemma append_snapshot_slot now max h pool h' :
  history_ok h ->
  append_snapshot now max h pool = Ok h' ->
  doc_series h' (_generate_pool_key pool) <> None.
Proof.
  intros (d & pools & -> & P & S).
  unfold append_snapshot. set (key := _generate_pool_key pool).
  cbn [getitem]. rewrite P. cbn [mbind res_mbind res_bind].
  set (fresh := JObj [("metadata", _); ("snapshots", JArr [])]).
  set (pools' := if dict_mem key pools then pools else dict_set key fresh pools).
  assert (Hslot : exists sd l,
             dict_get key pools' = Some (JObj sd)
             /\ dict_get "snapshots" sd = Some (JArr l)).
  { unfold pools', dict_mem.
    destruct (dict_get key pools) as [slot|] eqn:E.
    - destruct (S _ _ E) as (sd & l & -> & Hl). exists sd, l. auto.
    - eexists _, []. rewrite dict_get_set_eq. split; reflexivity. }
  destruct Hslot as (sd & l & Hk & Hl).
  rewrite Hk. cbn [getitem mbind res_mbind res_bind]. rewrite Hl.
  cbn [mbind res_mbind res_bind setitem].
  intros [= <-]. unfold doc_series. cbn [as_dict mbind option_bind].
  rewrite dict_get_set_eq. cbn [as_dict mbind option_bind].
  rewrite dict_get_set_eq. cbn [as_dict mbind option_bind].
  rewrite dict_get_set_eq. discriminate.
Qed.

Lemma for_each_append_metadata now max l h h' :
  history_ok h ->
  for_each (append_snapshot now max) h l = Ok h' ->
  forall k,
    doc_metadata h' k
    = match doc_series h k, with_key k l with
      | None, pool :: _ => Some (metadata_json pool)
      | _, _ => doc_metadata h k
      end.
Proof.
  revert h. induction l as [|pool l IH]; intros h Hh; cbn [for_each].
  - intros [= <-] k. unfold with_key. cbn [List.filter]. now destruct (doc_series h k).
  - destruct (append_snapshot_ok now max h pool Hh) as (h1 & E1 & H1 & _ & O1).
    rewrite E1. cbn [mbind res_mbind res_bind]. intros E k.
    rewrite (IH h1 H1 E k).
    destruct (append_snapshot_metadata now max h pool h1 Hh E1) as [M1 M2].
    pose proof (append_snapshot_slot now max h pool h1 Hh E1) as S1.
    unfold with_key. cbn [List.filter].
    destruct (String.eqb_spec (_generate_pool_key pool) k) as [<-|N].
    + destruct (doc_series h1 (_generate_pool_key pool)) as [x|]; [|contradiction].
      rewrite M1. now destruct (doc_series h (_generate_pool_key pool)).
    + rewrite O1, M2 by congruence. reflexivity.
Qed.

Lemma set_last_updated_metadata now h h' :
  history_ok h -> setitem "last_updated" (JStr now) h = Ok h' ->
  forall k, doc_metadata h' k = doc_metadata h k.
Proof.
  intros (d & pools & -> & P & S). cbn [setitem]. intros [= <-] k.
  unfold doc_metadata. cbn [as_dict mbind option_bind].
  rewrite dict_get_set_ne by discriminate. reflexivity.
Qed.

Lemma start_metadata now s k : doc_metadata (start_of now s) k = metadata_of s k.
Proof.
  unfold start_of, metadata_of. destruct (history s); reflexivity.
Qed.

(** X17: the metadata of a key is written when its slot is created, from the
    first record of the call with that key; [append_history] never changes
    the metadata of a key that has a slot already. *)
Theorem slot_metadata_is_written_once s now l max :
  file_ok (history s) ->
  exists out,
    append_history s now l max = Ok out
    /\ forall k,
         metadata_of (fst out) k
         = match series_of s k, with_key k l with
           | None, pool :: _ => Some (metadata_json pool)
           | _, _ => metadata_of s k
           end.
Proof.
  intros Hs. destruct (append_history_ok s now l max Hs) as (out & E & _).
  exists out. split; [exact E|]. intros k.
  unfold append_history in E. fold (start_of now s) in E.
  destruct l as [|pool l].
  { injection E as <-. cbn [fst]. unfold with_key. cbn [List.filter].
    now destruct (series_of s k). }
  destruct (set_last_updated_ok now _ (start_ok now s Hs)) as (h0 & E0 & H0 & S0).
  rewrite E0 in E. cbn [mbind res_mbind res_bind] in E.
  destruct (for_each (append_snapshot now max) h0 (pool :: l)) as [h1|] eqn:E1;
    [|discriminate E]. cbn [mbind res_mbind res_bind] in E. injection E as <-.
  cbn [fst]. unfold metadata_of at 1. cbn [history].
  rewrite (for_each_append_metadata now max (pool :: l) h0 h1 H0 E1 k).
  rewrite S0, start_series.
  rewrite (set_last_updated_metadata now _ h0 (start_ok now s Hs) E0 k).
  now rewrite start_metadata.
Qed.

Lemma slot_metadata_witness :
  exists out,
    append_history Examples.fresh "2026-01-01T00:00:00Z"
      [Examples.with_overlay; Examples.named "ethereum" "wrapped eth usdc"] None = Ok out
    /\ metadata_of (fst out) "ethereum_wrapped_eth_usdc"
       = Some (metadata_json Examples.with_overlay).
Proof.
  destruct (slot_metadata_is_written_once Examples.fresh "2026-01-01T00:00:00Z"
              [Examples.with_overlay; Examples.named "ethereum" "wrapped eth usdc"] None I)
    as (out & E & M).
  exists out. split; [exact E|]. rewrite M. reflexivity.
Defined.

(** ** Queries on the history *)

Lemma generate_pool_key_nonempty pool : _generate_pool_key pool <> "".
Proof. unfold _generate_pool_key. destruct (chain pool); discriminate. Qed.

Lemma key_given_some k : k <> "" -> key_given (Some k) = Some k.
Proof.
  intros N. unfold key_given. now destruct (String.eqb_spec k "").
Qed.

Lemma series_of_some s k l :
  series_of s k = Some l ->
  exists d pools slot,
    history s = Doc (JObj d) /\ dict_get "pools" d = Some (JObj pools)
    /\ dict_get k pools = Some (JObj slot)
    /\ dict_get "snapshots" slot = Some (JArr l).
Proof.
  unfold series_of. destruct (history s) as [| |h]; try discriminate.
  destruct h as [| | | | |d]; try discriminate. cbn [as_dict mbind option_bind].
  destruct (dict_get "pools" d) as [pools|] eqn:P; [|discriminate].
  destruct pools as [| | | | |pools]; try discriminate. cbn [as_dict mbind option_bind].
  destruct (dict_get k pools) as [slot|] eqn:K; [|discriminate].
  destruct slot as [| | | | |slot]; try discriminate. cbn [as_dict mbind option_bind].
  destruct (dict_get "snapshots" slot) as [x|] eqn:X; [|discriminate].
  destruct x; try discriminate. cbn. intros [= ->]. exists d, pools, slot. auto.
Qed.

Lemma get_history_key s clock k l :
  series_of s k = Some l -> k <> "" ->
  exists slot,
    get_history s clock (Some k) None = Done (JObj slot)
    /\ dict_get "snapshots" slot = Some (JArr l)
    /\ dict_get "metadata" slot = metadata_of s k
    /\ forall d, d <> 0%Z ->
         get_history s clock (Some k) (Some d) = _filter_by_days clock (JObj slot) d.
Proof.
  intros Hl Hk. destruct (series_of_some s k l Hl) as (d & pools & slot & H & P & K & X).
  assert (G : forall days,
             get_history s clock (Some k) days
             = match days_given days with
               | Some d => _filter_by_days clock (JObj slot) d
               | None => Done (JObj slot)
               end).
  { intros days. unfold get_history. rewrite H, (key_given_some k Hk).
    unfold get_or_empty at 2, get_or. rewrite P.
    cbn [default from_option id mbind outcome_mbind outcome_bind get_or_empty].
    unfold get_or. rewrite K. reflexivity. }
  exists slot. split; [apply (G None)|]. split; [exact X|]. split.
  - unfold metadata_of, doc_metadata. rewrite H. cbn [as_dict mbind option_bind].
    rewrite P. cbn [as_dict mbind option_bind]. rewrite K. reflexivity.
  - intros d0 Hd. rewrite G. unfold days_given. now destruct (Z.eqb_spec d0 0).
Qed.

Lemma entries_nonempty s k : entries s k <> [] -> series_of s k = Some (entries s k).
Proof.
  unfold entries. destruct (series_of s k); [reflexivity | intros H; now contradiction H].
Qed.

(** X18: what [append_history] writes, [get_history] returns. For the key of
    a record of the call the query returns the slot of that key, whose
    snapshots are the old entries followed by those of the call. *)
Theorem appended_history_is_returned s now l pool clock :
  file_ok (history s) -> In pool l ->
  let k := _generate_pool_key pool in
  exists out slot,
    append_history s now l None = Ok out
    /\ get_history (fst out) clock (Some k) None = Done (JObj slot)
    /\ dict_get "snapshots" slot
       = Some (JArr (entries s k ++ map (snapshot_of now) (with_key k l))%list)
    /\ dict_get "metadata" slot = metadata_of (fst out) k.
Proof.
  intros Hs Hin k.
  destruct (append_history_series s now l None Hs) as (out & E & _ & T).
  specialize (T k). rewrite grow_unlimited in T.
  assert (Hne : entries (fst out) k <> []).
  { rewrite T. assert (In pool (with_key k l)) as Hp.
    { apply filter_In. split; [exact Hin|]. apply String.eqb_refl. }
    destruct (with_key k l); [destruct Hp|].
    intros H. apply app_eq_nil in H as [_ H]. discriminate H. }
  destruct (get_history_key (fst out) clock k _ (entries_nonempty _ _ Hne)
              (generate_pool_key_nonempty pool)) as (slot & G & S & M & _).
  exists out, slot. rewrite <- T. auto.
Qed.

Lemma appended_history_witness :
  exists out slot,
    append_history Examples.fresh "2026-01-01T00:00:00Z"
      [Examples.named "ethereum" "A"; Examples.with_overlay] None = Ok out
    /\ get_history (fst out) Cases.clock
         (Some (_generate_pool_key Examples.with_overlay)) None = Done (JObj slot)
    /\ dict_get "snapshots" slot
       = Some (JArr [snapshot_of "2026-01-01T00:00:00Z" Examples.with_overlay]).
Proof.
  destruct (appended_history_is_returned Examples.fresh "2026-01-01T00:00:00Z"
              [Examples.named "ethereum" "A"; Examples.with_overlay] Examples.with_overlay
              Cases.clock I) as (out & slot & E & G & S & _).
  - right. left. reflexivity.
  - exists out, slot. split; [exact E|]. split; [exact G|]. rewrite S. reflexivity.
Defined.

Lemma keeps_stamped clock c x :
  stamped x = true -> keeps clock c x = Done (recent clock c x).
Proof.
  unfold stamped, keeps, recent, stamp. destruct x as [| | | | |d]; try discriminate.
  destruct (dict_get "timestamp" d) as [t|]; [|reflexivity].
  destruct t; try discriminate. intros _. cbn [as_str mbind option_bind].
  now destruct (strptime clock s).
Qed.

Lemma filter_snapshots_stamped clock c l :
  Forall (fun x => stamped x = true) l ->
  filter_snapshots clock c l = Done (List.filter (recent clock c) l).
Proof.
  induction 1 as [|x l Hx _ IH]; [reflexivity|].
  cbn [filter_snapshots List.filter]. rewrite (keeps_stamped clock c x Hx), IH.
  reflexivity.
Qed.

(** X19: [get_history] for a key and a number of days. When the snapshots of
    the key are objects whose timestamp, if any, is a string, and the day
    count and the cutoff (now minus the days) are in the range of the
    calendar, the query returns the slot with its snapshots filtered, in
    order, to those whose timestamp the clock reads as not before the cutoff;
    a snapshot without timestamp, or with one the clock cannot read, is left
    out; the rest of the slot is kept. [days = 0] filters nothing. *)
Theorem days_filter_keeps_recent_snapshots s clock k l (d : Z) :
  series_of s k = Some l -> k <> "" ->
  Forall (fun x => stamped x = true) l ->
  d <> 0%Z -> (Z.abs d <= 999999999)%Z ->
  let cutoff := (utcnow clock - d * microseconds_per_day)%Z in
  (0 <= cutoff <= datetime_max)%Z ->
  exists slot,
    get_history s clock (Some k) None = Done (JObj slot)
    /\ dict_get "snapshots" slot = Some (JArr l)
    /\ get_history s clock (Some k) (Some d)
       = Done (JObj (dict_set "snapshots" (JArr (List.filter (recent clock cutoff) l)) slot))
    /\ get_history s clock (Some k) (Some 0%Z) = Done (JObj slot).
Proof.
  intros Hl Hk Hst Hd Habs cutoff Hc.
  destruct (get_history_key s clock k l Hl Hk) as (slot & G & S & _ & F).
  exists slot. split; [exact G|]. split; [exact S|]. split.
  - rewrite (F d Hd). unfold _filter_by_days, cutoff_of.
    assert (E1 : (999999999 <? Z.abs d)%Z = false) by (apply Z.ltb_ge; exact Habs).
    rewrite E1. fold cutoff.
    assert (E2 : (cutoff <? 0)%Z = false) by (apply Z.ltb_ge; lia).
    assert (E3 : (datetime_max <? cutoff)%Z = false) by (apply Z.ltb_ge; lia).
    rewrite E2, E3. cbn [orb mbind outcome_mbind outcome_bind]. rewrite S.
    cbn [iterate mbind outcome_mbind outcome_bind].
    rewrite (filter_snapshots_stamped clock cutoff l Hst). reflexivity.
  - rewrite <- G. unfold get_history. reflexivity.
Qed.

Lemma days_filter_witness :
  exists slot,
    get_history Cases.aged Cases.clock (Some "ethereum_wrapped_eth_usdc") (Some 5%Z)
    = Done (JObj slot)
    /\ dict_get "snapshots" slot
       = Some (JArr [snapshot_of "2024-04-30T12:00:00Z" Examples.with_overlay]).
Proof.
  destruct (days_filter_keeps_recent_snapshots Cases.aged Cases.clock "ethereum_wrapped_eth_usdc"
              [snapshot_of "2024-04-21T12:00:00Z" Examples.with_overlay;
               snapshot_of "2024-04-30T12:00:00Z" Examples.with_overlay] 5)
    as (slot & G & _ & F & _).
  - reflexivity.
  - discriminate.
  - repeat constructor.
  - discriminate.
  - vm_compute. discriminate.
  - vm_compute. split; discriminate.
  - eexists. split; [exact F|]. vm_compute in G. injection G as <-. reflexivity.
Defined.

(** ** The record as a dict *)

Lemma all_some_nums l : all_some (map as_num (map JNum l)) = Some l.
Proof. induction l as [|x l IH]; simpl; [reflexivity | now rewrite IH]. Qed.

(** X20: [from_dict] after [to_dict] gives the record back as it was, nothing
    rounded or dropped; and [from_dict] rejects with [TypeError] the object
    [_pool_to_json] writes to the snapshot file. *)
Theorem dict_round_trip pool :
  from_dict (to_dict pool) = Ok pool
  /\ from_dict (_pool_to_json pool) = Raise TypeError.
Proof.
  destruct pool as [n c a i t b br o ta co cr ca cp aa at_ ab asc].
  split.
  - unfold from_dict, to_dict, list_of_str, list_of_num, str_list, num_list.
    cbn -[all_some map].
    rewrite all_some_other_rewards, !all_some_str, !all_some_nums.
    cbn -[all_some map].
    destruct aa, at_, ab, asc; reflexivity.
  - reflexivity.
Qed.

(** ** The Balancer client *)

Lemma match_address_ok addresses st pool :
  identified pool = true ->
  exists self',
    Balancer.match_address (map lower addresses) st pool
    = Ok ((fst st ++ List.filter (requested addresses) [pool])%list, self')
    /\ forall a,
         Balancer._pool_cache self' !! a
         = if requested addresses pool
              && String.eqb (lower (default "" (Payload.address pool))) a
           then Payload.id pool
           else Balancer._pool_cache (snd st) !! a.
Proof.
  intros Hid. destruct st as [matching self]. unfold Balancer.match_address, identified in *.
  cbn [List.filter fst snd]. fold (requested addresses pool).
  destruct (Payload.address pool) as [address|]; [|discriminate Hid].
  destruct (Payload.id pool) as [pid|]; [|discriminate Hid].
  destruct (requested addresses (pool)) eqn:R.
  - eexists. split; [reflexivity|]. intros a. cbn [Balancer._pool_cache default from_option id andb].
    destruct (String.eqb_spec (lower address) a) as [<-|N].
    + apply lookup_insert_eq.
    + now apply lookup_insert_ne.
  - exists self. rewrite app_nil_r. split; [reflexivity|]. reflexivity.
Qed.

Lemma for_each_match addresses pools :
  Forall (fun p => identified p = true) pools ->
  forall matching self,
  exists self',
    for_each (Balancer.match_address (map lower addresses)) (matching, self) pools
    = Ok ((matching ++ List.filter (requested addresses) pools)%list, self')
    /\ forall a,
         Balancer._pool_cache self' !! a
         = match last_where
                   (fun p => requested addresses p
                             && String.eqb (lower (default "" (Payload.address p))) a)
                   pools with
           | Some p => Payload.id p
           | None => Balancer._pool_cache self !! a
           end.
Proof.
  induction 1 as [|pool pools Hp _ IH]; intros matching self.
  - exists self. rewrite app_nil_r. split; reflexivity.
  - cbn [for_each].
    destruct (match_address_ok addresses (matching, self) pool Hp) as (self1 & E1 & C1).
    rewrite E1. cbn [mbind res_mbind res_bind fst].
    destruct (IH (matching ++ List.filter (requested addresses) [pool])%list self1)
      as (self2 & E2 & C2).
    exists self2. split.
    + rewrite E2. f_equal. f_equal. rewrite <- app_assoc. f_equal.
      cbn [List.filter]. now destruct (requested addresses pool).
    + intros a. rewrite C2. unfold last_where. cbn [rev]. rewrite find_app.
      destruct (find _ (rev pools)); [reflexivity|]. cbn [find].
      rewrite C1. cbn [snd].
      now destruct (requested addresses pool && _).
Qed.

(** X21: when the listed pools have an address and an id,
    [get_pools_by_address] returns the pools of the chain's listing whose
    address is one of the requested, letters compared without case, in the
    order of the listing, not of the request; a requested address that is
    not listed is passed over. The cache then maps each matched address, in
    lowercase, to the id of the last pool listed at it. *)
Theorem pools_by_address_come_in_listing_order net self addresses chain :
  let listing := Balancer.poolGetPools net (Balancer._gql_chain chain) in
  Forall (fun p => identified p = true) listing ->
  exists self',
    Balancer.get_pools_by_address net self addresses chain
    = Ok (List.filter (requested addresses) listing, self')
    /\ forall a,
         Balancer._pool_cache self' !! a
         = match last_where
                   (fun p => requested addresses p
                             && String.eqb (lower (default "" (Payload.address p))) a)
                   listing with
           | Some p => Payload.id p
           | None => Balancer._pool_cache self !! a
           end.
Proof.
  intros listing H. unfold Balancer.get_pools_by_address. fold listing.
  exact (for_each_match addresses listing H [] self).
Qed.

Lemma pools_by_address_witness :
  exists self',
    Balancer.get_pools_by_address Cases.bnet Balancer.__init__ ["0xABC"; "0xdef"] "ethereum"
    = Ok ([Cases.second_payload; Examples.pool_payload Examples.spec_items 1000], self')
    /\ Balancer._pool_cache self' !! "0xdef" = Some "0xdef000000000000000000002".
Proof.
  destruct (pools_by_address_come_in_listing_order Cases.bnet Balancer.__init__
              ["0xABC"; "0xdef"] "ethereum") as (self' & E & C).
  - repeat constructor.
  - exists self'. split; [exact E|]. rewrite C. reflexivity.
Defined.

Lemma find_filter_head {A} (f : A -> bool) (l : list A) :
  match List.filter f l with
  | x :: _ => Some x
  | [] => None
  end = find f l.
Proof.
  induction l as [|x l IH]; [reflexivity|]. cbn [List.filter find].
  now destruct (f x).
Qed.

(** X22: for an identifier of at most 42 characters, [0x] removed,
    [find_pool] returns the first pool of the chain's listing at that
    address, and [None] when there is none. *)
Theorem find_pool_by_address_is_first_of_listing net self identifier chain :
  let listing := Balancer.poolGetPools net (Balancer._gql_chain chain) in
  (String.length (Balancer.replace "0x" "" (lower identifier)) <= 42)%nat ->
  Forall (fun p => identified p = true) listing ->
  exists self',
    Balancer.find_pool net self identifier chain
    = Ok (find (fun p => String.eqb (lower (default "" (Payload.address p)))
                           (lower identifier)) listing,
          self').
Proof.
  intros listing Hlen H. unfold Balancer.find_pool.
  assert (E : (42 <? String.length (Balancer.replace "0x" "" (lower identifier)))%nat = false)
    by (apply Nat.ltb_ge; exact Hlen).
  rewrite E.
  unfold Balancer.get_pools_by_address. fold listing.
  destruct (for_each_match [identifier] listing H [] self) as (self' & E' & _).
  rewrite E'. cbn [mbind res_mbind res_bind app]. exists self'. f_equal. f_equal.
  rewrite find_filter_head. clear. induction listing as [|p l IH]; [reflexivity|].
  cbn [find]. rewrite IH. unfold requested. cbn [map existsb]. now rewrite orb_false_r.
Qed.

Lemma find_pool_witness :
  exists self',
    Balancer.find_pool Cases.bnet Balancer.__init__ "0xABC" "ethereum"
    = Ok (Some (Examples.pool_payload Examples.spec_items 1000), self').
Proof.
  destruct (find_pool_by_address_is_first_of_listing Cases.bnet Balancer.__init__
              "0xABC" "ethereum") as (self' & E).
  - vm_compute. lia.
  - repeat constructor.
  - exists self'. exact E.
Defined.

(** X23: a chain name the Balancer client does not know is queried as
    MAINNET: every request gives what it gives for ethereum. *)
Theorem unknown_chain_is_queried_as_mainnet net self identifier addresses chain :
  assoc (lower chain) Balancer.CHAIN_MAP = None ->
  Balancer.get_pool_by_id net identifier chain
  = Balancer.get_pool_by_id net identifier "ethereum"
  /\ Balancer.get_pools_by_address net self addresses chain
     = Balancer.get_pools_by_address net self addresses "ethereum"
  /\ Balancer.find_pool net self identifier chain
     = Balancer.find_pool net self identifier "ethereum".
Proof.
  intros H.
  assert (E : Balancer._gql_chain chain = Balancer._gql_chain "ethereum").
  { unfold Balancer._gql_chain. rewrite H. reflexivity. }
  unfold Balancer.find_pool, Balancer.get_pools_by_address, Balancer.get_pool_by_id.
  rewrite E. auto.
Qed.

Lemma unknown_chain_witness :
  Balancer.find_pool Cases.bnet Balancer.__init__ "0xabc" "arbitrun"
  = Balancer.find_pool Cases.bnet Balancer.__init__ "0xabc" "ethereum".
Proof.
  apply (unknown_chain_is_queried_as_mainnet Cases.bnet Balancer.__init__ "0xabc" []
           "arbitrun"). reflexivity.
Defined.

(** ** Tracking the configured pools *)

Lemma parse_into_some net chain ae results session pd :
  exists r session',
    Run.parse_into net chain ae (results, session) (Some pd)
    = Ok ((results ++ [r])%list, session')
    /\ identity r = identity_on chain pd.
Proof.
  unfold Run.parse_into.
  destruct (parse_pool_identity net (Run.self session) pd chain ae)
    as (r & self' & E & Hc & _ & Ha & Hi & _).
  rewrite E. cbn [mbind res_mbind res_bind]. eexists r, _. split; [reflexivity|].
  unfold identity, identity_on. now rewrite Hc, Ha, Hi.
Qed.

Lemma parse_into_none net chain ae results session :
  exists session',
    Run.parse_into net chain ae (results, session) None = Ok (results, session').
Proof. eexists. reflexivity. Qed.

(** A loop that parses one payload, if any, for each element. *)
Lemma for_each_parse {A} net chain (ae_of : A -> bool) (payload_of : A -> option Payload.Pool)
    (l : list A) results session :
  exists rs session',
    for_each (fun st x => Run.parse_into net chain (ae_of x) st (payload_of x))
      (results, session) l
    = Ok ((results ++ rs)%list, session')
    /\ map identity rs = map (identity_on chain) (omap payload_of l).
Proof.
  revert results session. induction l as [|x l IH]; intros results session.
  - exists [], session. rewrite app_nil_r. split; reflexivity.
  - cbn [for_each omap list_omap]. fold (omap payload_of l).
    destruct (payload_of x) as [pd|].
    + destruct (parse_into_some net chain (ae_of x) results session pd) as (r & s1 & E1 & I1).
      rewrite E1. cbn [mbind res_mbind res_bind].
      destruct (IH (results ++ [r])%list s1) as (rs & s2 & E2 & I2).
      exists (r :: rs), s2. rewrite E2, <- app_assoc. split; [reflexivity|].
      cbn [map]. now rewrite I1, I2.
    + destruct (parse_into_none net chain (ae_of x) results session) as (s1 & E1).
      rewrite E1. cbn [mbind res_mbind res_bind]. apply IH.
Qed.

Lemma omap_Some_id {A} (l : list A) : omap Some l = l.
Proof. induction l as [|x l IH]; [reflexivity|]. cbn. now f_equal. Qed.

Lemma filter_requested_nil listing : List.filter (requested []) listing = [].
Proof. induction listing as [|p l IH]; [reflexivity | exact IH]. Qed.

Lemma pools_of_ok pool_configs :
  Forall (fun cfg => Run.pool cfg <> None) pool_configs ->
  Run.pools_of pool_configs = Ok (addresses_of pool_configs).
Proof.
  induction 1 as [|cfg l H _ IH]; [reflexivity|]. cbn [Run.pools_of addresses_of map].
  destruct (Run.pool cfg) as [p|]; [|contradiction]. fold (addresses_of l).
  rewrite IH. reflexivity.
Qed.

Lemma pools_of_missing pool_configs :
  Exists (fun cfg => Run.pool cfg = None) pool_configs ->
  Run.pools_of pool_configs = Raise KeyError.
Proof.
  induction 1 as [cfg l H|cfg l _ IH]; cbn [Run.pools_of].
  - now rewrite H.
  - rewrite IH. now destruct (Run.pool cfg).
Qed.

Lemma track_chain_ok net bnet results session chain pool_configs :
  Forall (fun cfg => Run.pool cfg <> None) pool_configs ->
  Forall (fun p => identified p = true)
    (Balancer.poolGetPools bnet (Balancer._gql_chain chain)) ->
  exists rs session',
    Run.track_chain net bnet (results, session) (chain, pool_configs)
    = Ok ((results ++ rs)%list, session')
    /\ map identity rs
       = map (identity_on chain) (payloads_of bnet chain (addresses_of pool_configs)).
Proof.
  intros Hp Hl. unfold Run.track_chain. rewrite (pools_of_ok _ Hp).
  cbn [mbind res_mbind res_bind]. unfold payloads_of.
  set (addresses := addresses_of pool_configs).
  set (short := List.filter (fun a => negb (Run.is_full_id a)) addresses).
  set (full := List.filter Run.is_full_id addresses).
  assert (S : exists rs1 session1,
    match short with
    | [] => Ok (results, session)
    | _ :: _ =>
        '(pools, api) ← Balancer.get_pools_by_address bnet (Run.api session) short chain;
        for_each
          (fun st pool_data =>
             Run.parse_into net chain
               (Run.aura_enabled_of
                  (fun p => String.eqb (lower p) (lower (default "" (Payload.address pool_data))))
                  pool_configs) st (Some pool_data))
          (results, {| Run.self := Run.self session; Run.api := api |}) pools
    end = Ok ((results ++ rs1)%list, session1)
    /\ map identity rs1
       = map (identity_on chain)
           (List.filter (requested short)
              (Balancer.poolGetPools bnet (Balancer._gql_chain chain)))).
  { destruct short as [|a short'] eqn:Es.
    - exists [], session. rewrite app_nil_r, filter_requested_nil. split; reflexivity.
    - rewrite <- Es. unfold Balancer.get_pools_by_address.
      destruct (for_each_match short _ Hl [] (Run.api session)) as (api' & E & _).
      rewrite E. cbn [mbind res_mbind res_bind app].
      destruct (for_each_parse net chain
                  (fun pool_data =>
                     Run.aura_enabled_of
                       (fun p => String.eqb (lower p)
                                   (lower (default "" (Payload.address pool_data))))
                       pool_configs)
                  Some
                  (List.filter (requested short)
                     (Balancer.poolGetPools bnet (Balancer._gql_chain chain)))
                  results {| Run.self := Run.self session; Run.api := api' |})
        as (rs & s1 & E1 & I1).
      exists rs, s1. rewrite E1. split; [reflexivity|].
      now rewrite I1, omap_Some_id. }
  destruct S as (rs1 & session1 & E1 & I1). rewrite E1. cbn [mbind res_mbind res_bind].
  destruct (for_each_parse net chain
              (fun pool_id => Run.aura_enabled_of (fun p => String.eqb p pool_id) pool_configs)
              (fun pool_id => Balancer.get_pool_by_id bnet pool_id chain)
              full (results ++ rs1)%list session1) as (rs2 & session2 & E2 & I2).
  exists (rs1 ++ rs2)%list, session2. rewrite E2, <- app_assoc. split; [reflexivity|].
  now rewrite !map_app, I1, I2.
Qed.

Lemma track_chain_missing net bnet st chain pool_configs :
  Exists (fun cfg => Run.pool cfg = None) pool_configs ->
  Run.track_chain net bnet st (chain, pool_configs) = Raise KeyError.
Proof.
  intros H. unfold Run.track_chain. now rewrite (pools_of_missing _ H).
Qed.

Lemma group_add_from chain cfg by_chain g c :
  In g (Run.group_add chain cfg by_chain) -> In c (snd g) ->
  c = cfg \/ exists g', In g' by_chain /\ In c (snd g').
Proof.
  induction by_chain as [|[c0 cfgs] rest IH]; cbn [Run.group_add].
  - intros [<-|[]] [<-|[]]. now left.
  - destruct (String.eqb c0 chain).
    + intros [<-|Hg] Hc.
      * cbn [snd] in Hc. apply in_app_or in Hc as [Hc|[<-|[]]]; [|now left].
        right. exists (c0, cfgs). split; [now left | exact Hc].
      * right. exists g. split; [now right | exact Hc].
    + intros [<-|Hg] Hc.
      * right. exists (c0, cfgs). split; [now left | exact Hc].
      * destruct (IH Hg Hc) as [->|(g' & Hg' & Hc')]; [now left|].
        right. exists g'. split; [now right | exact Hc'].
Qed.

Lemma group_add_keeps chain cfg by_chain :
  (exists g, In g (Run.group_add chain cfg by_chain) /\ In cfg (snd g))
  /\ forall g c, In g by_chain -> In c (snd g) ->
       exists g', In g' (Run.group_add chain cfg by_chain) /\ In c (snd g').
Proof.
  induction by_chain as [|[c0 cfgs] rest [IH1 IH2]]; cbn [Run.group_add].
  - split; [|intros g c []]. exists (chain, [cfg]). split; now left.
  - destruct (String.eqb c0 chain).
    + split.
      * exists (c0, (cfgs ++ [cfg])%list). split; [now left|]. cbn [snd].
        apply in_or_app. right. now left.
      * intros g c [<-|Hg] Hc.
        -- exists (c0, (cfgs ++ [cfg])%list). split; [now left|]. cbn [snd] in *.
           apply in_or_app. now left.
        -- exists g. split; [now right | exact Hc].
    + split.
      * destruct IH1 as (g & Hg & Hc). exists g. split; [now right | exact Hc].
      * intros g c [<-|Hg] Hc.
        -- exists (c0, cfgs). split; [now left | exact Hc].
        -- destruct (IH2 g c Hg Hc) as (g' & Hg' & Hc'). exists g'.
           split; [now right | exact Hc'].
Qed.

Lemma group_by_chain_spec pools_config :
  (forall g c, In g (Run.group_by_chain pools_config) -> In c (snd g) -> In c pools_config)
  /\ (forall c, In c pools_config ->
        exists g, In g (Run.group_by_chain pools_config) /\ In c (snd g)).
Proof.
  unfold Run.group_by_chain.
  assert (G : forall l acc,
    (forall g c,
       In g (fold_left (fun by_chain cfg =>
                          Run.group_add (default "ethereum" (Run.chain cfg)) cfg by_chain) l acc) ->
       In c (snd g) -> In c l \/ exists g', In g' acc /\ In c (snd g'))
    /\ (forall c, In c l \/ (exists g', In g' acc /\ In c (snd g')) ->
          exists g,
            In g (fold_left (fun by_chain cfg =>
                      Run.group_add (default "ethereum" (Run.chain cfg)) cfg by_chain) l acc)
            /\ In c (snd g))).
  { induction l as [|cfg l IH]; intros acc; cbn [fold_left].
    - split; [intros g c Hg Hc; right; eauto|]. intros c [[]|H]. exact H.
    - destruct (IH (Run.group_add (default "ethereum" (Run.chain cfg)) cfg acc)) as [I1 I2].
      destruct (group_add_keeps (default "ethereum" (Run.chain cfg)) cfg acc) as [K1 K2].
      split.
      + intros g c Hg Hc. destruct (I1 g c Hg Hc) as [H|(g' & Hg' & Hc')].
        * left. now right.
        * destruct (group_add_from _ _ _ _ _ Hg' Hc') as [->|H]; [left; now left | now right].
      + intros c [[<-|H]|(g' & Hg' & Hc')]; apply I2.
        * now right.
        * now left.
        * right. eauto. }
  destruct (G pools_config []) as [G1 G2]. split.
  - intros g c Hg Hc. destruct (G1 g c Hg Hc) as [H|(g' & [] & _)]. exact H.
  - intros c Hc. apply G2. now left.
Qed.


Lemma all_or_missing (l : list Run.Config) :
  Forall (fun cfg => Run.pool cfg <> None) l \/ Exists (fun cfg => Run.pool cfg = None) l.
Proof.
  induction l as [|cfg l [IH|IH]].
  - left. constructor.
  - destruct (Run.pool cfg) eqn:E.
    + left. constructor; [congruence | exact IH].
    + right. now constructor.
  - right. now constructor 2.
Qed.

Lemma for_each_track_missing net bnet groups :
  Exists (fun g => Exists (fun cfg => Run.pool cfg = None) (snd g)) groups ->
  (forall c, Forall (fun p => identified p = true) (Balancer.poolGetPools bnet c)) ->
  forall st, for_each (Run.track_chain net bnet) st groups = Raise KeyError.
Proof.
  intros Hg Hl. induction Hg as [[chain cfgs] groups H|[chain cfgs] groups _ IH]; intros st;
    cbn [for_each].
  - cbn [snd] in H. now rewrite (track_chain_missing net bnet st chain cfgs H).
  - destruct (all_or_missing cfgs) as [Hc|Hc].
    + destruct st as [results session].
      destruct (track_chain_ok net bnet results session chain cfgs Hc (Hl _))
        as (rs1 & s1 & E1 & _).
      rewrite E1. cbn [mbind res_mbind res_bind]. apply IH.
    + now rewrite (track_chain_missing net bnet st chain cfgs Hc).
Qed.



(** X25: one entry without [pool] makes [track_pools] raise [KeyError],
    whatever the other entries are; [fetch_and_save] passes the exception on
    and writes nothing. *)
Theorem entry_without_pool_fails_the_run net bnet session store now_save now_history
    pools_config :
  Exists (fun cfg => Run.pool cfg = None) pools_config ->
  (forall c, Forall (fun p => identified p = true) (Balancer.poolGetPools bnet c)) ->
  Run.track_pools net bnet session pools_config = Raise KeyError
  /\ Run.fetch_and_save net bnet session store now_save now_history pools_config
     = (store, Raise KeyError).
Proof.
  intros Hp Hl.
  assert (E : Run.track_pools net bnet session pools_config = Raise KeyError).
  { unfold Run.track_pools. apply for_each_track_missing; [|exact Hl].
    apply List.Exists_exists in Hp as (cfg & Hin & Hn).
    destruct (group_by_chain_spec pools_config) as [_ G].
    destruct (G cfg Hin) as (g & Hg & Hc).
    apply List.Exists_exists. exists g. split; [exact Hg|].
    apply List.Exists_exists. exists cfg. auto. }
  split; [exact E|]. unfold Run.fetch_and_save. now rewrite E.
Qed.

Lemma entry_without_pool_witness :
  Run.fetch_and_save Examples.net_down Cases.bnet (Run.__init__ true) Examples.fresh
    "2026-01-01T00:00:00Z" "2026-01-01T00:00:01Z"
    Cases.config_without_pool
  = (Examples.fresh, Raise KeyError).
Proof.
  apply (entry_without_pool_fails_the_run Examples.net_down Cases.bnet (Run.__init__ true)
           Examples.fresh "2026-01-01T00:00:00Z" "2026-01-01T00:00:01Z"
           Cases.config_without_pool).
  - apply Exists_app. right. constructor. reflexivity.
  - intros c. cbn. destruct (String.eqb c "MAINNET"); repeat constructor.
Defined.

(** ** Fetching and saving *)

Lemma append_history_latest s now l max out :
  append_history s now l max = Ok out -> latest (fst out) = latest s.
Proof.
  unfold append_history. destruct l; [now intros [= <-]|].
  destruct (setitem _ _ _); [|discriminate]. cbn [mbind res_mbind res_bind].
  destruct (for_each _ _ _); [|discriminate]. cbn [mbind res_mbind res_bind].
  now intros [= <-].
Qed.

Lemma load_latest s s' : latest s' = latest s -> load s' = load s.
Proof. unfold load. now intros ->. Qed.

Lemma entries_history s s' k : history s' = history s -> entries s' k = entries s k.
Proof. unfold entries, series_of. now intros ->. Qed.

(** X26: when tracking succeeds and the history file is missing, malformed or
    well-shaped, [fetch_and_save] returns the tracked records. Without
    records it leaves the store as it is. Otherwise [load] returns the
    records as they were serialized, the metadata is that of [save], and the
    series of every key grows by the snapshots of the records with that
    key. *)
Theorem fetch_and_save_persists_what_it_returns net bnet session store now_save now_history
    pools_config results session' :
  Run.track_pools net bnet session pools_config = Ok (results, session') ->
  file_ok (history store) ->
  exists store',
    Run.fetch_and_save net bnet session store now_save now_history pools_config
    = (store', Ok (results, session'))
    /\ (results = [] -> store' = store)
    /\ (results <> [] ->
        load store' = Ok (map reload results)
        /\ get_metadata store' = get_metadata (fst (save store now_save results)))
    /\ forall k,
         entries store' k
         = (entries store k ++ map (snapshot_of now_history) (with_key k results))%list.
Proof.
  intros E Hs. unfold Run.fetch_and_save. rewrite E.
  destruct results as [|r rs].
  { exists store. split; [reflexivity|]. split; [reflexivity|]. split; [congruence|].
    intros k. now rewrite app_nil_r. }
  set (results := r :: rs). set (saved := fst (save store now_save results)).
  assert (Hh : history saved = history store) by reflexivity.
  assert (Hs' : file_ok (history saved)) by (rewrite Hh; exact Hs).
  destruct (append_history_series saved now_history results None Hs') as (out & A & _ & T).
  rewrite A. destruct out as [store' path]. cbn [fst] in T.
  exists store'. split; [reflexivity|]. split; [discriminate|]. split.
  - intros _. pose proof (append_history_latest _ _ _ _ _ A) as L. cbn [fst] in L. split.
    + rewrite (load_latest _ _ L). apply load_after_save. discriminate.
    + unfold get_metadata. now rewrite L.
  - intros k. rewrite T, grow_unlimited. now rewrite (entries_history store saved k Hh).
Qed.

(** X27: [fetch_and_save] does not write both files or none. With a history
    file that holds an object without [pools] it raises [KeyError] after the
    snapshot file has been written with the new records; the history file is
    left as it was. *)
Theorem fetch_and_save_writes_the_snapshot_file_first net bnet session store now_save
    now_history pools_config results session' d :
  Run.track_pools net bnet session pools_config = Ok (results, session') ->
  results <> [] ->
  history store = Doc (JObj d) -> dict_get "pools" d = None ->
  let saved := fst (save store now_save results) in
  Run.fetch_and_save net bnet session store now_save now_history pools_config
  = (saved, Raise KeyError)
  /\ load saved = Ok (map reload results)
  /\ history saved = history store.
Proof.
  intros E Hne Hh Hp saved. unfold Run.fetch_and_save. rewrite E.
  destruct results as [|r rs]; [contradiction|].
  set (results := r :: rs) in *. fold saved.
  assert (A : append_history saved now_history results None = Raise KeyError).
  { unfold append_history, results. change (history saved) with (history store).
    rewrite Hh. cbn [setitem mbind res_mbind res_bind for_each].
    unfold append_snapshot. cbn [getitem].
    rewrite dict_get_set_ne by discriminate. rewrite Hp. reflexivity. }
  rewrite A. split; [reflexivity|]. split; [|reflexivity].
  apply load_after_save. discriminate.
Qed.

Lemma fetch_and_save_witness :
  exists store' rs,
    fst (Run.fetch_and_save Examples.net_down Cases.bnet (Run.__init__ true) Examples.fresh
           "2026-01-01T00:00:00Z" "2026-01-01T00:00:01Z" Cases.config) = store'
    /\ load store' = Ok rs
    /\ map name rs = ["BAL/WETH"; "Wrapped  ETH / USDC!!"; "B-80BAL-20WETH"]
    /\ length (entries store' "ethereum_bal_weth") = 1%nat.
Proof.
  destruct (Run.track_pools Examples.net_down Cases.bnet (Run.__init__ true) Cases.config)
    as [[results session']|e] eqn:E; [|vm_compute in E; discriminate E].
  destruct (fetch_and_save_persists_what_it_returns Examples.net_down Cases.bnet
              (Run.__init__ true) Examples.fresh "2026-01-01T00:00:00Z" "2026-01-01T00:00:01Z"
              Cases.config results session' E I) as (store' & F & _ & L & T).
  exists store', (map reload results). rewrite F. split; [reflexivity|].
  vm_compute in E. injection E as <- _.
  split; [apply L; discriminate|]. split; [reflexivity|].
  rewrite T. reflexivity.
Defined.

Lemma snapshot_file_first_witness :
  exists store' rs,
    Run.fetch_and_save Examples.net_down Cases.bnet (Run.__init__ true)
      Cases.without_pools
      "2026-01-01T00:00:00Z" "2026-01-01T00:00:01Z" Cases.config
    = (store', Raise KeyError)
    /\ load store' = Ok rs
    /\ map name rs = ["BAL/WETH"; "Wrapped  ETH / USDC!!"; "B-80BAL-20WETH"]
    /\ history store' = Doc (JObj []).
Proof.
  destruct (Run.track_pools Examples.net_down Cases.bnet (Run.__init__ true) Cases.config)
    as [[results session']|e] eqn:E; [|vm_compute in E; discriminate E].
  assert (Hne : results <> []).
  { intros ->. vm_compute in E. discriminate E. }
  destruct (fetch_and_save_writes_the_snapshot_file_first Examples.net_down Cases.bnet
              (Run.__init__ true) Cases.without_pools
              "2026-01-01T00:00:00Z" "2026-01-01T00:00:01Z" Cases.config results session' []
              E Hne eq_refl eq_refl) as (F & L & H).
  eexists _, (map reload results). split; [exact F|]. split; [exact L|].
  split; [|exact H]. vm_compute in E. injection E as <- _. reflexivity.
Defined.
